(** * The PCIe bandwidth sweep driver ([pcie_bw_gradio_ui.py])

    A shallow embedding of [run_pcie_model], the function behind the
    "Calculate and Visualize" button, together with the part of the [model]
    package it calls.  The driver is embedded from its source; the [model]
    package ([pcie], [eth], [mem_bw], [simple_nic], [niantic]) is imported by
    the driver but is not part of the sources at hand, so the driver is stated
    over an interface ([ModelPackage]) and the package itself is modelled
    from the specification in [Module SpecModel]. *)

From Stdlib Require Import ZArith List String Ascii Lia.
From Stdlib Require Import DecimalString Uint63 PrimFloat FloatOps SpecFloat.
From stdpp Require Import base option list list_numbers strings gmap.

Set Warnings "-inexact-float".

Local Open Scope Z_scope.

(** ** Python values the driver handles *)

(** Python's [float] is an IEEE 754 binary64, which is what Rocq's primitive
    [float] is.  This is [float(n)] for an integer within the 63-bit range
    (every integer converted here is far below it). *)
Definition float_of_int (n : Z) : float :=
  if n <? 0 then PrimFloat.opp (PrimFloat.of_uint63 (Uint63.of_Z (- n)))
  else PrimFloat.of_uint63 (Uint63.of_Z n).

(** Exceptions.  [ConfigurationError] and [InvalidSizeError] are the two
    classes of the engine's error taxonomy; [ValueError] is what [int()] and
    [pd.DataFrame] raise, [FileExistsError] what [tempfile] raises when it
    finds no unused name. *)
Inductive exn : Type :=
  | ConfigurationError (msg : string)
  | InvalidSizeError (msg : string)
  | ValueError (msg : string)
  | FileExistsError (msg : string)
  | OtherError (msg : string).

Inductive result (A : Type) : Type :=
  | Ok (a : A)
  | Raise (e : exn).
Arguments Ok {A} a.
Arguments Raise {A} e.

Definition is_Ok {A} (r : result A) : bool :=
  match r with Ok _ => true | Raise _ => false end.

#[export] Instance result_ret : MRet result := fun A a => Ok a.

#[export] Instance result_bind : MBind result := fun A B k r =>
  match r with
  | Ok a => k a
  | Raise e => Raise e
  end.

(** *** [int(s)] on a string *)

Definition is_space (c : ascii) : bool :=
  let n := nat_of_ascii c in
  ((9 <=? n)%nat && (n <=? 13)%nat) || ((28 <=? n)%nat && (n <=? 32)%nat).

Definition is_digit (c : ascii) : bool :=
  let n := nat_of_ascii c in (48 <=? n)%nat && (n <=? 57)%nat.

Definition digit_value (c : ascii) : Z := Z.of_nat (nat_of_ascii c) - 48.

Fixpoint lstrip (s : string) : string :=
  match s with
  | String c s' => if is_space c then lstrip s' else s
  | EmptyString => EmptyString
  end.

Definition strip (s : string) : string :=
  String.rev (lstrip (String.rev (lstrip s))).

(** Decimal digits, where a single underscore may separate two digits.
    [after_digit] tells whether the previous character was a digit. *)
Fixpoint parse_digits (acc : Z) (after_digit : bool) (s : string) : option Z :=
  match s with
  | EmptyString => if after_digit then Some acc else None
  | String c s' =>
      if is_digit c then parse_digits (10 * acc + digit_value c) true s'
      else if Ascii.eqb c "_" then
        if after_digit then parse_digits acc false s' else None
      else None
  end.

Definition int_of_str (s : string) : result Z :=
  let body := strip s in
  let parsed :=
    match body with
    | String "-" ds => Z.opp <$> parse_digits 0 false ds
    | String "+" ds => parse_digits 0 false ds
    | _ => parse_digits 0 false body
    end in
  match parsed with
  | Some n => Ok n
  | None => Raise (ValueError ("invalid literal for int() with base 10: " +:+ s))
  end.

(** The five conversions [run_pcie_model] starts with, in order. *)
Definition int_params (addr_width ecrc mps mrrs rcb : string)
  : result (Z * Z * Z * Z * Z) :=
  a ← int_of_str addr_width;
  e ← int_of_str ecrc;
  m ← int_of_str mps;
  r ← int_of_str mrrs;
  c ← int_of_str rcb;
  mret (a, e, m, r, c).

(** *** [str(n)] and the [:.2f] format *)

Definition str_of_int (n : Z) : string := NilZero.string_of_int (Z.to_int n).

(** The nearest integer to [n / d] ([d > 0]), ties to the even one. *)
Definition round_half_even (n d : Z) : Z :=
  let q := n / d in
  let r := n mod d in
  if 2 * r <? d then q
  else if d <? 2 * r then q + 1
  else if Z.even q then q else q + 1.

(** [hundredths x] is [|x| * 100] rounded to an integer, for a finite [x]
    given by its mantissa and exponent. *)
Definition hundredths (m : positive) (e : Z) : Z :=
  if 0 <=? e then Z.pos m * 100 * 2 ^ e
  else round_half_even (Z.pos m * 100) (2 ^ (- e)).

Definition two_digits (n : Z) : string :=
  if n <? 10 then "0" +:+ str_of_int n else str_of_int n.

Definition sign_str (s : bool) : string := if s then "-" else "".

(** [f"{x:.2f}"]. *)
Definition format_2f (x : float) : string :=
  match Prim2SF x with
  | S754_nan => "nan"
  | S754_infinity s => sign_str s +:+ "inf"
  | S754_zero s => sign_str s +:+ "0.00"
  | S754_finite s m e =>
      let h := hundredths m e in
      sign_str s +:+ str_of_int (h / 100) +:+ "." +:+ two_digits (h mod 100)
  end.

(** [range(lo, hi)]. *)
Definition range (lo hi : Z) : list Z := seqZ lo (hi - lo).

(** [l[::k]] for a step [k >= 1]: the elements at positions 0, k, 2k, ...
    [skip] counts the elements still to pass over. *)
Fixpoint slice_step_from {A} (k skip : nat) (l : list A) : list A :=
  match l with
  | [] => []
  | x :: l' =>
      match skip with
      | O => x :: slice_step_from k (k - 1) l'
      | S skip' => slice_step_from k skip' l'
      end
  end.

Definition slice_step {A} (k : nat) (l : list A) : list A :=
  slice_step_from k 0 l.

(** *** [dict] literals

    A dict keeps its keys in insertion order; a key given twice keeps its
    first position and takes the last value. *)
Definition dict_set {V} (k : string) (v : V) (d : list (string * V))
  : list (string * V) :=
  if existsb (fun kv => String.eqb k (fst kv)) d
  then map (fun kv => if String.eqb k (fst kv) then (fst kv, v) else kv) d
  else d ++ [(k, v)].

Definition dict_of_items {V} (items : list (string * V)) : list (string * V) :=
  fold_left (fun d kv => dict_set (fst kv) (snd kv) d) items [].

(** [sep.join(lines)]. *)
Fixpoint join (sep : string) (lines : list string) : string :=
  match lines with
  | [] => ""
  | [s] => s
  | s :: rest => s +:+ sep +:+ join sep rest
  end.

Definition newline : string := String (ascii_of_nat 10) EmptyString.

(** ** The [model] package as the driver uses it

    The driver imports [pcie], [eth], [mem_bw], [simple_nic] and [niantic]
    from the [model] package.  The types below carry exactly the attributes
    the driver reads and the arguments it passes. *)

Module pcie.

(** [pcie.Cfg]: the attributes printed into the configuration text. *)
Record Cfg : Type := {
  version : string;
  lanes : string;
  addr : Z;
  ecrc : Z;
  mps : Z;
  mrrs : Z;
  rcb : Z;
  TLP_bw : float;
  RAW_bw : float
}.

(** The mode constants of [pcie.BW_Spec]; the driver names [BW_RAW] only,
    the other one is the specification's TLP-layer mode. *)
Inductive BW_Type : Type := BW_RAW | BW_TLP.

(** [pcie.BW_Spec(a, b, mode)]: the driver passes two bandwidth figures and
    a mode, by position. *)
Record BW_Spec : Type := {
  bw_1 : float;
  bw_2 : float;
  bw_type : BW_Type
}.

(** Transfer directions; the driver names [DIR_BOTH] only. *)
Inductive Dir : Type := DIR_RX | DIR_TX | DIR_BOTH.

End pcie.

(** What [mem_bw.write], [mem_bw.read], [mem_bw.read_write], [simple_nic.bw]
    and [niantic.bw] return: the driver reads [tx_eff] and [rx_eff]; either
    may be unset ([None]) for a one-directional transfer. *)
Record TransferResult : Type := {
  tx_eff : option float;
  rx_eff : option float
}.

Module eth.

(** [eth.Cfg]: the driver only calls its method [bps_ex]. *)
Record Cfg : Type := {
  bps_ex : Z -> result float
}.

End eth.

(** The functions of the package the driver calls.  They are functions of
    their arguments alone: the engine keeps no state. *)
Class ModelPackage : Type := {
  pcie_Cfg : string -> string -> Z -> Z -> Z -> Z -> Z -> result pcie.Cfg;
  eth_Cfg : string -> result eth.Cfg;
  mem_bw_write : pcie.Cfg -> pcie.BW_Spec -> Z -> result TransferResult;
  mem_bw_read : pcie.Cfg -> pcie.BW_Spec -> Z -> result TransferResult;
  mem_bw_read_write : pcie.Cfg -> pcie.BW_Spec -> Z -> result TransferResult;
  simple_nic_bw :
    pcie.Cfg -> pcie.BW_Spec -> pcie.Dir -> Z -> result TransferResult;
  (** [h_opt] is [None] when the argument is left out. *)
  niantic_bw :
    pcie.Cfg -> pcie.BW_Spec -> pcie.Dir -> Z -> option string ->
    result TransferResult
}.

(** ** The world around the driver *)

(** A call into the [model] package, with the arguments it received. *)
Inductive Call : Type :=
  | Call_pcie_Cfg (version lanes : string) (addr ecrc mps mrrs rcb : Z)
  | Call_eth_Cfg (speed : string)
  | Call_mem_bw_write (cfg : pcie.Cfg) (bw : pcie.BW_Spec) (size : Z)
  | Call_mem_bw_read (cfg : pcie.Cfg) (bw : pcie.BW_Spec) (size : Z)
  | Call_mem_bw_read_write (cfg : pcie.Cfg) (bw : pcie.BW_Spec) (size : Z)
  | Call_bps_ex (ethcfg : eth.Cfg) (size : Z)
  | Call_simple_nic_bw
      (cfg : pcie.Cfg) (bw : pcie.BW_Spec) (dir : pcie.Dir) (size : Z)
  | Call_niantic_bw
      (cfg : pcie.Cfg) (bw : pcie.BW_Spec) (dir : pcie.Dir) (size : Z)
      (h_opt : option string).

(** The payload size a per-size call received. *)
Definition call_size (c : Call) : option Z :=
  match c with
  | Call_pcie_Cfg _ _ _ _ _ _ _ | Call_eth_Cfg _ => None
  | Call_mem_bw_write _ _ n | Call_mem_bw_read _ _ n
  | Call_mem_bw_read_write _ _ n | Call_bps_ex _ n
  | Call_simple_nic_bw _ _ _ n | Call_niantic_bw _ _ _ n _ => Some n
  end.

(** The PCIe configuration a per-size call received. *)
Definition call_cfg (c : Call) : option pcie.Cfg :=
  match c with
  | Call_mem_bw_write cfg _ _ | Call_mem_bw_read cfg _ _
  | Call_mem_bw_read_write cfg _ _ | Call_simple_nic_bw cfg _ _ _
  | Call_niantic_bw cfg _ _ _ _ => Some cfg
  | _ => None
  end.

(** The bandwidth basis a per-size call received. *)
Definition call_bw_spec (c : Call) : option pcie.BW_Spec :=
  match c with
  | Call_mem_bw_write _ bw _ | Call_mem_bw_read _ bw _
  | Call_mem_bw_read_write _ bw _ | Call_simple_nic_bw _ bw _ _
  | Call_niantic_bw _ bw _ _ _ => Some bw
  | _ => None
  end.

(** The file system (path to contents) and the source of the random part of
    temporary file names: [candidates i] is the i-th name [tempfile] draws,
    [drawn] counts the names drawn so far. *)
Record World : Type := {
  files : gmap string string;
  tmpdir : string;
  candidates : nat -> string;
  drawn : nat
}.

(** The state a run threads: the world, and the calls made into the [model]
    package so far, oldest first. *)
Record State : Type := {
  world : World;
  calls : list Call
}.

(** Computations that read and write the state and may raise.  A raised
    exception keeps the effects that came before it. *)
Definition M (A : Type) : Type := State -> result A * State.

#[export] Instance M_ret : MRet M := fun A a st => (Ok a, st).

#[export] Instance M_bind : MBind M := fun A B k m st =>
  match m st with
  | (Ok a, st') => k a st'
  | (Raise e, st') => (Raise e, st')
  end.

(** A pure expression that may raise. *)
Definition lift {A} (r : result A) : M A := fun st => (r, st).

(** A call into the [model] package: the call is recorded, its outcome is
    the outcome of the package's function. *)
Definition invoke {A} (c : Call) (r : result A) : M A :=
  fun st => (r, {| world := world st; calls := calls st ++ [c] |}).

(** [for x in l: acc = body(acc, x)]. *)
Fixpoint for_each {A S} (body : S -> A -> M S) (acc : S) (l : list A) : M S :=
  match l with
  | [] => mret acc
  | x :: l' => acc' ← body acc x; for_each body acc' l'
  end.

(** *** [tempfile.NamedTemporaryFile]

    [tempfile] draws random names until it finds one that does not exist, at
    most [TMP_MAX] times, and creates that file empty. *)
Definition TMP_MAX : nat := Z.to_nat 10000.

Definition tmp_path (w : World) (suffix : string) (i : nat) : string :=
  tmpdir w +:+ "/tmp" +:+ candidates w i +:+ suffix.

Fixpoint find_unused (w : World) (suffix : string) (i fuel : nat) : option nat :=
  match fuel with
  | O => None
  | S fuel' =>
      match files w !! tmp_path w suffix i with
      | None => Some i
      | Some _ => find_unused w suffix (S i) fuel'
      end
  end.

(** [with tempfile.NamedTemporaryFile(delete=d, suffix=s) as f: name = f.name]:
    the file is created empty and closed at the end of the block, where it
    is removed again only when [delete] is set. *)
Definition NamedTemporaryFile (delete : bool) (suffix : string) : M string :=
  fun st =>
    let w := world st in
    match find_unused w suffix (drawn w) TMP_MAX with
    | Some i =>
        let name := tmp_path w suffix i in
        (Ok name,
         {| world := {| files := if delete then files w
                                 else <[name := EmptyString]> (files w);
                        tmpdir := tmpdir w;
                        candidates := candidates w;
                        drawn := S i |};
            calls := calls st |})
    | None =>
        (Raise (FileExistsError "No usable temporary file name found"),
         {| world := {| files := files w;
                        tmpdir := tmpdir w;
                        candidates := candidates w;
                        drawn := (drawn w + TMP_MAX)%nat |};
            calls := calls st |})
    end.

(** ** What the driver hands to the display *)

(** [plotly.graph_objects]: the figure attributes the driver sets. *)
Module go.

Record Line : Type := {
  color : string;
  width : Z;
  dash : option string
}.

Record Scatter : Type := {
  x : list Z;
  y : list (option float);
  mode : string;
  name : string;
  line : Line;
  hovertemplate : option string
}.

Record Legend : Type := {
  orientation : string;
  yanchor : string;
  legend_y : float;
  xanchor : string;
  legend_x : Z
}.

Record Margin : Type := {
  margin_l : Z;
  margin_r : Z;
  margin_t : Z;
  margin_b : Z
}.

Record Axis : Type := {
  axis_title : option string;
  axis_range : option (Z * Z);
  showgrid : option bool;
  gridwidth : option Z;
  gridcolor : option string
}.

Record Layout : Type := {
  title : option string;
  xaxis : Axis;
  yaxis : Axis;
  hovermode : option string;
  legend : option Legend;
  margin : option Margin;
  height : option Z;
  layout_width : option Z;
  autosize : option bool
}.

Record Figure : Type := {
  data : list Scatter;
  layout : Layout
}.

Definition empty_axis : Axis :=
  {| axis_title := None; axis_range := None; showgrid := None;
     gridwidth := None; gridcolor := None |}.

(** [go.Figure()]. *)
Definition new_Figure : Figure :=
  {| data := [];
     layout := {| title := None; xaxis := empty_axis; yaxis := empty_axis;
                  hovermode := None; legend := None; margin := None;
                  height := None; layout_width := None; autosize := None |} |}.

Definition add_trace (tr : Scatter) (fig : Figure) : Figure :=
  {| data := data fig ++ [tr]; layout := layout fig |}.

Definition set_grid (a : Axis) (w : Z) (c : string) : Axis :=
  {| axis_title := axis_title a; axis_range := axis_range a;
     showgrid := Some true; gridwidth := Some w; gridcolor := Some c |}.

Definition set_range (a : Axis) (lo hi : Z) : Axis :=
  {| axis_title := axis_title a; axis_range := Some (lo, hi);
     showgrid := showgrid a; gridwidth := gridwidth a;
     gridcolor := gridcolor a |}.

Definition set_title (a : Axis) (s : string) : Axis :=
  {| axis_title := Some s; axis_range := axis_range a;
     showgrid := showgrid a; gridwidth := gridwidth a;
     gridcolor := gridcolor a |}.

Definition with_xaxis (f : Axis -> Axis) (fig : Figure) : Figure :=
  let lay := layout fig in
  {| data := data fig;
     layout := {| title := title lay; xaxis := f (xaxis lay);
                  yaxis := yaxis lay; hovermode := hovermode lay;
                  legend := legend lay; margin := margin lay;
                  height := height lay; layout_width := layout_width lay;
                  autosize := autosize lay |} |}.

Definition with_yaxis (f : Axis -> Axis) (fig : Figure) : Figure :=
  let lay := layout fig in
  {| data := data fig;
     layout := {| title := title lay; xaxis := xaxis lay;
                  yaxis := f (yaxis lay); hovermode := hovermode lay;
                  legend := legend lay; margin := margin lay;
                  height := height lay; layout_width := layout_width lay;
                  autosize := autosize lay |} |}.

(** [fig.update_xaxes(range=[lo, hi])]. *)
Definition update_xaxes_range (lo hi : Z) : Figure -> Figure :=
  with_xaxis (fun a => set_range a lo hi).

(** [fig.update_xaxes(showgrid=True, gridwidth=w, gridcolor=c)] and the
    same for the y axis. *)
Definition update_xaxes_grid (w : Z) (c : string) : Figure -> Figure :=
  with_xaxis (fun a => set_grid a w c).

Definition update_yaxes_grid (w : Z) (c : string) : Figure -> Figure :=
  with_yaxis (fun a => set_grid a w c).

(** [fig.update_layout(title=.., xaxis_title=.., yaxis_title=.., ..)] with
    the keywords the driver gives. *)
Definition update_layout
    (ttl xttl yttl hov : string) (leg : Legend) (mar : Margin)
    (h w : Z) (auto : bool) (fig : Figure) : Figure :=
  let lay := layout fig in
  {| data := data fig;
     layout := {| title := Some ttl;
                  xaxis := set_title (xaxis lay) xttl;
                  yaxis := set_title (yaxis lay) yttl;
                  hovermode := Some hov;
                  legend := Some leg;
                  margin := Some mar;
                  height := Some h;
                  layout_width := Some w;
                  autosize := Some auto |} |}.

(** [fig.update_traces(hovertemplate=t)]: every trace takes the template. *)
Definition update_traces (t : string) (fig : Figure) : Figure :=
  {| data := map (fun tr => {| x := x tr; y := y tr; mode := mode tr;
                               name := name tr; line := line tr;
                               hovertemplate := Some t |}) (data fig);
     layout := layout fig |}.

End go.

(** [pandas]: a frame is its columns, in order, under a row index. *)
Module pd.

Inductive cell : Type :=
  | Int (n : Z)
  | Float (v : option float).

Record Frame : Type := {
  columns : list (string * list cell);
  index : list Z
}.

(** [pd.DataFrame(d)] for a dict of lists: the lists must have one length. *)
Definition DataFrame (d : list (string * list cell)) : result Frame :=
  match d with
  | [] => Ok {| columns := []; index := [] |}
  | (_, c0) :: _ =>
      if forallb (fun kc => Nat.eqb (length (snd kc)) (length c0)) d
      then Ok {| columns := d; index := range 0 (Z.of_nat (length c0)) |}
      else Raise (ValueError "All arrays must be of the same length")
  end.

(** [df.iloc[::k]]: every k-th row, each with the index label it had. *)
Definition iloc_step (k : nat) (df : Frame) : Frame :=
  {| columns := map (fun kc => (fst kc, slice_step k (snd kc))) (columns df);
     index := slice_step k (index df) |}.

(** [df.reset_index(drop=True)]: the rows are numbered from 0 again. *)
Definition reset_index_drop (df : Frame) : Frame :=
  {| columns := columns df;
     index := range 0 (Z.of_nat (length (index df))) |}.

(** The cells of one row, in column order. *)
Definition row (df : Frame) (i : nat) : list (option cell) :=
  map (fun kc => snd kc !! i) (columns df).

Definition column_names (df : Frame) : list string := map fst (columns df).

Definition n_rows (df : Frame) : nat := length (index df).

End pd.

(** ** The driver: [run_pcie_model] *)

(** The eight lists the sweep fills, one entry per size. *)
Record Series : Type := {
  sizes : list Z;
  wr_bw_values : list (option float);
  rd_bw_values : list (option float);
  rdwr_bw_values : list (option float);
  eth_bw_values : list (option float);
  simple_nic_bi_values : list (option float);
  kernel_nic_bi_values : list (option float);
  pmd_nic_bi_values : list (option float)
}.

Definition empty_series : Series :=
  {| sizes := []; wr_bw_values := []; rd_bw_values := [];
     rdwr_bw_values := []; eth_bw_values := [];
     simple_nic_bi_values := []; kernel_nic_bi_values := [];
     pmd_nic_bi_values := [] |}.

(** The lengths of the eight lists. *)
Definition series_lengths (s : Series) : list nat :=
  [ length (sizes s); length (wr_bw_values s); length (rd_bw_values s);
    length (rdwr_bw_values s); length (eth_bw_values s);
    length (simple_nic_bi_values s); length (kernel_nic_bi_values s);
    length (pmd_nic_bi_values s) ].

(** The fixed column names of the table. *)
Definition fixed_columns : list string :=
  [ "Transfer Size (Bytes)"; "PCIe Write BW (Gb/s)"; "PCIe Read BW (Gb/s)";
    "PCIe Read/Write BW (Gb/s)"; "Simple NIC (Gb/s)";
    "Modern NIC (kernel driver) (Gb/s)"; "Modern NIC (DPDK driver) (Gb/s)"
  ]%string.

(** [f'{ethernet_speed} (Gb/s)']. *)
Definition eth_column (ethernet_speed : string) : string :=
  ethernet_speed +:+ " (Gb/s)".

(** The dict the table is built from. *)
Definition table_items (ethernet_speed : string) (s : Series)
  : list (string * list pd.cell) :=
  [ ("Transfer Size (Bytes)"%string, map pd.Int (sizes s));
    ("PCIe Write BW (Gb/s)"%string, map pd.Float (wr_bw_values s));
    ("PCIe Read BW (Gb/s)"%string, map pd.Float (rd_bw_values s));
    ("PCIe Read/Write BW (Gb/s)"%string, map pd.Float (rdwr_bw_values s));
    (eth_column ethernet_speed, map pd.Float (eth_bw_values s));
    ("Simple NIC (Gb/s)"%string, map pd.Float (simple_nic_bi_values s));
    ("Modern NIC (kernel driver) (Gb/s)"%string,
     map pd.Float (kernel_nic_bi_values s));
    ("Modern NIC (DPDK driver) (Gb/s)"%string,
     map pd.Float (pmd_nic_bi_values s)) ].

Definition scatter (xs : list Z) (ys : list (option float))
    (nm col : string) (dsh : option string) : go.Scatter :=
  {| go.x := xs; go.y := ys; go.mode := "lines"; go.name := nm;
     go.line := {| go.color := col; go.width := 2; go.dash := dsh |};
     go.hovertemplate := None |}.

(** The plot: five of the series against the sizes. *)
Definition make_figure (ethernet_speed : string) (s : Series) : go.Figure :=
  let fig := go.new_Figure in
  let fig := go.add_trace
    (scatter (sizes s) (rdwr_bw_values s) "Effective PCIe BW" "black" None) fig in
  let fig := go.add_trace
    (scatter (sizes s) (eth_bw_values s) ethernet_speed "blue"
       (Some "dash"%string)) fig in
  let fig := go.add_trace
    (scatter (sizes s) (simple_nic_bi_values s) "Simple NIC" "green"
       (Some "dot"%string)) fig in
  let fig := go.add_trace
    (scatter (sizes s) (kernel_nic_bi_values s) "Modern NIC (kernel driver)"
       "gray" (Some "dashdot"%string)) fig in
  let fig := go.add_trace
    (scatter (sizes s) (pmd_nic_bi_values s) "Modern NIC (DPDK driver)"
       "red" None) fig in
  let fig := go.update_layout
    "PCIe and Ethernet Bandwidth Comparison"
    "Transfer Size (Bytes)" "Bandwidth (Gb/s)" "closest"
    {| go.orientation := "h"; go.yanchor := "bottom"; go.legend_y := 1.02;
       go.xanchor := "right"; go.legend_x := 1 |}
    {| go.margin_l := 40; go.margin_r := 20; go.margin_t := 60;
       go.margin_b := 40 |}
    700 1000 true fig in
  let fig := go.update_xaxes_range 64 1500 fig in
  let fig := go.update_xaxes_grid 1 "LightGray" fig in
  let fig := go.update_yaxes_grid 1 "LightGray" fig in
  go.update_traces
    "<b>Size</b>: %{x} bytes<br><b>Bandwidth</b>: %{y:.2f} Gb/s" fig.

(** The lines of the configuration text. *)
Definition config_info (pciecfg : pcie.Cfg) : list string :=
  [ "PCIe Config:"%string;
    "  Version:    " +:+ pcie.version pciecfg;
    "  Lanes:      " +:+ pcie.lanes pciecfg;
    "  Addr bits:  " +:+ str_of_int (pcie.addr pciecfg);
    "  ECRC:       " +:+ str_of_int (pcie.ecrc pciecfg);
    "  MPS:        " +:+ str_of_int (pcie.mps pciecfg);
    "  MRRS:       " +:+ str_of_int (pcie.mrrs pciecfg);
    "  RCB:        " +:+ str_of_int (pcie.rcb pciecfg);
    "  TLP BW:     " +:+ format_2f (pcie.TLP_bw pciecfg) +:+ " Gb/s";
    "  RAW BW:     " +:+ format_2f (pcie.RAW_bw pciecfg) +:+ " Gb/s" ].

(** [tlp_bw = pciecfg.TLP_bw; pcie.BW_Spec(tlp_bw, tlp_bw, pcie.BW_Spec.BW_RAW)]. *)
Definition make_bw_spec (pciecfg : pcie.Cfg) : pcie.BW_Spec :=
  let tlp_bw := pcie.TLP_bw pciecfg in
  {| pcie.bw_1 := tlp_bw; pcie.bw_2 := tlp_bw; pcie.bw_type := pcie.BW_RAW |}.

Section Driver.

Context {model : ModelPackage}.

(** The calls into the package, each recorded with its arguments. *)
Definition call_pcie_Cfg (version lanes : string) (addr ecrc mps mrrs rcb : Z)
  : M pcie.Cfg :=
  invoke (Call_pcie_Cfg version lanes addr ecrc mps mrrs rcb)
         (pcie_Cfg version lanes addr ecrc mps mrrs rcb).

Definition call_eth_Cfg (speed : string) : M eth.Cfg :=
  invoke (Call_eth_Cfg speed) (eth_Cfg speed).

Definition call_mem_bw_write cfg bw (size : Z) : M TransferResult :=
  invoke (Call_mem_bw_write cfg bw size) (mem_bw_write cfg bw size).

Definition call_mem_bw_read cfg bw (size : Z) : M TransferResult :=
  invoke (Call_mem_bw_read cfg bw size) (mem_bw_read cfg bw size).

Definition call_mem_bw_read_write cfg bw (size : Z) : M TransferResult :=
  invoke (Call_mem_bw_read_write cfg bw size) (mem_bw_read_write cfg bw size).

Definition call_bps_ex (ethcfg : eth.Cfg) (size : Z) : M float :=
  invoke (Call_bps_ex ethcfg size) (eth.bps_ex ethcfg size).

Definition call_simple_nic_bw cfg bw dir (size : Z) : M TransferResult :=
  invoke (Call_simple_nic_bw cfg bw dir size) (simple_nic_bw cfg bw dir size).

Definition call_niantic_bw cfg bw dir (size : Z) (h_opt : option string)
  : M TransferResult :=
  invoke (Call_niantic_bw cfg bw dir size h_opt)
         (niantic_bw cfg bw dir size h_opt).

(** The body of [for size in range(64, 1500 + 1)]. *)
Definition sweep_body (pciecfg : pcie.Cfg) (bw_spec : pcie.BW_Spec)
    (ethcfg : eth.Cfg) (acc : Series) (size : Z) : M Series :=
  wr_bw ← call_mem_bw_write pciecfg bw_spec (size - 4);
  rd_bw ← call_mem_bw_read pciecfg bw_spec (size - 4);
  rdwr_bw ← call_mem_bw_read_write pciecfg bw_spec (size - 4);
  bps ← call_bps_ex ethcfg (size - 4);
  let eth_bw :=
    PrimFloat.div bps (PrimFloat.mul (float_of_int (1000 * 1000)) 1000.0) in
  simple_nic_bi ← call_simple_nic_bw pciecfg bw_spec pcie.DIR_BOTH (size - 4);
  kernel_nic_bi ←
    call_niantic_bw pciecfg bw_spec pcie.DIR_BOTH (size - 4) None;
  pmd_nic_bi ←
    call_niantic_bw pciecfg bw_spec pcie.DIR_BOTH (size - 4)
      (Some "PMD"%string);
  mret {| sizes := sizes acc ++ [size];
          wr_bw_values := wr_bw_values acc ++ [tx_eff wr_bw];
          rd_bw_values := rd_bw_values acc ++ [rx_eff rd_bw];
          rdwr_bw_values := rdwr_bw_values acc ++ [tx_eff rdwr_bw];
          eth_bw_values := eth_bw_values acc ++ [Some eth_bw];
          simple_nic_bi_values :=
            simple_nic_bi_values acc ++ [tx_eff simple_nic_bi];
          kernel_nic_bi_values :=
            kernel_nic_bi_values acc ++ [tx_eff kernel_nic_bi];
          pmd_nic_bi_values :=
            pmd_nic_bi_values acc ++ [tx_eff pmd_nic_bi] |}.

(** The sweep: the loop over the sizes, from empty lists. *)
Definition sweep (pciecfg : pcie.Cfg) (bw_spec : pcie.BW_Spec)
    (ethcfg : eth.Cfg) : M Series :=
  for_each (sweep_body pciecfg bw_spec ethcfg) empty_series
           (range 64 (1500 + 1)).

(** [run_pcie_model].  The UI hands every dropdown value over as a string.
    The figure's JSON form, computed last in the source, is dropped there
    and is left out here. *)
Definition run_pcie_model
    (pcie_version lanes addr_width ecrc mps mrrs rcb ethernet_speed : string)
  : M (string * go.Figure * pd.Frame) :=
  addr_width ← lift (int_of_str addr_width);
  ecrc ← lift (int_of_str ecrc);
  mps ← lift (int_of_str mps);
  mrrs ← lift (int_of_str mrrs);
  rcb ← lift (int_of_str rcb);
  pciecfg ← call_pcie_Cfg pcie_version lanes addr_width ecrc mps mrrs rcb;
  let info := config_info pciecfg in
  ethcfg ← call_eth_Cfg ethernet_speed;
  let bw_spec := make_bw_spec pciecfg in
  data_file ← NamedTemporaryFile false ".dat";
  series ← sweep pciecfg bw_spec ethcfg;
  df ← lift (pd.DataFrame (dict_of_items (table_items ethernet_speed series)));
  let sampled_df := pd.reset_index_drop (pd.iloc_step 64 df) in
  let fig := make_figure ethernet_speed series in
  mret (join newline info, fig, sampled_df).

End Driver.

(** ** The calls of a run and their outcomes, as functions of the arguments

    The engine's functions have no state, so which calls a sweep makes, in
    which order, and what it collects can be read off the arguments. *)

(** The exception a call raised, if any. *)
Definition outcome {A} (r : result A) : option exn :=
  match r with Ok _ => None | Raise e => Some e end.

(** The first exception in a sequence of attempted calls. *)
Fixpoint first_error (l : list (Call * option exn)) : option exn :=
  match l with
  | [] => None
  | (_, Some e) :: _ => Some e
  | (_, None) :: l' => first_error l'
  end.

(** The calls really made: all up to and including the first that raises. *)
Fixpoint executed (l : list (Call * option exn)) : list Call :=
  match l with
  | [] => []
  | (c, Some _) :: _ => [c]
  | (c, None) :: l' => c :: executed l'
  end.

Definition tx_of (r : result TransferResult) : option float :=
  match r with Ok t => tx_eff t | Raise _ => None end.

Definition rx_of (r : result TransferResult) : option float :=
  match r with Ok t => rx_eff t | Raise _ => None end.

Section Outcomes.

Context {model : ModelPackage}.

(** The seven calls the loop body makes with payload [n], in order. *)
Definition size_calls (cfg : pcie.Cfg) (bw : pcie.BW_Spec)
    (ethcfg : eth.Cfg) (n : Z) : list Call :=
  [ Call_mem_bw_write cfg bw n;
    Call_mem_bw_read cfg bw n;
    Call_mem_bw_read_write cfg bw n;
    Call_bps_ex ethcfg n;
    Call_simple_nic_bw cfg bw pcie.DIR_BOTH n;
    Call_niantic_bw cfg bw pcie.DIR_BOTH n None;
    Call_niantic_bw cfg bw pcie.DIR_BOTH n (Some "PMD"%string) ].

(** The same calls, each with what the package answers. *)
Definition size_attempts (cfg : pcie.Cfg) (bw : pcie.BW_Spec)
    (ethcfg : eth.Cfg) (n : Z) : list (Call * option exn) :=
  [ (Call_mem_bw_write cfg bw n, outcome (mem_bw_write cfg bw n));
    (Call_mem_bw_read cfg bw n, outcome (mem_bw_read cfg bw n));
    (Call_mem_bw_read_write cfg bw n, outcome (mem_bw_read_write cfg bw n));
    (Call_bps_ex ethcfg n, outcome (eth.bps_ex ethcfg n));
    (Call_simple_nic_bw cfg bw pcie.DIR_BOTH n,
     outcome (simple_nic_bw cfg bw pcie.DIR_BOTH n));
    (Call_niantic_bw cfg bw pcie.DIR_BOTH n None,
     outcome (niantic_bw cfg bw pcie.DIR_BOTH n None));
    (Call_niantic_bw cfg bw pcie.DIR_BOTH n (Some "PMD"%string),
     outcome (niantic_bw cfg bw pcie.DIR_BOTH n (Some "PMD"%string))) ].

(** The attempts of a sweep over the sizes [l]. *)
Definition sweep_attempts (cfg : pcie.Cfg) (bw : pcie.BW_Spec)
    (ethcfg : eth.Cfg) (l : list Z) : list (Call * option exn) :=
  flat_map (fun size => size_attempts cfg bw ethcfg (size - 4)) l.

(** The value each column takes at a gross size. *)
Definition wr_bw_at cfg bw (size : Z) : option float :=
  tx_of (mem_bw_write cfg bw (size - 4)).

Definition rd_bw_at cfg bw (size : Z) : option float :=
  rx_of (mem_bw_read cfg bw (size - 4)).

Definition rdwr_bw_at cfg bw (size : Z) : option float :=
  tx_of (mem_bw_read_write cfg bw (size - 4)).

Definition eth_bw_at (ethcfg : eth.Cfg) (size : Z) : option float :=
  match eth.bps_ex ethcfg (size - 4) with
  | Ok bps =>
      Some (PrimFloat.div bps
              (PrimFloat.mul (float_of_int (1000 * 1000)) 1000.0))
  | Raise _ => None
  end.

Definition simple_nic_bi_at cfg bw (size : Z) : option float :=
  tx_of (simple_nic_bw cfg bw pcie.DIR_BOTH (size - 4)).

Definition kernel_nic_bi_at cfg bw (size : Z) : option float :=
  tx_of (niantic_bw cfg bw pcie.DIR_BOTH (size - 4) None).

Definition pmd_nic_bi_at cfg bw (size : Z) : option float :=
  tx_of (niantic_bw cfg bw pcie.DIR_BOTH (size - 4) (Some "PMD"%string)).

(** The lists [acc] with the entries of the sizes [l] appended. *)
Definition extend (cfg : pcie.Cfg) (bw : pcie.BW_Spec) (ethcfg : eth.Cfg)
    (acc : Series) (l : list Z) : Series :=
  {| sizes := sizes acc ++ l;
     wr_bw_values := wr_bw_values acc ++ map (wr_bw_at cfg bw) l;
     rd_bw_values := rd_bw_values acc ++ map (rd_bw_at cfg bw) l;
     rdwr_bw_values := rdwr_bw_values acc ++ map (rdwr_bw_at cfg bw) l;
     eth_bw_values := eth_bw_values acc ++ map (eth_bw_at ethcfg) l;
     simple_nic_bi_values :=
       simple_nic_bi_values acc ++ map (simple_nic_bi_at cfg bw) l;
     kernel_nic_bi_values :=
       kernel_nic_bi_values acc ++ map (kernel_nic_bi_at cfg bw) l;
     pmd_nic_bi_values :=
       pmd_nic_bi_values acc ++ map (pmd_nic_bi_at cfg bw) l |}.

(** The series of a complete sweep. *)
Definition full_series (cfg : pcie.Cfg) (bw : pcie.BW_Spec)
    (ethcfg : eth.Cfg) : Series :=
  extend cfg bw ethcfg empty_series (range 64 (1500 + 1)).

(** Every list of a series holds, per size, the value of its column there. *)
Definition per_size (cfg : pcie.Cfg) (bw : pcie.BW_Spec) (ethcfg : eth.Cfg)
    (s : Series) : Prop :=
  wr_bw_values s = map (wr_bw_at cfg bw) (sizes s)
  /\ rd_bw_values s = map (rd_bw_at cfg bw) (sizes s)
  /\ rdwr_bw_values s = map (rdwr_bw_at cfg bw) (sizes s)
  /\ eth_bw_values s = map (eth_bw_at ethcfg) (sizes s)
  /\ simple_nic_bi_values s = map (simple_nic_bi_at cfg bw) (sizes s)
  /\ kernel_nic_bi_values s = map (kernel_nic_bi_at cfg bw) (sizes s)
  /\ pmd_nic_bi_values s = map (pmd_nic_bi_at cfg bw) (sizes s).

(** The table with one row for each of the sizes [l]: the eight columns,
    each holding the value computed for the size of its row. *)
Definition table_at (ethernet_speed : string) (cfg : pcie.Cfg)
    (bw : pcie.BW_Spec) (ethcfg : eth.Cfg) (l : list Z)
  : list (string * list pd.cell) :=
  [ ("Transfer Size (Bytes)"%string, map pd.Int l);
    ("PCIe Write BW (Gb/s)"%string,
     map (fun size => pd.Float (wr_bw_at cfg bw size)) l);
    ("PCIe Read BW (Gb/s)"%string,
     map (fun size => pd.Float (rd_bw_at cfg bw size)) l);
    ("PCIe Read/Write BW (Gb/s)"%string,
     map (fun size => pd.Float (rdwr_bw_at cfg bw size)) l);
    (eth_column ethernet_speed,
     map (fun size => pd.Float (eth_bw_at ethcfg size)) l);
    ("Simple NIC (Gb/s)"%string,
     map (fun size => pd.Float (simple_nic_bi_at cfg bw size)) l);
    ("Modern NIC (kernel driver) (Gb/s)"%string,
     map (fun size => pd.Float (kernel_nic_bi_at cfg bw size)) l);
    ("Modern NIC (DPDK driver) (Gb/s)"%string,
     map (fun size => pd.Float (pmd_nic_bi_at cfg bw size)) l) ].

(** The attempts of the sweep [run_pcie_model] makes. *)
Definition run_attempts (cfg : pcie.Cfg) (ethcfg : eth.Cfg)
  : list (Call * option exn) :=
  sweep_attempts cfg (make_bw_spec cfg) ethcfg (range 64 (1500 + 1)).

(** What [run_pcie_model] makes of the collected series. *)
Definition assemble (ethernet_speed : string) (cfg : pcie.Cfg)
    (series : Series) : result (string * go.Figure * pd.Frame) :=
  match pd.DataFrame (dict_of_items (table_items ethernet_speed series)) with
  | Ok df =>
      Ok (join newline (config_info cfg),
          make_figure ethernet_speed series,
          pd.reset_index_drop (pd.iloc_step 64 df))
  | Raise e => Raise e
  end.

(** What a run returns or raises when [tempfile] finds a name, as a function
    of the arguments alone. *)
Definition run_value
    (pcie_version lanes addr_width ecrc mps mrrs rcb ethernet_speed : string)
  : result (string * go.Figure * pd.Frame) :=
  '(a, e, m, r, c) ← int_params addr_width ecrc mps mrrs rcb;
  pciecfg ← pcie_Cfg pcie_version lanes a e m r c;
  ethcfg ← eth_Cfg ethernet_speed;
  match first_error (run_attempts pciecfg ethcfg) with
  | Some e => Raise e
  | None =>
      assemble ethernet_speed pciecfg
        (full_series pciecfg (make_bw_spec pciecfg) ethcfg)
  end.

(** The driver with the basis built anew in every iteration instead of
    once before the loop. *)
Definition sweep_body_recomputing (pciecfg : pcie.Cfg) (ethcfg : eth.Cfg)
    (acc : Series) (size : Z) : M Series :=
  sweep_body pciecfg (make_bw_spec pciecfg) ethcfg acc size.

Definition run_pcie_model_recomputing
    (pcie_version lanes addr_width ecrc mps mrrs rcb ethernet_speed : string)
  : M (string * go.Figure * pd.Frame) :=
  addr_width ← lift (int_of_str addr_width);
  ecrc ← lift (int_of_str ecrc);
  mps ← lift (int_of_str mps);
  mrrs ← lift (int_of_str mrrs);
  rcb ← lift (int_of_str rcb);
  pciecfg ← call_pcie_Cfg pcie_version lanes addr_width ecrc mps mrrs rcb;
  let info := config_info pciecfg in
  ethcfg ← call_eth_Cfg ethernet_speed;
  data_file ← NamedTemporaryFile false ".dat";
  series ← for_each (sweep_body_recomputing pciecfg ethcfg) empty_series
                    (range 64 (1500 + 1));
  df ← lift (pd.DataFrame (dict_of_items (table_items ethernet_speed series)));
  let sampled_df := pd.reset_index_drop (pd.iloc_step 64 df) in
  let fig := make_figure ethernet_speed series in
  mret (join newline info, fig, sampled_df).

End Outcomes.

(** Whether [tempfile] finds an unused name in this state. *)
Definition tmp_available (st : State) : bool :=
  match find_unused (world st) ".dat" (drawn (world st)) TMP_MAX with
  | Some _ => true
  | None => false
  end.

(** The state after [cs] more calls. *)
Definition logged (st : State) (cs : list Call) : State :=
  {| world := world st; calls := calls st ++ cs |}.

(** The state after a temporary file was created under the i-th name. *)
Definition with_tmp_file (st : State) (i : nat) : State :=
  {| world := {| files := <[tmp_path (world st) ".dat" i := EmptyString]>
                            (files (world st));
                 tmpdir := tmpdir (world st);
                 candidates := candidates (world st);
                 drawn := S i |};
     calls := calls st |}.

(** The state after [tempfile] ran out of names. *)
Definition tmp_exhausted (st : State) : State :=
  {| world := {| files := files (world st);
                 tmpdir := tmpdir (world st);
                 candidates := candidates (world st);
                 drawn := (drawn (world st) + TMP_MAX)%nat |};
     calls := calls st |}.

(** The five ways a run can go: a parameter is not an integer literal; the
    PCIe configuration is refused; the Ethernet configuration is refused;
    [tempfile] finds no name; the sweep starts. *)
Inductive RunPath {model : ModelPackage}
    (pcie_version lanes addr_width ecrc mps mrrs rcb ethernet_speed : string)
    (st : State)
  : result (string * go.Figure * pd.Frame) * State -> Prop :=
  | Path_int_raises msg :
      int_params addr_width ecrc mps mrrs rcb = Raise (ValueError msg) ->
      RunPath pcie_version lanes addr_width ecrc mps mrrs rcb ethernet_speed st
        (Raise (ValueError msg), st)
  | Path_pcie_Cfg_raises a e m r c x :
      int_params addr_width ecrc mps mrrs rcb = Ok (a, e, m, r, c) ->
      pcie_Cfg pcie_version lanes a e m r c = Raise x ->
      RunPath pcie_version lanes addr_width ecrc mps mrrs rcb ethernet_speed st
        (Raise x, logged st [Call_pcie_Cfg pcie_version lanes a e m r c])
  | Path_eth_Cfg_raises a e m r c cfg x :
      int_params addr_width ecrc mps mrrs rcb = Ok (a, e, m, r, c) ->
      pcie_Cfg pcie_version lanes a e m r c = Ok cfg ->
      eth_Cfg ethernet_speed = Raise x ->
      RunPath pcie_version lanes addr_width ecrc mps mrrs rcb ethernet_speed st
        (Raise x,
         logged st [Call_pcie_Cfg pcie_version lanes a e m r c;
                    Call_eth_Cfg ethernet_speed])
  | Path_tmp_raises a e m r c cfg ethcfg :
      int_params addr_width ecrc mps mrrs rcb = Ok (a, e, m, r, c) ->
      pcie_Cfg pcie_version lanes a e m r c = Ok cfg ->
      eth_Cfg ethernet_speed = Ok ethcfg ->
      tmp_available st = false ->
      RunPath pcie_version lanes addr_width ecrc mps mrrs rcb ethernet_speed st
        (Raise (FileExistsError "No usable temporary file name found"),
         tmp_exhausted
           (logged st [Call_pcie_Cfg pcie_version lanes a e m r c;
                       Call_eth_Cfg ethernet_speed]))
  | Path_sweep a e m r c cfg ethcfg i :
      int_params addr_width ecrc mps mrrs rcb = Ok (a, e, m, r, c) ->
      pcie_Cfg pcie_version lanes a e m r c = Ok cfg ->
      eth_Cfg ethernet_speed = Ok ethcfg ->
      find_unused (world st) ".dat" (drawn (world st)) TMP_MAX = Some i ->
      RunPath pcie_version lanes addr_width ecrc mps mrrs rcb ethernet_speed st
        (match first_error (run_attempts cfg ethcfg) with
         | None =>
             assemble ethernet_speed cfg
               (full_series cfg (make_bw_spec cfg) ethcfg)
         | Some x => Raise x
         end,
         logged (with_tmp_file st i)
           (Call_pcie_Cfg pcie_version lanes a e m r c
            :: Call_eth_Cfg ethernet_speed
            :: executed (run_attempts cfg ethcfg))).

(** The engine raises [x] once the driver has made the calls [issued]: at
    the PCIe configuration, at the Ethernet configuration, or at the first
    per-size call of the sweep that fails. *)
Inductive Raises {model : ModelPackage}
    (pcie_version lanes addr_width ecrc mps mrrs rcb ethernet_speed : string)
  : exn -> list Call -> Prop :=
  | Raises_pcie_Cfg a e m r c x :
      int_params addr_width ecrc mps mrrs rcb = Ok (a, e, m, r, c) ->
      pcie_Cfg pcie_version lanes a e m r c = Raise x ->
      Raises pcie_version lanes addr_width ecrc mps mrrs rcb ethernet_speed
        x [Call_pcie_Cfg pcie_version lanes a e m r c]
  | Raises_eth_Cfg a e m r c cfg x :
      int_params addr_width ecrc mps mrrs rcb = Ok (a, e, m, r, c) ->
      pcie_Cfg pcie_version lanes a e m r c = Ok cfg ->
      eth_Cfg ethernet_speed = Raise x ->
      Raises pcie_version lanes addr_width ecrc mps mrrs rcb ethernet_speed
        x [Call_pcie_Cfg pcie_version lanes a e m r c;
           Call_eth_Cfg ethernet_speed]
  | Raises_per_size a e m r c cfg ethcfg before call after x :
      int_params addr_width ecrc mps mrrs rcb = Ok (a, e, m, r, c) ->
      pcie_Cfg pcie_version lanes a e m r c = Ok cfg ->
      eth_Cfg ethernet_speed = Ok ethcfg ->
      run_attempts cfg ethcfg = before ++ (call, Some x) :: after ->
      Forall (fun attempt => snd attempt = None) before ->
      Raises pcie_version lanes addr_width ecrc mps mrrs rcb ethernet_speed
        x (Call_pcie_Cfg pcie_version lanes a e m r c
           :: Call_eth_Cfg ethernet_speed
           :: map fst before ++ [call]).

(** The choices the UI offers. *)
Definition pcie_version_choices : list string :=
  ["gen1"; "gen2"; "gen3"; "gen4"; "gen5"; "gen6"; "gen7"]%string.
Definition lanes_choices : list string :=
  ["x1"; "x2"; "x4"; "x8"; "x16"; "x32"]%string.
Definition addr_width_choices : list string := ["32"; "64"]%string.
Definition ecrc_choices : list string := ["0"; "1"]%string.
Definition mps_choices : list string :=
  ["128"; "256"; "512"; "1024"; "2048"; "4096"]%string.
Definition mrrs_choices : list string :=
  ["128"; "256"; "512"; "1024"; "2048"; "4096"]%string.
Definition rcb_choices : list string := ["64"; "128"]%string.
Definition ethernet_speed_choices : list string :=
  ["400GigE"; "200GigE"; "100GigE"; "50GigE"; "40GigE"; "25GigE"; "10GigE";
   "GigE"]%string.

(** The gross sizes of the rows the sampled table keeps. *)
Definition sampled_sizes : list Z := map (fun k => 64 + 64 * k) (range 0 23).

(** ** The engine, modelled from the specification

    The [model] package is not among the sources.  This module follows the
    specification's component design (sections 3, 4 and 7): the validation
    each constructor and function performs, and the closed forms the
    specification writes out.  The constants the specification leaves to
    calibration are the fields of [Calibration]. *)
Module SpecModel.

(** Modelled from the spec: the [model] package's generation enumeration
    is missing; section 3 gives "enum of 7 supported generations". *)
Inductive Generation : Type :=
  Gen1 | Gen2 | Gen3 | Gen4 | Gen5 | Gen6 | Gen7.

(** Modelled from the spec: the names of the seven generations, as the
    missing [pcie.Cfg] reads them. *)
Definition parse_generation (s : string) : option Generation :=
  if String.eqb s "gen1" then Some Gen1
  else if String.eqb s "gen2" then Some Gen2
  else if String.eqb s "gen3" then Some Gen3
  else if String.eqb s "gen4" then Some Gen4
  else if String.eqb s "gen5" then Some Gen5
  else if String.eqb s "gen6" then Some Gen6
  else if String.eqb s "gen7" then Some Gen7
  else None.

(** Modelled from the spec: the lane count of the missing [pcie.Cfg],
    "power-of-two, 1-32", written [x<n>]. *)
Definition parse_lanes (s : string) : option Z :=
  match s with
  | String "x" ds => parse_digits 0 false ds
  | _ => None
  end.

(** Modelled from the spec: the valid sets of the missing [pcie.Cfg]
    (section 3): lane count a power of two between 1 and 32; MPS and MRRS in
    {128, 256, 512, 1024, 2048, 4096}; RCB in {64, 128}; address width 32 or
    64; the ECRC flag 0 or 1. *)
Definition is_power_of_two (n : Z) : bool :=
  (0 <? n) && (Z.land n (n - 1) =? 0).

Definition valid_lanes (n : Z) : bool :=
  is_power_of_two n && (1 <=? n) && (n <=? 32).

Definition valid_payload_limit (n : Z) : bool :=
  existsb (Z.eqb n) [128; 256; 512; 1024; 2048; 4096].

Definition valid_rcb (n : Z) : bool := existsb (Z.eqb n) [64; 128].

Definition valid_addr (n : Z) : bool := existsb (Z.eqb n) [32; 64].

Definition valid_ecrc (n : Z) : bool := existsb (Z.eqb n) [0; 1].

(** Modelled from the spec: the line rates of the missing [eth.Cfg],
    "line-rate enum (GigE..400GigE)", each with its nominal bit rate. *)
Inductive LineRate : Type :=
  | GigE | TenGigE | TwentyFiveGigE | FortyGigE | FiftyGigE
  | HundredGigE | TwoHundredGigE | FourHundredGigE.

(** Modelled from the spec: the names of the line rates, as the missing
    [eth.Cfg] reads them. *)
Definition parse_line_rate (s : string) : option LineRate :=
  if String.eqb s "GigE" then Some GigE
  else if String.eqb s "10GigE" then Some TenGigE
  else if String.eqb s "25GigE" then Some TwentyFiveGigE
  else if String.eqb s "40GigE" then Some FortyGigE
  else if String.eqb s "50GigE" then Some FiftyGigE
  else if String.eqb s "100GigE" then Some HundredGigE
  else if String.eqb s "200GigE" then Some TwoHundredGigE
  else if String.eqb s "400GigE" then Some FourHundredGigE
  else None.

(** Modelled from the spec: the nominal bit-rate table of the missing
    [eth.Cfg], "line rate maps to a fixed nominal bit rate table entry". *)
Definition nominal_gbps (r : LineRate) : Z :=
  match r with
  | GigE => 1 | TenGigE => 10 | TwentyFiveGigE => 25 | FortyGigE => 40
  | FiftyGigE => 50 | HundredGigE => 100 | TwoHundredGigE => 200
  | FourHundredGigE => 400
  end.

Definition nominal_bps (r : LineRate) : float :=
  PrimFloat.mul (float_of_int (nominal_gbps r)) 1e9.

(** Modelled from the spec: the driver modes of the missing [niantic.bw],
    kernel-driver (the default) and poll-mode ("PMD"). *)
Inductive DriverMode : Type := KernelDriver | PollMode.

(** Modelled from the spec: how the missing [niantic.bw] reads [h_opt];
    left out, it is the kernel driver. *)
Definition parse_driver_mode (h_opt : option string) : option DriverMode :=
  match h_opt with
  | None => Some KernelDriver
  | Some s => if String.eqb s "PMD" then Some PollMode else None
  end.

(** Modelled from the spec: what the missing package's tables hold and the
    specification leaves to calibration (section 9): the per-lane encoded
    signalling rate of each generation (Gb/s), the fixed byte counts of a
    TLP, and the closed forms of the two NIC models, of which the
    specification describes the ingredients but not the formula. *)
Record Calibration : Type := {
  lane_rate : Generation -> float;
  framing_bytes : Z;
  header32_bytes : Z;
  dll_bytes : Z;
  simple_nic_eff :
    pcie.Cfg -> pcie.BW_Spec -> pcie.Dir -> Z -> TransferResult;
  modern_nic_eff :
    DriverMode -> pcie.Cfg -> pcie.BW_Spec -> pcie.Dir -> Z -> TransferResult
}.

Section Engine.

Variable K : Calibration.

(** Modelled from the spec: the per-TLP overhead of section 4.1, "fixed
    framing bytes + header bytes (a 64-bit address adds 4 bytes over
    32-bit) + 4 bytes if ECRC enabled + link-layer CRC/sequence bytes". *)
Definition tlp_overhead (addr ecrc : Z) : Z :=
  framing_bytes K
  + (header32_bytes K + (if addr =? 64 then 4 else 0))
  + (if ecrc =? 0 then 0 else 4)
  + dll_bytes K.

(** Modelled from the spec: the missing constructor [pcie.Cfg] (section
    4.1): every field outside its valid set is a [ConfigurationError];
    raw bandwidth is per-lane rate times lane count; TLP-layer bandwidth
    is raw bandwidth scaled by MPS / (MPS + per-TLP overhead). *)
Definition pcie_Cfg (version lanes : string) (addr ecrc mps mrrs rcb : Z)
  : result pcie.Cfg :=
  match parse_generation version with
  | None => Raise (ConfigurationError ("Unknown PCIe version: " +:+ version))
  | Some gen =>
  match parse_lanes lanes with
  | None => Raise (ConfigurationError ("Unknown lane count: " +:+ lanes))
  | Some n =>
    if negb (valid_lanes n)
    then Raise (ConfigurationError ("Unknown lane count: " +:+ lanes))
    else if negb (valid_addr addr)
    then Raise (ConfigurationError "Unsupported address width")
    else if negb (valid_ecrc ecrc)
    then Raise (ConfigurationError "Unsupported ECRC flag")
    else if negb (valid_payload_limit mps)
    then Raise (ConfigurationError "Unsupported MPS")
    else if negb (valid_payload_limit mrrs)
    then Raise (ConfigurationError "Unsupported MRRS")
    else if negb (valid_rcb rcb)
    then Raise (ConfigurationError "Unsupported RCB")
    else
      let raw := PrimFloat.mul (lane_rate K gen) (float_of_int n) in
      let tlp :=
        PrimFloat.div (PrimFloat.mul raw (float_of_int mps))
                      (float_of_int (mps + tlp_overhead addr ecrc)) in
      Ok {| pcie.version := version; pcie.lanes := lanes;
            pcie.addr := addr; pcie.ecrc := ecrc; pcie.mps := mps;
            pcie.mrrs := mrrs; pcie.rcb := rcb;
            pcie.TLP_bw := tlp; pcie.RAW_bw := raw |}
  end
  end.

(** Modelled from the spec: the missing bandwidth-basis selection of
    section 4.2, "constructed from a PcieLinkConfig and a mode selector
    (RAW or TLP-layer)", whose reference is the corresponding derived
    bandwidth of the configuration. *)
Definition BandwidthBasis (cfg : pcie.Cfg) (mode : pcie.BW_Type)
  : pcie.BW_Spec :=
  let ref :=
    match mode with
    | pcie.BW_RAW => pcie.RAW_bw cfg
    | pcie.BW_TLP => pcie.TLP_bw cfg
    end in
  {| pcie.bw_1 := ref; pcie.bw_2 := ref; pcie.bw_type := mode |}.

(** Modelled from the spec: the "single reference bandwidth value" a basis
    exposes (section 4.2); the missing [pcie.BW_Spec] receives two figures
    by position, which the driver makes the same. *)
Definition reference_bw (bw : pcie.BW_Spec) : float := pcie.bw_1 bw.

Definition ceil_div (a b : Z) : Z := (a + b - 1) / b.

(** Modelled from the spec: section 4.3, "effective throughput = basis
    reference bandwidth x size / (size + per-TLP-overhead x
    packet-count)". *)
Definition effective (bw : pcie.BW_Spec) (size overhead packets : Z) : float :=
  PrimFloat.div (PrimFloat.mul (reference_bw bw) (float_of_int size))
                (float_of_int (size + overhead * packets)).

(** Modelled from the spec: the packet count of a write in the missing
    [mem_bw], "each packet carries at most MPS bytes". *)
Definition write_packets (cfg : pcie.Cfg) (size : Z) : Z :=
  ceil_div size (pcie.mps cfg).

(** Modelled from the spec: the packet count of a read in the missing
    [mem_bw], "the larger of ceil(size / MRRS) and the count implied by RCB
    alignment of the addressed range" (completions of at most RCB bytes
    from an aligned start). *)
Definition read_packets (cfg : pcie.Cfg) (size : Z) : Z :=
  Z.max (ceil_div size (pcie.mrrs cfg)) (ceil_div size (pcie.rcb cfg)).

Definition invalid_size {A} (size : Z) : result A :=
  Raise (InvalidSizeError ("size must be positive: " +:+ str_of_int size)).

(** Modelled from the spec: the missing [mem_bw.write], [mem_bw.read] and
    [mem_bw.read_write] (section 4.3); "size must be > 0; fails with
    InvalidSizeError otherwise". *)
Definition mem_bw_write (cfg : pcie.Cfg) (bw : pcie.BW_Spec) (size : Z)
  : result TransferResult :=
  if size <=? 0 then invalid_size size
  else
    let overhead := tlp_overhead (pcie.addr cfg) (pcie.ecrc cfg) in
    Ok {| tx_eff := Some (effective bw size overhead (write_packets cfg size));
          rx_eff := None |}.

(** Modelled from the spec: the missing [mem_bw.read]; the receive figure
    only. *)
Definition mem_bw_read (cfg : pcie.Cfg) (bw : pcie.BW_Spec) (size : Z)
  : result TransferResult :=
  if size <=? 0 then invalid_size size
  else
    let overhead := tlp_overhead (pcie.addr cfg) (pcie.ecrc cfg) in
    Ok {| tx_eff := None;
          rx_eff := Some (effective bw size overhead (read_packets cfg size)) |}.

(** Modelled from the spec: the missing [mem_bw.read_write], "simultaneous
    full-duplex write and read streams of the given size each": a write
    stream of [size] bytes on the transmit side and a read stream of [size]
    bytes on the receive side. *)
Definition mem_bw_read_write (cfg : pcie.Cfg) (bw : pcie.BW_Spec) (size : Z)
  : result TransferResult :=
  if size <=? 0 then invalid_size size
  else
    let overhead := tlp_overhead (pcie.addr cfg) (pcie.ecrc cfg) in
    let tx_bytes := size + overhead * write_packets cfg size in
    let rx_bytes := size + overhead * read_packets cfg size in
    Ok {| tx_eff :=
            Some (PrimFloat.div
                    (PrimFloat.mul (reference_bw bw) (float_of_int size))
                    (float_of_int tx_bytes));
          rx_eff :=
            Some (PrimFloat.div
                    (PrimFloat.mul (reference_bw bw) (float_of_int size))
                    (float_of_int rx_bytes)) |}.

(** Modelled from the spec: the missing [bps_ex] of [eth.Cfg] (section
    4.4): nominal rate x payload bits / frame bits, where a frame adds
    14 + 4 + 8 + 12 bytes to its payload. *)
Definition eth_bps_ex (r : LineRate) (size : Z) : result float :=
  if size <=? 0 then invalid_size size
  else
    let payload_bits := size * 8 in
    let frame_bits := (size + 14 + 4 + 8 + 12) * 8 in
    Ok (PrimFloat.div
          (PrimFloat.mul (nominal_bps r) (float_of_int payload_bits))
          (float_of_int frame_bits)).

(** Modelled from the spec: the missing constructor [eth.Cfg]; an
    unrecognised line-rate string is a [ConfigurationError]. *)
Definition eth_Cfg (speed : string) : result eth.Cfg :=
  match parse_line_rate speed with
  | Some r => Ok {| eth.bps_ex := eth_bps_ex r |}
  | None => Raise (ConfigurationError ("Unknown Ethernet type: " +:+ speed))
  end.

(** Modelled from the spec: the failure contract of the missing
    [simple_nic.bw] and [niantic.bw] (section 4.5): "an unrecognized
    driver mode fails with ConfigurationError; size <= 0 fails with
    InvalidSizeError". *)
Definition simple_nic_bw (cfg : pcie.Cfg) (bw : pcie.BW_Spec)
    (dir : pcie.Dir) (size : Z) : result TransferResult :=
  if size <=? 0 then invalid_size size
  else Ok (simple_nic_eff K cfg bw dir size).

(** Modelled from the spec: the failure contract of the missing
    [niantic.bw]; the driver mode is validated first. *)
Definition niantic_bw (cfg : pcie.Cfg) (bw : pcie.BW_Spec)
    (dir : pcie.Dir) (size : Z) (h_opt : option string)
  : result TransferResult :=
  match parse_driver_mode h_opt with
  | None => Raise (ConfigurationError "Unknown driver mode")
  | Some mode =>
      if size <=? 0 then invalid_size size
      else Ok (modern_nic_eff K mode cfg bw dir size)
  end.

Definition package : ModelPackage :=
  Build_ModelPackage pcie_Cfg eth_Cfg mem_bw_write mem_bw_read
    mem_bw_read_write simple_nic_bw niantic_bw.

End Engine.

(** An illustrative calibration, for running the model: 8b/10b coding
    for the first two generations and 128b/130b from the third on, 2
    framing bytes, a 12-byte header with 32-bit addresses, 6 link-layer
    bytes, and NIC closed forms that add descriptor bytes to every packet
    (amortised over a batch of 32 in poll mode). *)
Definition example_lane_rate (g : Generation) : float :=
  match g with
  | Gen1 => 2.5 * 8 / 10
  | Gen2 => 5 * 8 / 10
  | Gen3 => 8 * 128 / 130
  | Gen4 => 16 * 128 / 130
  | Gen5 => 32 * 128 / 130
  | Gen6 => 64
  | Gen7 => 128
  end%float.

Definition example_nic (descriptor_bytes batch : Z)
    (cfg : pcie.Cfg) (bw : pcie.BW_Spec) (dir : pcie.Dir) (size : Z)
  : TransferResult :=
  let figure (packets : Z) : float :=
    PrimFloat.div
      (PrimFloat.mul (pcie.bw_1 bw) (float_of_int (size * batch)))
      (float_of_int (size * batch + (22 * batch + descriptor_bytes) * packets)) in
  let tx := figure ((size + pcie.mps cfg - 1) / pcie.mps cfg) in
  let rx := figure ((size + pcie.rcb cfg - 1) / pcie.rcb cfg) in
  match dir with
  | pcie.DIR_TX => {| tx_eff := Some tx; rx_eff := None |}
  | pcie.DIR_RX => {| tx_eff := None; rx_eff := Some rx |}
  | pcie.DIR_BOTH => {| tx_eff := Some tx; rx_eff := Some rx |}
  end.

Definition example_calibration : Calibration :=
  {| lane_rate := example_lane_rate;
     framing_bytes := 2;
     header32_bytes := 12;
     dll_bytes := 6;
     simple_nic_eff := example_nic 48 1;
     modern_nic_eff := fun mode =>
       match mode with
       | KernelDriver => example_nic 32 1
       | PollMode => example_nic 32 32
       end |}.

End SpecModel.

(** ** Running the driver *)

(** The illustrative engine as a package. *)
Definition example_package : ModelPackage :=
  SpecModel.package SpecModel.example_calibration.

(** The configuration of the values the UI starts from (gen3 x8, 64-bit
    addresses, no ECRC, MPS 256, MRRS 512, RCB 64) under the illustrative
    calibration: 8 lanes of 8 * 128 / 130 Gb/s, and 2 + 16 + 6 bytes of
    overhead on a 256-byte payload. *)
Definition default_cfg : pcie.Cfg :=
  let raw := PrimFloat.mul (8 * 128 / 130)%float 8 in
  {| pcie.version := "gen3"; pcie.lanes := "x8"; pcie.addr := 64;
     pcie.ecrc := 0; pcie.mps := 256; pcie.mrrs := 512; pcie.rcb := 64;
     pcie.TLP_bw := PrimFloat.div (PrimFloat.mul raw 256) 280;
     pcie.RAW_bw := raw |}.

Definition default_ethcfg : eth.Cfg :=
  {| eth.bps_ex := SpecModel.eth_bps_ex SpecModel.FortyGigE |}.

(** A world with an empty file system whose candidate names are numbered. *)
Definition fresh_world : World :=
  {| files := ∅; tmpdir := "/tmp";
     candidates := fun i => str_of_int (Z.of_nat i); drawn := O |}.

Definition initial_state : State := {| world := fresh_world; calls := [] |}.

(** A world that has seen earlier runs: some temporary files exist, names
    were drawn, calls were logged. *)
Definition busy_state : State :=
  {| world := {| files := <["/var/tmp/tmp3.dat"%string := EmptyString]>
                            (<["/var/tmp/tmp4.dat"%string := EmptyString]> ∅);
                 tmpdir := "/var/tmp";
                 candidates := fun i => str_of_int (Z.of_nat i);
                 drawn := 3 |};
     calls := [Call_eth_Cfg "GigE"] |}.

(** The run with the values the UI starts from. *)
Definition default_run : result (string * go.Figure * pd.Frame) * State :=
  run_pcie_model (model := example_package)
    "gen3" "x8" "64" "0" "256" "512" "64" "40GigE" initial_state.

(** A package for exercising error paths: the illustrative engine, except
    that its read model rejects the payload size [bad]. *)
Definition rejecting_package (bad : Z) : ModelPackage :=
  let ref := example_package in
  Build_ModelPackage
    (@pcie_Cfg ref) (@eth_Cfg ref) (@mem_bw_write ref)
    (fun cfg bw size =>
       if size =? bad then Raise (InvalidSizeError "rejected")
       else @mem_bw_read ref cfg bw size)
    (@mem_bw_read_write ref) (@simple_nic_bw ref) (@niantic_bw ref).

(** What a run raises when [tempfile] finds no name: the error of an
    earlier step if there is one, and [tempfile]'s own otherwise. *)
Definition run_value_without_name {model : ModelPackage}
    (pcie_version lanes addr_width ecrc mps mrrs rcb ethernet_speed : string)
  : result (string * go.Figure * pd.Frame) :=
  '(a, e, m, r, c) ← int_params addr_width ecrc mps mrrs rcb;
  pciecfg ← pcie_Cfg pcie_version lanes a e m r c;
  ethcfg ← eth_Cfg ethernet_speed;
  Raise (FileExistsError "No usable temporary file name found").

(** A world in which [tempfile] finds no name: every name it draws is the
    same, and a file of that name exists. *)
Definition crowded_world : World :=
  {| files := <["/tmp/tmpx.dat"%string := EmptyString]> ∅;
     tmpdir := "/tmp";
     candidates := fun _ => "x"%string;
     drawn := O |}.

Definition crowded_state : State := {| world := crowded_world; calls := [] |}.


(** ** The user interface: [demo] *)

Module gr.

(** [gr.Dropdown(choices=..., value=..., label=...)]. *)
Record Dropdown : Type := {
  choices : list string;
  value : string;
  label : string
}.

End gr.

(** The eight dropdowns of the [gr.Blocks] named [demo], with the value each
    starts from. *)
Module demo.

Definition pcie_version : gr.Dropdown :=
  {| gr.choices := pcie_version_choices; gr.value := "gen3";
     gr.label := "PCIe Version" |}.

Definition lanes : gr.Dropdown :=
  {| gr.choices := lanes_choices; gr.value := "x8";
     gr.label := "Number of Lanes" |}.

Definition addr_width : gr.Dropdown :=
  {| gr.choices := addr_width_choices; gr.value := "64";
     gr.label := "Address Width (bits)" |}.

Definition ecrc : gr.Dropdown :=
  {| gr.choices := ecrc_choices; gr.value := "0"; gr.label := "ECRC" |}.

Definition mps : gr.Dropdown :=
  {| gr.choices := mps_choices; gr.value := "256";
     gr.label := "Maximum Payload Size (MPS)" |}.

Definition mrrs : gr.Dropdown :=
  {| gr.choices := mrrs_choices; gr.value := "512";
     gr.label := "Maximum Read Request Size (MRRS)" |}.

Definition rcb : gr.Dropdown :=
  {| gr.choices := rcb_choices; gr.value := "64";
     gr.label := "Read Completion Boundary (RCB)" |}.

Definition ethernet_speed : gr.Dropdown :=
  {| gr.choices := ethernet_speed_choices; gr.value := "40GigE";
     gr.label := "Ethernet Speed" |}.

(** The [inputs] of [run_button.click], in the order given there. *)
Definition inputs : list gr.Dropdown :=
  [pcie_version; lanes; addr_width; ecrc; mps; mrrs; rcb; ethernet_speed].

End demo.

(** [run_button.click(fn=run_pcie_model, inputs=[...], ...)]: on a click the
    function is called with the current values of the inputs, by position;
    any other number of values does not fit its eight parameters. *)
Definition click {model : ModelPackage} (values : list string)
  : M (string * go.Figure * pd.Frame) :=
  match values with
  | [v; l; aw; ec; mp; mr; rc; sp] => run_pcie_model v l aw ec mp mr rc sp
  | _ =>
      lift (Raise (OtherError
                     "TypeError: run_pcie_model() takes 8 positional arguments"))
  end.

(** The values a user can have selected: for every input one of its
    choices. *)
Definition selectable (values : list string) : Prop :=
  Forall2 (fun d v => In v (gr.choices d)) demo.inputs values.

(** [n] clicks in a row on the same selection: whether each returned,
    oldest first, and the state they leave behind. *)
Fixpoint clicks {model : ModelPackage} (n : nat) (values : list string)
    (st : State) : list bool * State :=
  match n with
  | O => ([], st)
  | S n' =>
      let after := click values st in
      let rest := clicks n' values (snd after) in
      (is_Ok (fst after) :: fst rest, snd rest)
  end.

(** ** Packages that differ in what the driver does not read *)

Definition only_tx (r : result TransferResult) : result TransferResult :=
  match r with
  | Ok t => Ok {| tx_eff := tx_eff t; rx_eff := None |}
  | Raise e => Raise e
  end.

Definition only_rx (r : result TransferResult) : result TransferResult :=
  match r with
  | Ok t => Ok {| tx_eff := None; rx_eff := rx_eff t |}
  | Raise e => Raise e
  end.

(** The package [m] with every figure erased that [run_pcie_model] does not
    read: the receive figure of writes, of combined transfers and of the NIC
    models, and the transmit figure of reads. *)
Definition erase_unread (m : ModelPackage) : ModelPackage :=
  Build_ModelPackage
    (@pcie_Cfg m) (@eth_Cfg m)
    (fun cfg bw n => only_tx (@mem_bw_write m cfg bw n))
    (fun cfg bw n => only_rx (@mem_bw_read m cfg bw n))
    (fun cfg bw n => only_tx (@mem_bw_read_write m cfg bw n))
    (fun cfg bw dir n => only_tx (@simple_nic_bw m cfg bw dir n))
    (fun cfg bw dir n h => only_tx (@niantic_bw m cfg bw dir n h)).

(** Two results raise alike and, when they return, agree on the figure that
    [field] picks. *)
Definition alike (field : result TransferResult -> option float)
    (r1 r2 : result TransferResult) : Prop :=
  outcome r1 = outcome r2 /\ field r1 = field r2.

(** Two packages are the same as far as the driver looks: they build the
    same configurations, and on the payloads of the sweep their calls raise
    alike and agree on the one figure the driver reads from each result. *)
Record ReadAlike (m1 m2 : ModelPackage) : Prop := {
  alike_pcie_Cfg : forall v l a e m r c,
    @pcie_Cfg m1 v l a e m r c = @pcie_Cfg m2 v l a e m r c;
  alike_eth_Cfg : forall sp, @eth_Cfg m1 sp = @eth_Cfg m2 sp;
  alike_write : forall cfg bw n, 60 <= n <= 1496 ->
    alike tx_of (@mem_bw_write m1 cfg bw n) (@mem_bw_write m2 cfg bw n);
  alike_read : forall cfg bw n, 60 <= n <= 1496 ->
    alike rx_of (@mem_bw_read m1 cfg bw n) (@mem_bw_read m2 cfg bw n);
  alike_read_write : forall cfg bw n, 60 <= n <= 1496 ->
    alike tx_of (@mem_bw_read_write m1 cfg bw n)
                (@mem_bw_read_write m2 cfg bw n);
  alike_simple_nic : forall cfg bw n, 60 <= n <= 1496 ->
    alike tx_of (@simple_nic_bw m1 cfg bw pcie.DIR_BOTH n)
                (@simple_nic_bw m2 cfg bw pcie.DIR_BOTH n);
  alike_kernel_nic : forall cfg bw n, 60 <= n <= 1496 ->
    alike tx_of (@niantic_bw m1 cfg bw pcie.DIR_BOTH n None)
                (@niantic_bw m2 cfg bw pcie.DIR_BOTH n None);
  alike_pmd_nic : forall cfg bw n, 60 <= n <= 1496 ->
    alike tx_of (@niantic_bw m1 cfg bw pcie.DIR_BOTH n (Some "PMD"%string))
                (@niantic_bw m2 cfg bw pcie.DIR_BOTH n (Some "PMD"%string))
}.

(** ** Column names and the hover text *)

(** The hover template every trace is given. *)
Definition hover : string :=
  "<b>Size</b>: %{x} bytes<br><b>Bandwidth</b>: %{y:.2f} Gb/s".

(** The keys of a dict literal, from the keys as written: a key written
    again keeps its first place. *)
Definition add_key (k : string) (ks : list string) : list string :=
  if existsb (String.eqb k) ks then ks else ks ++ [k].

Definition dict_keys (ks : list string) : list string :=
  fold_left (fun acc k => add_key k acc) ks [].

(** A package for exercising column names: the illustrative engine, except
    that its Ethernet configuration takes any name (at the 40GigE rate). *)
Definition any_speed_package : ModelPackage :=
  Build_ModelPackage
    (@pcie_Cfg example_package) (fun _ => Ok default_ethcfg)
    (@mem_bw_write example_package) (@mem_bw_read example_package)
    (@mem_bw_read_write example_package) (@simple_nic_bw example_package)
    (@niantic_bw example_package).

(** * Properties

    ** Checks on concrete inputs *)

Example int_of_str_examples :
  map int_of_str [" 64 "; "1_000"; "-5"; "+7"; "007"]%string
  = [Ok 64; Ok 1000; Ok (-5); Ok 7; Ok 7]
  /\ map (fun s => is_Ok (int_of_str s))
         [""; "4x"; "1__0"; "_1"; "1_"; "0x10"; "6 4"]%string
     = [false; false; false; false; false; false; false].
Proof. split; vm_compute; reflexivity. Qed.

Example format_2f_examples :
  map format_2f [0.125; 0.375; 2.675; 63.015; 999.995; -0.001; 0; 1e22]%float
  = ["0.12"; "0.38"; "2.67"; "63.02"; "1000.00"; "-0.00"; "0.00";
     "10000000000000000000000.00"]%string.
Proof. vm_compute. reflexivity. Qed.

Example slice_step_examples :
  slice_step 3 (range 0 10) = [0; 3; 6; 9]
  /\ slice_step 64 (range 0 130) = [0; 64; 128]
  /\ slice_step 1 (range 5 8) = [5; 6; 7].
Proof. repeat split; vm_compute; reflexivity. Qed.

Example dict_of_items_examples :
  dict_of_items [("a", 1); ("b", 2); ("a", 3)]%string
  = [("a", 3); ("b", 2)]%string.
Proof. reflexivity. Qed.

Example default_run_config_text :
  match fst default_run with
  | Ok (text, _, _) => Some text
  | Raise _ => None
  end
  = Some (join newline
            [ "PCIe Config:";
              "  Version:    gen3";
              "  Lanes:      x8";
              "  Addr bits:  64";
              "  ECRC:       0";
              "  MPS:        256";
              "  MRRS:       512";
              "  RCB:        64";
              "  TLP BW:     57.61 Gb/s";
              "  RAW BW:     63.02 Gb/s" ]%string).
Proof. vm_compute. reflexivity. Qed.

(** ** The sweep as a function of its arguments *)

Lemma first_error_app l1 l2 :
  first_error (l1 ++ l2) =
  match first_error l1 with Some e => Some e | None => first_error l2 end.
Proof.
  induction l1 as [|[c [e|]] l1 IH]; simpl; auto.
Qed.

Lemma executed_app l1 l2 :
  executed (l1 ++ l2) =
  match first_error l1 with
  | Some _ => executed l1
  | None => executed l1 ++ executed l2
  end.
Proof.
  induction l1 as [|[c [e|]] l1 IH]; simpl; auto.
  rewrite IH. destruct (first_error l1); reflexivity.
Qed.

Lemma executed_all l : first_error l = None -> executed l = map fst l.
Proof.
  induction l as [|[c [e|]] l IH]; simpl; intros Hl; try discriminate; auto.
  f_equal; auto.
Qed.

Lemma logged_nil st : logged st [] = st.
Proof. destruct st; unfold logged; simpl. by rewrite app_nil_r. Qed.

Lemma logged_logged st a b : logged (logged st a) b = logged st (a ++ b).
Proof. unfold logged; simpl. by rewrite app_assoc. Qed.

Ltac flatten_log := rewrite <- ?app_assoc; reflexivity.

Section DriverFacts.

Context {model : ModelPackage}.

Lemma extend_nil cfg bw ethcfg acc : extend cfg bw ethcfg acc [] = acc.
Proof. destruct acc; unfold extend; simpl. by rewrite !app_nil_r. Qed.

Lemma extend_cons cfg bw ethcfg acc s l :
  extend cfg bw ethcfg (extend cfg bw ethcfg acc [s]) l
  = extend cfg bw ethcfg acc (s :: l).
Proof. unfold extend; simpl. flatten_log. Qed.

Lemma sweep_body_eq cfg bw ethcfg acc s st :
  sweep_body cfg bw ethcfg acc s st =
  (match first_error (size_attempts cfg bw ethcfg (s - 4)) with
   | None => Ok (extend cfg bw ethcfg acc [s])
   | Some e => Raise e
   end,
   logged st (executed (size_attempts cfg bw ethcfg (s - 4)))).
Proof.
  unfold sweep_body, call_mem_bw_write, call_mem_bw_read,
    call_mem_bw_read_write, call_bps_ex, call_simple_nic_bw,
    call_niantic_bw, invoke, logged, size_attempts, extend,
    wr_bw_at, rd_bw_at, rdwr_bw_at, eth_bw_at, simple_nic_bi_at,
    kernel_nic_bi_at, pmd_nic_bi_at.
  cbv [mbind M_bind mret M_ret]. cbn [map].
  destruct (mem_bw_write cfg bw (s - 4)); simpl; [|reflexivity].
  destruct (mem_bw_read cfg bw (s - 4)); simpl; [|flatten_log].
  destruct (mem_bw_read_write cfg bw (s - 4)); simpl;
    [|flatten_log].
  destruct (eth.bps_ex ethcfg (s - 4)); simpl; [|flatten_log].
  destruct (simple_nic_bw cfg bw pcie.DIR_BOTH (s - 4)); simpl;
    [|flatten_log].
  destruct (niantic_bw cfg bw pcie.DIR_BOTH (s - 4) None); simpl;
    [|flatten_log].
  destruct (niantic_bw cfg bw pcie.DIR_BOTH (s - 4) (Some "PMD"%string));
    simpl; flatten_log.
Qed.

Lemma for_each_sweep_body cfg bw ethcfg l : forall acc st,
  for_each (sweep_body cfg bw ethcfg) acc l st =
  (match first_error (sweep_attempts cfg bw ethcfg l) with
   | None => Ok (extend cfg bw ethcfg acc l)
   | Some e => Raise e
   end,
   logged st (executed (sweep_attempts cfg bw ethcfg l))).
Proof.
  induction l as [|s l IH]; intros acc st.
  - simpl. by rewrite extend_nil, logged_nil.
  - change (for_each (sweep_body cfg bw ethcfg) acc (s :: l) st)
      with (match sweep_body cfg bw ethcfg acc s st with
            | (Ok acc', st') => for_each (sweep_body cfg bw ethcfg) acc' l st'
            | (Raise e, st') => (Raise e, st')
            end).
    rewrite sweep_body_eq.
    change (sweep_attempts cfg bw ethcfg (s :: l))
      with (size_attempts cfg bw ethcfg (s - 4)
            ++ sweep_attempts cfg bw ethcfg l).
    rewrite first_error_app, executed_app.
    destruct (first_error (size_attempts cfg bw ethcfg (s - 4))); [done|].
    by rewrite IH, extend_cons, logged_logged.
Qed.

Lemma sweep_eq cfg bw ethcfg st :
  sweep cfg bw ethcfg st =
  (match first_error (sweep_attempts cfg bw ethcfg (range 64 (1500 + 1))) with
   | None => Ok (full_series cfg bw ethcfg)
   | Some e => Raise e
   end,
   logged st (executed (sweep_attempts cfg bw ethcfg (range 64 (1500 + 1))))).
Proof. apply for_each_sweep_body. Qed.

End DriverFacts.

(** ** The run, step by step *)

Lemma bind_lift {A B} (r : result A) (k : A -> M B) st :
  (lift r ≫= k) st =
  match r with Ok a => k a st | Raise e => (Raise e, st) end.
Proof. reflexivity. Qed.

Lemma bind_invoke {A B} c (r : result A) (k : A -> M B) st :
  (invoke c r ≫= k) st =
  match r with
  | Ok a => k a (logged st [c])
  | Raise e => (Raise e, logged st [c])
  end.
Proof. reflexivity. Qed.

Lemma bind_tmp {B} (k : string -> M B) st :
  (NamedTemporaryFile false ".dat" ≫= k) st =
  match find_unused (world st) ".dat" (drawn (world st)) TMP_MAX with
  | Some i => k (tmp_path (world st) ".dat" i) (with_tmp_file st i)
  | None =>
      (Raise (FileExistsError "No usable temporary file name found"),
       tmp_exhausted st)
  end.
Proof.
  unfold NamedTemporaryFile, with_tmp_file, tmp_exhausted.
  cbv [mbind M_bind].
  destruct (find_unused (world st) ".dat" (drawn (world st)) TMP_MAX);
    reflexivity.
Qed.

Lemma bind_sweep {model : ModelPackage} {B} cfg bw ethcfg
    (k : Series -> M B) st :
  (sweep cfg bw ethcfg ≫= k) st =
  let attempts := sweep_attempts cfg bw ethcfg (range 64 (1500 + 1)) in
  let st' := logged st (executed attempts) in
  match first_error attempts with
  | None => k (full_series cfg bw ethcfg) st'
  | Some e => (Raise e, st')
  end.
Proof.
  cbv [mbind M_bind]. rewrite sweep_eq.
  destruct (first_error _); reflexivity.
Qed.

Lemma int_params_Ok aw ec mp mr rc a e m r c :
  int_params aw ec mp mr rc = Ok (a, e, m, r, c) <->
  int_of_str aw = Ok a /\ int_of_str ec = Ok e /\ int_of_str mp = Ok m
  /\ int_of_str mr = Ok r /\ int_of_str rc = Ok c.
Proof.
  unfold int_params. cbv [mbind result_bind mret result_ret].
  destruct (int_of_str aw), (int_of_str ec), (int_of_str mp),
    (int_of_str mr), (int_of_str rc); split;
    try (intros H; inversion H; subst; tauto);
    intros (? & ? & ? & ? & ?); congruence.
Qed.

Section RunFacts.

Context {model : ModelPackage}.

Variables (pcie_version lanes addr_width ecrc mps mrrs rcb : string).
Variable ethernet_speed : string.
Variables (a e m r c : Z).
Hypothesis Hints :
  int_params addr_width ecrc mps mrrs rcb = Ok (a, e, m, r, c).

Lemma run_after_ints st :
  run_pcie_model pcie_version lanes addr_width ecrc mps mrrs rcb
    ethernet_speed st =
  (pciecfg ← call_pcie_Cfg pcie_version lanes a e m r c;
   let info := config_info pciecfg in
   ethcfg ← call_eth_Cfg ethernet_speed;
   let bw_spec := make_bw_spec pciecfg in
   data_file ← NamedTemporaryFile false ".dat";
   series ← sweep pciecfg bw_spec ethcfg;
   df ← lift (pd.DataFrame
                (dict_of_items (table_items ethernet_speed series)));
   let sampled_df := pd.reset_index_drop (pd.iloc_step 64 df) in
   let fig := make_figure ethernet_speed series in
   mret (join newline info, fig, sampled_df)) st.
Proof.
  apply int_params_Ok in Hints as (Ha & He & Hm & Hr & Hc).
  unfold run_pcie_model.
  by rewrite bind_lift, Ha, bind_lift, He, bind_lift, Hm,
    bind_lift, Hr, bind_lift, Hc.
Qed.

Let run :=
  run_pcie_model pcie_version lanes addr_width ecrc mps mrrs rcb
    ethernet_speed.
Let the_pcie_call := Call_pcie_Cfg pcie_version lanes a e m r c.
Let the_eth_call := Call_eth_Cfg ethernet_speed.

Lemma run_pcie_Cfg_raises x st :
  pcie_Cfg pcie_version lanes a e m r c = Raise x ->
  run st = (Raise x, logged st [the_pcie_call]).
Proof.
  intros Hcfg. unfold run. rewrite run_after_ints. unfold call_pcie_Cfg.
  rewrite bind_invoke, Hcfg. reflexivity.
Qed.

Lemma run_eth_Cfg_raises cfg x st :
  pcie_Cfg pcie_version lanes a e m r c = Ok cfg ->
  eth_Cfg ethernet_speed = Raise x ->
  run st = (Raise x, logged st [the_pcie_call; the_eth_call]).
Proof.
  intros Hcfg Heth. unfold run. rewrite run_after_ints.
  unfold call_pcie_Cfg, call_eth_Cfg. rewrite bind_invoke, Hcfg.
  cbv zeta. rewrite bind_invoke, Heth, logged_logged. reflexivity.
Qed.

Lemma run_tmp_raises cfg ethcfg st :
  pcie_Cfg pcie_version lanes a e m r c = Ok cfg ->
  eth_Cfg ethernet_speed = Ok ethcfg ->
  tmp_available st = false ->
  run st = (Raise (FileExistsError "No usable temporary file name found"),
            tmp_exhausted (logged st [the_pcie_call; the_eth_call])).
Proof.
  intros Hcfg Heth Htmp.
  unfold run. rewrite run_after_ints. unfold call_pcie_Cfg, call_eth_Cfg.
  rewrite bind_invoke, Hcfg.
  cbv zeta. rewrite bind_invoke, Heth, logged_logged, bind_tmp.
  unfold tmp_available in Htmp. cbn [logged world] in *.
  destruct (find_unused (world st) ".dat" (drawn (world st)) TMP_MAX);
    [discriminate|reflexivity].
Qed.

Lemma run_sweeps cfg ethcfg i st :
  pcie_Cfg pcie_version lanes a e m r c = Ok cfg ->
  eth_Cfg ethernet_speed = Ok ethcfg ->
  find_unused (world st) ".dat" (drawn (world st)) TMP_MAX = Some i ->
  run st =
  (match first_error (run_attempts cfg ethcfg) with
   | None =>
       assemble ethernet_speed cfg (full_series cfg (make_bw_spec cfg) ethcfg)
   | Some x => Raise x
   end,
   logged (with_tmp_file st i)
     (the_pcie_call :: the_eth_call :: executed (run_attempts cfg ethcfg))).
Proof.
  intros Hcfg Heth Htmp.
  unfold run. rewrite run_after_ints. unfold call_pcie_Cfg, call_eth_Cfg.
  rewrite bind_invoke, Hcfg.
  cbv zeta. rewrite bind_invoke, Heth, logged_logged, bind_tmp.
  cbn [logged world]. rewrite Htmp, bind_sweep. cbv zeta.
  fold (run_attempts cfg ethcfg).
  destruct (first_error (run_attempts cfg ethcfg)).
  - unfold with_tmp_file, logged; cbn [world calls]. by rewrite <- app_assoc.
  - rewrite bind_lift. unfold assemble.
    destruct (pd.DataFrame _).
    + unfold with_tmp_file, logged; cbn [world calls]. cbv [mret M_ret].
      by rewrite <- app_assoc.
    + unfold with_tmp_file, logged; cbn [world calls].
      by rewrite <- app_assoc.
Qed.

End RunFacts.

(** ** The five paths of a run *)

Lemma int_of_str_raises s x :
  int_of_str s = Raise x -> exists msg, x = ValueError msg.
Proof.
  unfold int_of_str. destruct (match strip s with String _ _ => _ | _ => _ end);
    intros H; inversion H; eauto.
Qed.

Section PathFacts.

Context {model : ModelPackage}.

Lemma run_ints_raise v l aw ec mp mr rc sp x st :
  int_params aw ec mp mr rc = Raise x ->
  run_pcie_model v l aw ec mp mr rc sp st = (Raise x, st).
Proof.
  unfold int_params, run_pcie_model.
  cbv [mbind result_bind mret result_ret]. rewrite !bind_lift.
  destruct (int_of_str aw); [|by intros [= <-]]. rewrite !bind_lift.
  destruct (int_of_str ec); [|by intros [= <-]]. rewrite !bind_lift.
  destruct (int_of_str mp); [|by intros [= <-]]. rewrite !bind_lift.
  destruct (int_of_str mr); [|by intros [= <-]]. rewrite !bind_lift.
  destruct (int_of_str rc); [discriminate|by intros [= <-]].
Qed.

Lemma run_pcie_model_path v l aw ec mp mr rc sp st :
  RunPath v l aw ec mp mr rc sp st (run_pcie_model v l aw ec mp mr rc sp st).
Proof.
  destruct (int_params aw ec mp mr rc) as [[[[[a e] m] r] c]|x] eqn:Hints.
  2: { assert (exists msg, x = ValueError msg) as [msg ->].
       { revert Hints. unfold int_params.
         cbv [mbind result_bind mret result_ret].
         destruct (int_of_str aw) eqn:Ha;
           [|intros [= <-]; eapply int_of_str_raises, Ha].
         destruct (int_of_str ec) eqn:He;
           [|intros [= <-]; eapply int_of_str_raises, He].
         destruct (int_of_str mp) eqn:Hm;
           [|intros [= <-]; eapply int_of_str_raises, Hm].
         destruct (int_of_str mr) eqn:Hr;
           [|intros [= <-]; eapply int_of_str_raises, Hr].
         destruct (int_of_str rc) eqn:Hc;
           [discriminate|intros [= <-]; eapply int_of_str_raises, Hc]. }
       rewrite (run_ints_raise _ _ _ _ _ _ _ _ _ _ Hints).
       by apply Path_int_raises. }
  destruct (pcie_Cfg v l a e m r c) as [cfg|x] eqn:Hcfg.
  2: { rewrite (run_pcie_Cfg_raises _ _ _ _ _ _ _ _ _ _ _ _ _ Hints _ _ Hcfg).
       by eapply Path_pcie_Cfg_raises. }
  destruct (eth_Cfg sp) as [ethcfg|x] eqn:Heth.
  2: { rewrite (run_eth_Cfg_raises _ _ _ _ _ _ _ _ _ _ _ _ _ Hints _ _ _ Hcfg Heth).
       by eapply Path_eth_Cfg_raises. }
  destruct (find_unused (world st) ".dat" (drawn (world st)) TMP_MAX)
    as [i|] eqn:Htmp.
  - rewrite (run_sweeps _ _ _ _ _ _ _ _ _ _ _ _ _ Hints _ _ _ _ Hcfg Heth Htmp).
    by eapply Path_sweep.
  - assert (Hav : tmp_available st = false)
      by (unfold tmp_available; by rewrite Htmp).
    rewrite (run_tmp_raises _ _ _ _ _ _ _ _ _ _ _ _ _ Hints _ _ _ Hcfg Heth Hav).
    by eapply Path_tmp_raises.
Qed.

Lemma run_result_available v l aw ec mp mr rc sp st :
  tmp_available st = true ->
  fst (run_pcie_model v l aw ec mp mr rc sp st)
  = run_value v l aw ec mp mr rc sp.
Proof.
  intros Hav.
  destruct (run_pcie_model_path v l aw ec mp mr rc sp st)
    as [msg Hints|a e m r c x Hints Hcfg
       |a e m r c cfg x Hints Hcfg Heth
       |a e m r c cfg ethcfg Hints Hcfg Heth Htmp
       |a e m r c cfg ethcfg i Hints Hcfg Heth Htmp];
    unfold run_value; cbn [fst]; rewrite Hints; cbv [mbind result_bind].
  - reflexivity.
  - by rewrite Hcfg.
  - by rewrite Hcfg, Heth.
  - congruence.
  - by rewrite Hcfg, Heth.
Qed.

End PathFacts.

(** ** The calls of the sweep *)

Lemma executed_prefix l : exists rest, map fst l = executed l ++ rest.
Proof.
  induction l as [|[c [e|]] l [rest IH]]; simpl.
  - by exists [].
  - by exists (map fst l).
  - exists rest. by rewrite IH.
Qed.

Lemma first_error_None l :
  first_error l = None <-> Forall (fun attempt => snd attempt = None) l.
Proof.
  induction l as [|[c [e|]] l IH]; simpl; split; intros H; auto.
  - discriminate.
  - inversion H; subst; discriminate.
  - constructor; [done|]. by apply IH.
  - inversion H; subst. by apply IH.
Qed.

Lemma first_error_split before call x after :
  Forall (fun attempt => snd attempt = None) before ->
  first_error (before ++ (call, Some x) :: after) = Some x
  /\ executed (before ++ (call, Some x) :: after) = map fst before ++ [call].
Proof.
  intros Hb. apply first_error_None in Hb.
  rewrite first_error_app, executed_app, Hb. simpl.
  by rewrite (executed_all _ Hb).
Qed.

Lemma range_sweep_bounds size :
  In size (range 64 (1500 + 1)) -> 64 <= size <= 1500.
Proof.
  intros Hin. apply list_elem_of_In in Hin. unfold range in Hin.
  apply elem_of_seqZ in Hin. lia.
Qed.

Lemma executed_head c o l : exists rest, executed ((c, o) :: l) = c :: rest.
Proof. destruct o; simpl; eauto. Qed.

Lemma executed_In l c : In c (executed l) -> In c (map fst l).
Proof.
  destruct (executed_prefix l) as [rest ->]. intros Hin.
  apply in_or_app. by left.
Qed.

Lemma range_sweep_cons : range 64 (1500 + 1) = 64 :: seqZ 65 1436.
Proof. unfold range. by rewrite seqZ_cons. Qed.

Section SweepFacts.

Context {model : ModelPackage}.

Lemma size_attempts_calls cfg bw ethcfg n :
  map fst (size_attempts cfg bw ethcfg n) = size_calls cfg bw ethcfg n.
Proof. reflexivity. Qed.

Lemma sweep_attempts_calls cfg bw ethcfg l :
  map fst (sweep_attempts cfg bw ethcfg l)
  = flat_map (fun size => size_calls cfg bw ethcfg (size - 4)) l.
Proof.
  induction l as [|s l IH]; [done|].
  change (sweep_attempts cfg bw ethcfg (s :: l))
    with (size_attempts cfg bw ethcfg (s - 4) ++ sweep_attempts cfg bw ethcfg l).
  by rewrite map_app, IH, size_attempts_calls.
Qed.

Lemma size_calls_size cfg bw ethcfg n :
  Forall (fun c => call_size c = Some n) (size_calls cfg bw ethcfg n).
Proof. unfold size_calls. repeat constructor. Qed.

Lemma size_calls_basis cfg bw ethcfg n c bw' :
  In c (size_calls cfg bw ethcfg n) ->
  call_bw_spec c = Some bw' -> bw' = bw /\ call_cfg c = Some cfg.
Proof.
  unfold size_calls. simpl.
  intros [<-|[<-|[<-|[<-|[<-|[<-|[<-|[]]]]]]]]; simpl; intros [= <-]; auto.
Qed.

Lemma is_Ok_first_error {A} (r : result A) (o : option exn) :
  is_Ok (match o with None => r | Some x => Raise x end) = true -> o = None.
Proof. destruct o; [discriminate|done]. Qed.

(** C2: the loop body, run at a gross size, makes the calls
    [mem_bw.write], [mem_bw.read], [mem_bw.read_write], [bps_ex],
    [simple_nic.bw], [niantic.bw] and [niantic.bw] with [h_opt="PMD"], in
    this order and each with the payload [size - 4], up to and including
    the first one the package answers with an exception; it raises that
    exception, and returns when there is none.  The first call is made in
    any case.  The sweep does this for the sizes 64 to 1500 in turn: every
    call in its log is one of the seven of a size [s] in that range and has
    received [s - 4]. *)
Theorem sweep_calls_receive_size_minus_4 cfg bw ethcfg :
  (forall acc size st,
     let n := size - 4 in
     let attempts :=
       [ (Call_mem_bw_write cfg bw n, outcome (mem_bw_write cfg bw n));
         (Call_mem_bw_read cfg bw n, outcome (mem_bw_read cfg bw n));
         (Call_mem_bw_read_write cfg bw n,
          outcome (mem_bw_read_write cfg bw n));
         (Call_bps_ex ethcfg n, outcome (eth.bps_ex ethcfg n));
         (Call_simple_nic_bw cfg bw pcie.DIR_BOTH n,
          outcome (simple_nic_bw cfg bw pcie.DIR_BOTH n));
         (Call_niantic_bw cfg bw pcie.DIR_BOTH n None,
          outcome (niantic_bw cfg bw pcie.DIR_BOTH n None));
         (Call_niantic_bw cfg bw pcie.DIR_BOTH n (Some "PMD"%string),
          outcome (niantic_bw cfg bw pcie.DIR_BOTH n (Some "PMD"%string))) ] in
     let after := sweep_body cfg bw ethcfg acc size st in
     world (snd after) = world st
     /\ calls (snd after) = calls st ++ executed attempts
     /\ outcome (fst after) = first_error attempts
     /\ (exists rest,
           executed attempts = Call_mem_bw_write cfg bw (size - 4) :: rest)
     /\ Forall (fun c => call_size c = Some (size - 4)) (executed attempts)
     /\ (is_Ok (fst after) = true ->
         calls (snd after)
         = calls st
           ++ [ Call_mem_bw_write cfg bw (size - 4);
                Call_mem_bw_read cfg bw (size - 4);
                Call_mem_bw_read_write cfg bw (size - 4);
                Call_bps_ex ethcfg (size - 4);
                Call_simple_nic_bw cfg bw pcie.DIR_BOTH (size - 4);
                Call_niantic_bw cfg bw pcie.DIR_BOTH (size - 4) None;
                Call_niantic_bw cfg bw pcie.DIR_BOTH (size - 4)
                  (Some "PMD"%string) ]))
  /\ (forall st,
        let attempts :=
          flat_map (fun size => size_attempts cfg bw ethcfg (size - 4))
                   (range 64 (1500 + 1)) in
        let after := sweep cfg bw ethcfg st in
        world (snd after) = world st
        /\ calls (snd after) = calls st ++ executed attempts
        /\ outcome (fst after) = first_error attempts
        /\ (exists rest, executed attempts = Call_mem_bw_write cfg bw 60 :: rest)
        /\ (forall c, In c (executed attempts) ->
              exists size,
                64 <= size <= 1500
                /\ In c (size_calls cfg bw ethcfg (size - 4))
                /\ call_size c = Some (size - 4))
        /\ (is_Ok (fst after) = true ->
            calls (snd after)
            = calls st
              ++ flat_map (fun size => size_calls cfg bw ethcfg (size - 4))
                          (range 64 (1500 + 1)))).
Proof.
  split.
  - intros acc size st n attempts after. subst after.
    change attempts with (size_attempts cfg bw ethcfg (size - 4)).
    clear attempts. subst n.
    rewrite sweep_body_eq. cbn [fst snd logged calls world].
    split; [done|]. split; [done|]. split.
    { by destruct (first_error _). }
    split; [apply executed_head|]. split.
    + pose proof (size_calls_size cfg bw ethcfg (size - 4)) as Hall.
      rewrite Forall_forall in *. intros c Hin. apply Hall.
      apply list_elem_of_In. apply list_elem_of_In in Hin.
      by apply executed_In in Hin.
    + intros Hok. apply is_Ok_first_error in Hok.
      by rewrite (executed_all _ Hok).
  - intros st attempts after. subst after.
    change attempts
      with (sweep_attempts cfg bw ethcfg (range 64 (1500 + 1))).
    clear attempts. rewrite sweep_eq. cbn [fst snd logged calls world].
    split; [done|]. split; [done|]. split.
    { by destruct (first_error _). }
    split.
    { rewrite range_sweep_cons.
      change (sweep_attempts cfg bw ethcfg (64 :: seqZ 65 1436))
        with ((Call_mem_bw_write cfg bw 60,
               outcome (mem_bw_write cfg bw 60))
              :: tl (size_attempts cfg bw ethcfg 60)
                 ++ sweep_attempts cfg bw ethcfg (seqZ 65 1436)).
      apply executed_head. }
    split.
    + intros c Hin. apply executed_In in Hin.
      rewrite sweep_attempts_calls in Hin.
      apply in_flat_map in Hin as (size & Hsize & Hin).
      exists size. split; [by apply range_sweep_bounds|]. split; [done|].
      pose proof (size_calls_size cfg bw ethcfg (size - 4)) as Hall.
      rewrite Forall_forall in Hall. apply Hall. by apply list_elem_of_In.
    + intros Hok. apply is_Ok_first_error in Hok.
      by rewrite (executed_all _ Hok), sweep_attempts_calls.
Qed.

End SweepFacts.

(** ** What a run that returns has done *)

Lemma range_sweep : range 64 (1500 + 1) = seqZ 64 1437.
Proof. reflexivity. Qed.

Section RunClaims.

Context {model : ModelPackage}.

Lemma full_series_sizes cfg bw ethcfg :
  sizes (full_series cfg bw ethcfg) = seqZ 64 1437.
Proof. reflexivity. Qed.

Lemma full_series_per_size cfg bw ethcfg :
  per_size cfg bw ethcfg (full_series cfg bw ethcfg).
Proof. unfold per_size. repeat split; reflexivity. Qed.

Lemma full_series_lengths cfg bw ethcfg :
  series_lengths (full_series cfg bw ethcfg) = repeat 1437%nat 8.
Proof.
  unfold series_lengths, full_series, extend, empty_series.
  cbn [sizes wr_bw_values rd_bw_values rdwr_bw_values eth_bw_values
       simple_nic_bi_values kernel_nic_bi_values pmd_nic_bi_values app].
  rewrite !length_map, range_sweep, length_seqZ. reflexivity.
Qed.

Lemma make_figure_traces sp s :
  map go.x (go.data (make_figure sp s)) = repeat (sizes s) 5
  /\ map go.y (go.data (make_figure sp s))
     = [rdwr_bw_values s; eth_bw_values s; simple_nic_bi_values s;
        kernel_nic_bi_values s; pmd_nic_bi_values s].
Proof. split; reflexivity. Qed.

(** C1 (as the code has it): every per-size call of a run receives, with the
    configuration [cfg] that [pcie.Cfg] returned, the basis
    [BW_Spec(cfg.TLP_bw, cfg.TLP_bw, BW_RAW)]: mode [BW_RAW], and the
    TLP-layer bandwidth of the configuration in both bandwidth positions. *)
Theorem run_basis_carries_TLP_bw v l aw ec mp mr rc sp st :
  exists issued,
    calls (snd (run_pcie_model v l aw ec mp mr rc sp st)) = calls st ++ issued
    /\ forall call bw,
         In call issued -> call_bw_spec call = Some bw ->
         exists a e m r c cfg,
           int_params aw ec mp mr rc = Ok (a, e, m, r, c)
           /\ pcie_Cfg v l a e m r c = Ok cfg
           /\ call_cfg call = Some cfg
           /\ bw = make_bw_spec cfg
           /\ pcie.bw_1 bw = pcie.TLP_bw cfg
           /\ pcie.bw_2 bw = pcie.TLP_bw cfg
           /\ pcie.bw_type bw = pcie.BW_RAW.
Proof.
  destruct (run_pcie_model_path v l aw ec mp mr rc sp st)
    as [msg Hints|a e m r c x Hints Hcfg
       |a e m r c cfg x Hints Hcfg Heth
       |a e m r c cfg ethcfg Hints Hcfg Heth Htmp
       |a e m r c cfg ethcfg i Hints Hcfg Heth Htmp];
    cbn [snd logged tmp_exhausted with_tmp_file calls].
  - exists []. split; [by rewrite app_nil_r|]. intros ?? [].
  - eexists. split; [reflexivity|].
    intros call bw [<-|[]]; discriminate.
  - eexists. split; [reflexivity|].
    intros call bw [<-|[<-|[]]]; discriminate.
  - eexists. split; [reflexivity|].
    intros call bw [<-|[<-|[]]]; discriminate.
  - eexists. split; [reflexivity|].
    intros call bw [<-|[<-|Hin]]; try discriminate.
    intros Hbw.
    destruct (executed_prefix (run_attempts cfg ethcfg)) as [rest Hrest].
    assert (Hin' : In call (map fst (run_attempts cfg ethcfg)))
      by (rewrite Hrest; apply in_or_app; auto).
    unfold run_attempts in Hin'. rewrite sweep_attempts_calls in Hin'.
    apply in_flat_map in Hin' as (size & _ & Hin').
    destruct (size_calls_basis _ _ _ _ _ _ Hin' Hbw) as [-> Hc].
    exists a, e, m, r, c, cfg. repeat split; auto.
Qed.

End RunClaims.

(** ** Temporary files *)

Lemma find_unused_free w suffix fuel : forall i j,
  find_unused w suffix i fuel = Some j ->
  files w !! tmp_path w suffix j = None.
Proof.
  induction fuel as [|fuel IH]; intros i j; simpl; [discriminate|].
  destruct (files w !! tmp_path w suffix i) eqn:Hi.
  - apply IH.
  - by intros [= <-].
Qed.

Lemma tmp_available_Some st :
  tmp_available st = true ->
  exists i, find_unused (world st) ".dat" (drawn (world st)) TMP_MAX = Some i.
Proof.
  unfold tmp_available.
  destruct (find_unused _ _ _ _) as [i|]; [eauto|discriminate].
Qed.

Lemma find_unused_crowded fuel : forall i,
  find_unused crowded_world ".dat" i fuel = None.
Proof.
  induction fuel as [|fuel IH]; intros i; [done|].
  cbn [find_unused].
  replace (files crowded_world !! tmp_path crowded_world ".dat" i)
    with (Some EmptyString) by (vm_compute; reflexivity).
  apply IH.
Qed.

Lemma crowded_state_has_no_name : tmp_available crowded_state = false.
Proof.
  unfold tmp_available. cbn [world crowded_state].
  by rewrite find_unused_crowded.
Qed.

(** ** The table *)

Lemma dict_set_new {V} k (v : V) d :
  ~ In k (map fst d) -> dict_set k v d = d ++ [(k, v)].
Proof.
  intros Hk. unfold dict_set.
  destruct (existsb _ d) eqn:Hex; [|done].
  apply existsb_exists in Hex as ([k' v'] & Hin & Heq).
  apply String.eqb_eq in Heq. simpl in Heq. subst k'.
  destruct Hk. apply in_map_iff. by exists (k, v').
Qed.

Lemma dict_fold_distinct {V} (items : list (string * V)) : forall d,
  NoDup (map fst (d ++ items)) ->
  fold_left (fun d kv => dict_set (fst kv) (snd kv) d) items d = d ++ items.
Proof.
  induction items as [|[k v] items IH]; intros d Hnd; simpl.
  - by rewrite app_nil_r.
  - rewrite dict_set_new.
    + rewrite IH; rewrite <- app_assoc; [done|exact Hnd].
    + rewrite map_app in Hnd. apply NoDup_app in Hnd as (_ & Hd & _).
      intros Hin. apply (Hd k); apply list_elem_of_In; [done|]. simpl. by left.
Qed.

Lemma dict_of_items_distinct {V} (items : list (string * V)) :
  NoDup (map fst items) -> dict_of_items items = items.
Proof. intros Hnd. unfold dict_of_items. by rewrite dict_fold_distinct. Qed.

Lemma slice_step_from_map {A B} (f : A -> B) k l : forall skip,
  slice_step_from k skip (map f l) = map f (slice_step_from k skip l).
Proof.
  induction l as [|x l IH]; intros skip; simpl; [done|].
  destruct skip; simpl; by rewrite IH.
Qed.

Lemma slice_step_map {A B} (f : A -> B) k l :
  slice_step k (map f l) = map f (slice_step k l).
Proof. apply slice_step_from_map. Qed.

Lemma sampled_sizes_slice : slice_step 64 (range 64 (1500 + 1)) = sampled_sizes.
Proof. vm_compute. reflexivity. Qed.

Lemma sampled_sizes_lookup k :
  0 <= k < 23 -> sampled_sizes !! Z.to_nat k = Some (64 + 64 * k).
Proof.
  intros Hk. unfold sampled_sizes, range.
  rewrite list_lookup_fmap, lookup_seqZ_lt by lia. simpl. f_equal. lia.
Qed.

Lemma sampled_index_length :
  length (slice_step 64 (range 0 (Z.of_nat (length (range 64 (1500 + 1))))))
  = 23%nat.
Proof. vm_compute. reflexivity. Qed.

Lemma table_keys_distinct sp (s : Series) :
  ~ In (eth_column sp) fixed_columns ->
  NoDup (map fst (table_items sp s)).
Proof.
  intros Hno. unfold fixed_columns in Hno. simpl in Hno.
  unfold table_items. cbn [map fst].
  repeat (apply NoDup_cons; split);
    [..|apply NoDup_nil; done]; rewrite ?list_elem_of_In; simpl;
    intros Hin; decompose [or] Hin; try discriminate; try done;
    apply Hno; auto 10.
Qed.

Section TableFacts.

Context {model : ModelPackage}.

Lemma table_items_full sp cfg bw ethcfg :
  table_items sp (full_series cfg bw ethcfg)
  = table_at sp cfg bw ethcfg (range 64 (1500 + 1)).
Proof.
  unfold table_items, table_at, full_series, extend, empty_series.
  cbn [sizes wr_bw_values rd_bw_values rdwr_bw_values eth_bw_values
       simple_nic_bi_values kernel_nic_bi_values pmd_nic_bi_values app].
  by rewrite !map_map.
Qed.

Lemma table_at_slice sp cfg bw ethcfg k l :
  map (fun kc => (fst kc, slice_step k (snd kc))) (table_at sp cfg bw ethcfg l)
  = table_at sp cfg bw ethcfg (slice_step k l).
Proof. unfold table_at. cbn [map fst snd]. by rewrite !slice_step_map. Qed.

Lemma DataFrame_table_at sp cfg bw ethcfg l :
  pd.DataFrame (table_at sp cfg bw ethcfg l)
  = Ok {| pd.columns := table_at sp cfg bw ethcfg l;
          pd.index := range 0 (Z.of_nat (length l)) |}.
Proof.
  unfold pd.DataFrame, table_at. cbn [forallb snd].
  by rewrite !length_map, Nat.eqb_refl.
Qed.

Lemma assemble_full sp cfg ethcfg :
  ~ In (eth_column sp) fixed_columns ->
  let bw := make_bw_spec cfg in
  assemble sp cfg (full_series cfg bw ethcfg)
  = Ok (join newline (config_info cfg),
        make_figure sp (full_series cfg bw ethcfg),
        {| pd.columns := table_at sp cfg bw ethcfg sampled_sizes;
           pd.index := range 0 23 |}).
Proof.
  intros Hno bw. unfold assemble.
  rewrite dict_of_items_distinct by by apply table_keys_distinct.
  rewrite table_items_full, DataFrame_table_at.
  unfold pd.reset_index_drop, pd.iloc_step. cbn [pd.columns pd.index].
  by rewrite table_at_slice, sampled_sizes_slice, sampled_index_length.
Qed.

(** C10: the table a run returns is the table of the full sweep cut down
    to the rows at positions 0, 64, 128, ...: it has the eight columns and
    23 rows, labelled 0..22, and row k holds the gross size 64 + 64k (from
    64 to 1472) and the seven values computed for that size.  (The Ethernet
    column is named after the speed; it is a column of its own as long as
    that name is not one of the seven fixed ones.) *)
Theorem sampled_table_is_every_64th_row v l aw ec mp mr rc sp st :
  let after := run_pcie_model v l aw ec mp mr rc sp st in
  is_Ok (fst after) = true ->
  ~ In (eth_column sp) fixed_columns ->
  exists a e m r c cfg ethcfg text fig df,
    let bw_spec := make_bw_spec cfg in
    int_params aw ec mp mr rc = Ok (a, e, m, r, c)
    /\ pcie_Cfg v l a e m r c = Ok cfg
    /\ eth_Cfg sp = Ok ethcfg
    /\ fst after = Ok (text, fig, df)
    /\ pd.columns df
       = map (fun kc => (fst kc, slice_step 64 (snd kc)))
             (table_at sp cfg bw_spec ethcfg (range 64 (1500 + 1)))
    /\ pd.columns df = table_at sp cfg bw_spec ethcfg sampled_sizes
    /\ sampled_sizes
       = [64; 128; 192; 256; 320; 384; 448; 512; 576; 640; 704; 768; 832;
          896; 960; 1024; 1088; 1152; 1216; 1280; 1344; 1408; 1472]
    /\ pd.column_names df
       = [ "Transfer Size (Bytes)"; "PCIe Write BW (Gb/s)";
           "PCIe Read BW (Gb/s)"; "PCIe Read/Write BW (Gb/s)";
           eth_column sp; "Simple NIC (Gb/s)";
           "Modern NIC (kernel driver) (Gb/s)";
           "Modern NIC (DPDK driver) (Gb/s)" ]%string
    /\ pd.index df = range 0 23
    /\ pd.n_rows df = 23%nat
    /\ (forall k, 0 <= k < 23 ->
          pd.row df (Z.to_nat k)
          = [ Some (pd.Int (64 + 64 * k));
              Some (pd.Float (wr_bw_at cfg bw_spec (64 + 64 * k)));
              Some (pd.Float (rd_bw_at cfg bw_spec (64 + 64 * k)));
              Some (pd.Float (rdwr_bw_at cfg bw_spec (64 + 64 * k)));
              Some (pd.Float (eth_bw_at ethcfg (64 + 64 * k)));
              Some (pd.Float (simple_nic_bi_at cfg bw_spec (64 + 64 * k)));
              Some (pd.Float (kernel_nic_bi_at cfg bw_spec (64 + 64 * k)));
              Some (pd.Float (pmd_nic_bi_at cfg bw_spec (64 + 64 * k))) ]).
Proof.
  intros after Hok Hno. subst after.
  destruct (run_pcie_model_path v l aw ec mp mr rc sp st)
    as [msg Hints|a e m r c x Hints Hcfg
       |a e m r c cfg x Hints Hcfg Heth
       |a e m r c cfg ethcfg Hints Hcfg Heth Htmp
       |a e m r c cfg ethcfg i Hints Hcfg Heth Htmp];
    try discriminate Hok.
  cbn [fst snd] in *.
  destruct (first_error (run_attempts cfg ethcfg)) eqn:Herr;
    [discriminate Hok|].
  rewrite (assemble_full _ _ _ Hno).
  do 10 eexists. cbv zeta.
  split; [exact Hints|]. split; [exact Hcfg|]. split; [exact Heth|].
  split; [reflexivity|].
  unfold pd.column_names, pd.n_rows, pd.row. cbn [pd.columns pd.index].
  split; [by rewrite table_at_slice, sampled_sizes_slice|].
  split; [reflexivity|]. split; [reflexivity|]. split; [reflexivity|].
  split; [reflexivity|]. split; [reflexivity|].
  intros k Hk. unfold table_at. cbn [map snd].
  rewrite !list_lookup_fmap, (sampled_sizes_lookup k Hk). reflexivity.
Qed.

End TableFacts.

(** ** Building the table cannot fail *)

Lemma dict_set_Forall {V} (P : V -> Prop) k v (d : list (string * V)) :
  P v -> Forall (fun kv => P (snd kv)) d ->
  Forall (fun kv => P (snd kv)) (dict_set k v d).
Proof.
  intros Hv Hd. unfold dict_set. destruct (existsb _ d).
  - apply Forall_fmap. eapply Forall_impl; [exact Hd|].
    intros [k' v'] Hkv. simpl in *. by destruct (String.eqb k k').
  - apply Forall_app. split; [done|]. by constructor.
Qed.

Lemma dict_of_items_Forall {V} (P : V -> Prop) (items : list (string * V)) :
  Forall (fun kv => P (snd kv)) items ->
  Forall (fun kv => P (snd kv)) (dict_of_items items).
Proof.
  unfold dict_of_items.
  assert (Hgen : forall d, Forall (fun kv => P (snd kv)) d ->
            Forall (fun kv => P (snd kv)) items ->
            Forall (fun kv => P (snd kv))
              (fold_left (fun d kv => dict_set (fst kv) (snd kv) d) items d)).
  { induction items as [|[k v] items IH]; intros d Hd Hitems; simpl; [done|].
    apply Forall_cons in Hitems as [Hv Hitems].
    apply IH; [|done]. by apply dict_set_Forall. }
  intros Hitems. by apply Hgen.
Qed.

Lemma DataFrame_equal_lengths n (d : list (string * list pd.cell)) :
  Forall (fun kc => length (snd kc) = n) d ->
  pd.DataFrame d
  = Ok {| pd.columns := d;
          pd.index := range 0 (Z.of_nat (match d with
                                         | [] => 0%nat
                                         | _ => n
                                         end)) |}.
Proof.
  intros Hd. unfold pd.DataFrame. destruct d as [|[k0 c0] d]; [done|].
  assert (Hc0 : length c0 = n) by (by apply Forall_cons in Hd as [? _]).
  replace (forallb _ _) with true; [by rewrite Hc0|].
  symmetry. apply forallb_forall. intros kc Hin. apply Nat.eqb_eq.
  rewrite Forall_forall in Hd. rewrite Hc0.
  apply Hd. by apply list_elem_of_In.
Qed.

Lemma table_items_lengths {model : ModelPackage} sp cfg bw ethcfg l :
  Forall (fun kc => length (snd kc) = length l) (table_at sp cfg bw ethcfg l).
Proof.
  unfold table_at. repeat (apply Forall_cons; split; [cbn [snd]; by rewrite length_map|]).
  constructor.
Qed.

(** ** The series and the frame of a run *)

Lemma dict_set_nonempty {V} k (v : V) d : dict_set k v d <> [].
Proof.
  unfold dict_set. destruct (existsb _ d) eqn:Hex.
  - destruct d; [discriminate Hex|discriminate].
  - by destruct d.
Qed.

Lemma dict_of_items_nonempty {V} (kv : string * V) items :
  dict_of_items (kv :: items) <> [].
Proof.
  unfold dict_of_items. cbn [fold_left].
  generalize (dict_set_nonempty (fst kv) (snd kv) []).
  generalize (dict_set (fst kv) (snd kv) []).
  induction items as [|kv' items IH]; intros d Hd; simpl; [done|].
  apply IH, dict_set_nonempty.
Qed.

Lemma outcome_None {A} (r : result A) : outcome r = None -> exists a, r = Ok a.
Proof. destruct r; [eauto|discriminate]. Qed.

Section Assembly.

Context {model : ModelPackage}.

(** When no call of a sweep raises, each of the seven calls of each size has
    returned. *)
Lemma sweep_all_returned cfg bw ethcfg l size :
  first_error (sweep_attempts cfg bw ethcfg l) = None ->
  In size l ->
  exists wr rd rdwr bps sn kn pn,
    mem_bw_write cfg bw (size - 4) = Ok wr
    /\ mem_bw_read cfg bw (size - 4) = Ok rd
    /\ mem_bw_read_write cfg bw (size - 4) = Ok rdwr
    /\ eth.bps_ex ethcfg (size - 4) = Ok bps
    /\ simple_nic_bw cfg bw pcie.DIR_BOTH (size - 4) = Ok sn
    /\ niantic_bw cfg bw pcie.DIR_BOTH (size - 4) None = Ok kn
    /\ niantic_bw cfg bw pcie.DIR_BOTH (size - 4) (Some "PMD"%string) = Ok pn.
Proof.
  intros Herr Hin. apply first_error_None in Herr.
  rewrite Forall_forall in Herr.
  assert (Hall : forall attempt,
            In attempt (size_attempts cfg bw ethcfg (size - 4)) ->
            snd attempt = None).
  { intros attempt Ha. apply Herr, list_elem_of_In.
    unfold sweep_attempts. apply in_flat_map. eauto. }
  unfold size_attempts in Hall.
  set (n := size - 4) in *.
  destruct (outcome_None (mem_bw_write cfg bw n)) as [wr Hwr].
  { apply (Hall (Call_mem_bw_write cfg bw n, _)). simpl; tauto. }
  destruct (outcome_None (mem_bw_read cfg bw n)) as [rd Hrd].
  { apply (Hall (Call_mem_bw_read cfg bw n, _)). simpl; tauto. }
  destruct (outcome_None (mem_bw_read_write cfg bw n)) as [rdwr Hrdwr].
  { apply (Hall (Call_mem_bw_read_write cfg bw n, _)). simpl; tauto. }
  destruct (outcome_None (eth.bps_ex ethcfg n)) as [bps Hbps].
  { apply (Hall (Call_bps_ex ethcfg n, _)). simpl; tauto. }
  destruct (outcome_None (simple_nic_bw cfg bw pcie.DIR_BOTH n)) as [sn Hsn].
  { apply (Hall (Call_simple_nic_bw cfg bw pcie.DIR_BOTH n, _)).
    simpl; tauto. }
  destruct (outcome_None (niantic_bw cfg bw pcie.DIR_BOTH n None))
    as [kn Hkn].
  { apply (Hall (Call_niantic_bw cfg bw pcie.DIR_BOTH n None, _)).
    simpl; tauto. }
  destruct (outcome_None
              (niantic_bw cfg bw pcie.DIR_BOTH n (Some "PMD"%string)))
    as [pn Hpn].
  { apply (Hall (Call_niantic_bw cfg bw pcie.DIR_BOTH n (Some "PMD"%string),
                 _)).
    simpl; tauto. }
  exists wr, rd, rdwr, bps, sn, kn, pn. repeat split; assumption.
Qed.

(** The frame of the whole sweep, before it is sampled. *)
Lemma DataFrame_full sp cfg bw ethcfg :
  pd.DataFrame (dict_of_items (table_items sp (full_series cfg bw ethcfg)))
  = Ok {| pd.columns :=
            dict_of_items (table_items sp (full_series cfg bw ethcfg));
          pd.index := range 0 1437 |}.
Proof.
  rewrite (DataFrame_equal_lengths 1437).
  - pose proof (dict_of_items_nonempty
                  ("Transfer Size (Bytes)"%string,
                   map pd.Int (sizes (full_series cfg bw ethcfg)))
                  (tl (table_items sp (full_series cfg bw ethcfg)))) as Hne.
    change (_ :: tl _)
      with (table_items sp (full_series cfg bw ethcfg)) in Hne.
    by destruct (dict_of_items _).
  - apply (dict_of_items_Forall (fun c => length c = 1437%nat)).
    rewrite table_items_full.
    pose proof (table_items_lengths sp cfg bw ethcfg (range 64 (1500 + 1)))
      as Hlen.
    by rewrite range_sweep, length_seqZ in Hlen.
Qed.

Lemma full_series_lookup cfg bw ethcfg (i : nat) wr rd rdwr bps sn kn pn :
  (i < 1437)%nat ->
  let n := 64 + Z.of_nat i - 4 in
  mem_bw_write cfg bw n = Ok wr ->
  mem_bw_read cfg bw n = Ok rd ->
  mem_bw_read_write cfg bw n = Ok rdwr ->
  eth.bps_ex ethcfg n = Ok bps ->
  simple_nic_bw cfg bw pcie.DIR_BOTH n = Ok sn ->
  niantic_bw cfg bw pcie.DIR_BOTH n None = Ok kn ->
  niantic_bw cfg bw pcie.DIR_BOTH n (Some "PMD"%string) = Ok pn ->
  let series := full_series cfg bw ethcfg in
  sizes series !! i = Some (64 + Z.of_nat i)
  /\ wr_bw_values series !! i = Some (tx_eff wr)
  /\ rd_bw_values series !! i = Some (rx_eff rd)
  /\ rdwr_bw_values series !! i = Some (tx_eff rdwr)
  /\ eth_bw_values series !! i
     = Some (Some (PrimFloat.div bps
                     (PrimFloat.mul (float_of_int (1000 * 1000)) 1000.0)))
  /\ simple_nic_bi_values series !! i = Some (tx_eff sn)
  /\ kernel_nic_bi_values series !! i = Some (tx_eff kn)
  /\ pmd_nic_bi_values series !! i = Some (tx_eff pn).
Proof.
  intros Hi n Hwr Hrd Hrdwr Hbps Hsn Hkn Hpn series. subst series n.
  assert (Hsize : seqZ 64 1437 !! i = Some (64 + Z.of_nat i))
    by (apply lookup_seqZ_lt; lia).
  unfold full_series, extend, empty_series.
  cbn [sizes wr_bw_values rd_bw_values rdwr_bw_values eth_bw_values
       simple_nic_bi_values kernel_nic_bi_values pmd_nic_bi_values app].
  rewrite range_sweep, !list_lookup_fmap, Hsize. cbn [fmap option_fmap option_map].
  unfold wr_bw_at, rd_bw_at, rdwr_bw_at, eth_bw_at, simple_nic_bi_at,
    kernel_nic_bi_at, pmd_nic_bi_at.
  rewrite Hwr, Hrd, Hrdwr, Hbps, Hsn, Hkn, Hpn. repeat split; reflexivity.
Qed.

End Assembly.

Section RunSeries.

Context {model : ModelPackage}.

(** C3: a run that returns has built the PCIe configuration and the
    Ethernet configuration with one call each, in this order, followed by
    the seven per-size calls for each gross size from 64 to 1500 in
    ascending order and nothing else, all of them with the one basis
    [make_bw_spec cfg].  Every iteration of the loop appends to each of the
    eight lists the one value it took from the calls of its own size,
    whatever the lists and the state it starts from.  The series the sweep
    returns have 1437 entries each, entry i holding the size 64 + i and the
    figures the package returned for it.  The frame built from them has the
    eight lists as its columns and 1437 rows, and the run returns the
    configuration text, the figure of these series (five of them plotted
    against the sizes) and the sample of this frame. *)
Theorem run_builds_once_and_sweeps_every_size v l aw ec mp mr rc sp st :
  let after := run_pcie_model v l aw ec mp mr rc sp st in
  is_Ok (fst after) = true ->
  exists a e m r c cfg ethcfg series df,
    let bw_spec := make_bw_spec cfg in
    int_params aw ec mp mr rc = Ok (a, e, m, r, c)
    /\ pcie_Cfg v l a e m r c = Ok cfg
    /\ eth_Cfg sp = Ok ethcfg
    /\ calls (snd after)
       = calls st
         ++ Call_pcie_Cfg v l a e m r c
         :: Call_eth_Cfg sp
         :: flat_map (fun size => size_calls cfg bw_spec ethcfg (size - 4))
                     (range 64 (1500 + 1))
    /\ (forall st', fst (sweep cfg bw_spec ethcfg st') = Ok series)
    /\ (forall acc size st',
          In size (range 64 (1500 + 1)) ->
          exists wr rd rdwr bps sn kn pn,
            mem_bw_write cfg bw_spec (size - 4) = Ok wr
            /\ mem_bw_read cfg bw_spec (size - 4) = Ok rd
            /\ mem_bw_read_write cfg bw_spec (size - 4) = Ok rdwr
            /\ eth.bps_ex ethcfg (size - 4) = Ok bps
            /\ simple_nic_bw cfg bw_spec pcie.DIR_BOTH (size - 4) = Ok sn
            /\ niantic_bw cfg bw_spec pcie.DIR_BOTH (size - 4) None = Ok kn
            /\ niantic_bw cfg bw_spec pcie.DIR_BOTH (size - 4)
                 (Some "PMD"%string) = Ok pn
            /\ fst (sweep_body cfg bw_spec ethcfg acc size st')
               = Ok {| sizes := sizes acc ++ [size];
                       wr_bw_values := wr_bw_values acc ++ [tx_eff wr];
                       rd_bw_values := rd_bw_values acc ++ [rx_eff rd];
                       rdwr_bw_values := rdwr_bw_values acc ++ [tx_eff rdwr];
                       eth_bw_values :=
                         eth_bw_values acc
                         ++ [Some (PrimFloat.div bps
                                     (PrimFloat.mul
                                        (float_of_int (1000 * 1000)) 1000.0))];
                       simple_nic_bi_values :=
                         simple_nic_bi_values acc ++ [tx_eff sn];
                       kernel_nic_bi_values :=
                         kernel_nic_bi_values acc ++ [tx_eff kn];
                       pmd_nic_bi_values :=
                         pmd_nic_bi_values acc ++ [tx_eff pn] |})
    /\ sizes series = seqZ 64 1437
    /\ series_lengths series = repeat 1437%nat 8
    /\ (forall i : nat, (i < 1437)%nat ->
          let n := 64 + Z.of_nat i - 4 in
          exists wr rd rdwr bps sn kn pn,
            mem_bw_write cfg bw_spec n = Ok wr
            /\ mem_bw_read cfg bw_spec n = Ok rd
            /\ mem_bw_read_write cfg bw_spec n = Ok rdwr
            /\ eth.bps_ex ethcfg n = Ok bps
            /\ simple_nic_bw cfg bw_spec pcie.DIR_BOTH n = Ok sn
            /\ niantic_bw cfg bw_spec pcie.DIR_BOTH n None = Ok kn
            /\ niantic_bw cfg bw_spec pcie.DIR_BOTH n (Some "PMD"%string)
               = Ok pn
            /\ sizes series !! i = Some (64 + Z.of_nat i)
            /\ wr_bw_values series !! i = Some (tx_eff wr)
            /\ rd_bw_values series !! i = Some (rx_eff rd)
            /\ rdwr_bw_values series !! i = Some (tx_eff rdwr)
            /\ eth_bw_values series !! i
               = Some (Some (PrimFloat.div bps
                               (PrimFloat.mul
                                  (float_of_int (1000 * 1000)) 1000.0)))
            /\ simple_nic_bi_values series !! i = Some (tx_eff sn)
            /\ kernel_nic_bi_values series !! i = Some (tx_eff kn)
            /\ pmd_nic_bi_values series !! i = Some (tx_eff pn))
    /\ pd.DataFrame (dict_of_items (table_items sp series)) = Ok df
    /\ pd.index df = range 0 1437
    /\ Forall (fun kc => length (snd kc) = 1437%nat) (pd.columns df)
    /\ (~ In (eth_column sp) fixed_columns ->
        pd.columns df
        = [ ("Transfer Size (Bytes)"%string, map pd.Int (sizes series));
            ("PCIe Write BW (Gb/s)"%string,
             map pd.Float (wr_bw_values series));
            ("PCIe Read BW (Gb/s)"%string,
             map pd.Float (rd_bw_values series));
            ("PCIe Read/Write BW (Gb/s)"%string,
             map pd.Float (rdwr_bw_values series));
            (eth_column sp, map pd.Float (eth_bw_values series));
            ("Simple NIC (Gb/s)"%string,
             map pd.Float (simple_nic_bi_values series));
            ("Modern NIC (kernel driver) (Gb/s)"%string,
             map pd.Float (kernel_nic_bi_values series));
            ("Modern NIC (DPDK driver) (Gb/s)"%string,
             map pd.Float (pmd_nic_bi_values series)) ])
    /\ fst after
       = Ok (join newline (config_info cfg), make_figure sp series,
             pd.reset_index_drop (pd.iloc_step 64 df))
    /\ map go.x (go.data (make_figure sp series)) = repeat (sizes series) 5
    /\ map go.y (go.data (make_figure sp series))
       = [rdwr_bw_values series; eth_bw_values series;
          simple_nic_bi_values series; kernel_nic_bi_values series;
          pmd_nic_bi_values series].
Proof.
  intros after Hok. subst after.
  destruct (run_pcie_model_path v l aw ec mp mr rc sp st)
    as [msg Hints|a e m r c x Hints Hcfg
       |a e m r c cfg x Hints Hcfg Heth
       |a e m r c cfg ethcfg Hints Hcfg Heth Htmp
       |a e m r c cfg ethcfg i Hints Hcfg Heth Htmp];
    try discriminate Hok.
  cbn [fst snd] in *.
  destruct (first_error (run_attempts cfg ethcfg)) eqn:Herr;
    [discriminate Hok|].
  clear Hok. unfold assemble. set (bw := make_bw_spec cfg) in *.
  rewrite DataFrame_full.
  exists a, e, m, r, c, cfg, ethcfg, (full_series cfg bw ethcfg).
  eexists. cbv zeta. fold bw.
  split; [done|]. split; [done|]. split; [done|]. split.
  { unfold logged, with_tmp_file; cbn [calls].
    rewrite (executed_all _ Herr). unfold run_attempts.
    by rewrite sweep_attempts_calls. }
  split.
  { intros st'. rewrite sweep_eq. cbn [fst].
    unfold run_attempts in Herr. fold bw in Herr. by rewrite Herr. }
  split.
  { intros acc size st' Hin.
    destruct (sweep_all_returned cfg bw ethcfg _ size Herr Hin)
      as (wr & rd & rdwr & bps & sn & kn & pn
          & Hwr & Hrd & Hrdwr & Hbps & Hsn & Hkn & Hpn).
    exists wr, rd, rdwr, bps, sn, kn, pn.
    repeat (split; [assumption|]).
    rewrite sweep_body_eq. cbn [fst].
    unfold size_attempts, extend, wr_bw_at, rd_bw_at, rdwr_bw_at, eth_bw_at,
      simple_nic_bi_at, kernel_nic_bi_at, pmd_nic_bi_at.
    cbn [map]. by rewrite Hwr, Hrd, Hrdwr, Hbps, Hsn, Hkn, Hpn. }
  split; [apply full_series_sizes|].
  split; [apply full_series_lengths|].
  split.
  { intros k Hk.
    assert (Hin : In (64 + Z.of_nat k) (range 64 (1500 + 1))).
    { apply list_elem_of_In. unfold range. apply elem_of_seqZ. lia. }
    destruct (sweep_all_returned cfg bw ethcfg _ _ Herr Hin)
      as (wr & rd & rdwr & bps & sn & kn & pn
          & Hwr & Hrd & Hrdwr & Hbps & Hsn & Hkn & Hpn).
    exists wr, rd, rdwr, bps, sn, kn, pn.
    repeat (split; [assumption|]).
    by apply full_series_lookup. }
  split; [apply DataFrame_full|]. cbn [pd.index pd.columns].
  split; [reflexivity|]. split.
  { apply (dict_of_items_Forall (fun c => length c = 1437%nat)).
    rewrite table_items_full.
    pose proof (table_items_lengths sp cfg bw ethcfg (range 64 (1500 + 1)))
      as Hlen.
    by rewrite range_sweep, length_seqZ in Hlen. }
  split.
  { intros Hno. rewrite dict_of_items_distinct; [reflexivity|].
    by apply table_keys_distinct. }
  split; [reflexivity|]. apply make_figure_traces.
Qed.

End RunSeries.

(** ** Effects, determinism and errors *)

Section EffectClaims.

Context {model : ModelPackage}.

(** C7 (as the code has it): the sweep itself leaves the world as it was;
    the run as a whole either fails before the sweep without changing any
    file, or has created exactly one new, empty file, under a name ending in
    [.dat] that did not exist before, and leaves it behind. *)
Theorem run_leaves_one_temporary_file v l aw ec mp mr rc sp st :
  let after := run_pcie_model v l aw ec mp mr rc sp st in
  (forall cfg bw ethcfg st',
     world (snd (sweep cfg bw ethcfg st')) = world st')
  /\ ((files (world (snd after)) = files (world st)
       /\ is_Ok (fst after) = false)
      \/ exists i,
           let path := tmp_path (world st) ".dat" i in
           path = tmpdir (world st) +:+ "/tmp" +:+ candidates (world st) i
                  +:+ ".dat"
           /\ files (world st) !! path = None
           /\ files (world (snd after))
              = <[path := EmptyString]> (files (world st))).
Proof.
  intros after. subst after. split.
  { intros cfg bw ethcfg st'. by rewrite sweep_eq. }
  destruct (run_pcie_model_path v l aw ec mp mr rc sp st)
    as [msg Hints|a e m r c x Hints Hcfg
       |a e m r c cfg x Hints Hcfg Heth
       |a e m r c cfg ethcfg Hints Hcfg Heth Htmp
       |a e m r c cfg ethcfg i Hints Hcfg Heth Htmp];
    cbn [fst snd logged tmp_exhausted with_tmp_file world files is_Ok];
    try (left; split; reflexivity).
  right. exists i. cbv zeta. split; [reflexivity|]. split; [|reflexivity].
  by eapply find_unused_free.
Qed.

(** A run that returns has created one file that was not there. *)
Lemma returning_run_adds_a_file v l aw ec mp mr rc sp st :
  is_Ok (fst (run_pcie_model v l aw ec mp mr rc sp st)) = true ->
  tmp_available st = true
  /\ exists path,
       files (world st) !! path = None
       /\ files (world (snd (run_pcie_model v l aw ec mp mr rc sp st)))
          = <[path := EmptyString]> (files (world st)).
Proof.
  intros Hok.
  destruct (run_pcie_model_path v l aw ec mp mr rc sp st)
    as [msg Hints|a e m r c x Hints Hcfg
       |a e m r c cfg x Hints Hcfg Heth
       |a e m r c cfg ethcfg Hints Hcfg Heth Htmp
       |a e m r c cfg ethcfg i Hints Hcfg Heth Htmp];
    try discriminate Hok.
  cbn [snd logged with_tmp_file world files].
  split; [unfold tmp_available; by rewrite Htmp|].
  eexists. split; [|reflexivity]. by eapply find_unused_free.
Qed.

(** C8 (as the code has it): what a run returns or raises depends on the
    world in one way only, whether [tempfile] finds a name.  Where it does,
    the outcome is the one [run_value] computes from the arguments alone,
    where it does not, the one [run_value_without_name] computes; so two
    runs with the same arguments in worlds that agree on this return the
    same text, figure and table, or raise the same exception.  A run is
    not without effect: one that returns has created a file that was not
    there.  In the loop, the entry appended for a size depends on that size
    only, not on the lists so far, the state, or the sizes before it; and
    building the basis anew in every iteration gives the same run. *)
Theorem run_depends_on_the_world_through_tempfile_only
    v l aw ec mp mr rc sp :
  (forall st,
     fst (run_pcie_model v l aw ec mp mr rc sp st)
     = if tmp_available st then run_value v l aw ec mp mr rc sp
       else run_value_without_name v l aw ec mp mr rc sp)
  /\ (forall st1 st2,
        tmp_available st1 = tmp_available st2 ->
        fst (run_pcie_model v l aw ec mp mr rc sp st1)
        = fst (run_pcie_model v l aw ec mp mr rc sp st2))
  /\ (forall st,
        is_Ok (fst (run_pcie_model v l aw ec mp mr rc sp st)) = true ->
        tmp_available st = true
        /\ exists path,
             files (world st) !! path = None
             /\ files (world (snd (run_pcie_model v l aw ec mp mr rc sp st)))
                = <[path := EmptyString]> (files (world st)))
  /\ (forall cfg bw ethcfg steps acc st,
        fst (for_each (sweep_body cfg bw ethcfg) acc steps st)
        = match first_error
                  (flat_map (fun size => size_attempts cfg bw ethcfg (size - 4))
                            steps) with
          | None =>
              Ok {| sizes := sizes acc ++ steps;
                    wr_bw_values :=
                      wr_bw_values acc
                      ++ map (fun size =>
                                tx_of (mem_bw_write cfg bw (size - 4))) steps;
                    rd_bw_values :=
                      rd_bw_values acc
                      ++ map (fun size =>
                                rx_of (mem_bw_read cfg bw (size - 4))) steps;
                    rdwr_bw_values :=
                      rdwr_bw_values acc
                      ++ map (fun size =>
                                tx_of (mem_bw_read_write cfg bw (size - 4)))
                           steps;
                    eth_bw_values :=
                      eth_bw_values acc ++ map (eth_bw_at ethcfg) steps;
                    simple_nic_bi_values :=
                      simple_nic_bi_values acc
                      ++ map (fun size =>
                                tx_of (simple_nic_bw cfg bw pcie.DIR_BOTH
                                         (size - 4))) steps;
                    kernel_nic_bi_values :=
                      kernel_nic_bi_values acc
                      ++ map (fun size =>
                                tx_of (niantic_bw cfg bw pcie.DIR_BOTH
                                         (size - 4) None)) steps;
                    pmd_nic_bi_values :=
                      pmd_nic_bi_values acc
                      ++ map (fun size =>
                                tx_of (niantic_bw cfg bw pcie.DIR_BOTH
                                         (size - 4) (Some "PMD"%string)))
                           steps |}
          | Some x => Raise x
          end)
  /\ (forall st,
        run_pcie_model_recomputing v l aw ec mp mr rc sp st
        = run_pcie_model v l aw ec mp mr rc sp st).
Proof.
  assert (Hvalue : forall st,
            fst (run_pcie_model v l aw ec mp mr rc sp st)
            = if tmp_available st then run_value v l aw ec mp mr rc sp
              else run_value_without_name v l aw ec mp mr rc sp).
  { intros st. destruct (tmp_available st) eqn:Hav.
    - by apply run_result_available.
    - destruct (run_pcie_model_path v l aw ec mp mr rc sp st)
        as [msg Hints|a e m r c x Hints Hcfg
           |a e m r c cfg x Hints Hcfg Heth
           |a e m r c cfg ethcfg Hints Hcfg Heth Htmp
           |a e m r c cfg ethcfg i Hints Hcfg Heth Htmp];
        unfold run_value_without_name; cbn [fst]; rewrite Hints;
        cbv [mbind result_bind].
      + reflexivity.
      + by rewrite Hcfg.
      + by rewrite Hcfg, Heth.
      + by rewrite Hcfg, Heth.
      + unfold tmp_available in Hav. by rewrite Htmp in Hav. }
  split; [exact Hvalue|]. split.
  { intros st1 st2 Hsame. by rewrite !Hvalue, Hsame. }
  split.
  { intros st. apply returning_run_adds_a_file. }
  split.
  { intros cfg bw ethcfg steps acc st. by rewrite for_each_sweep_body. }
  reflexivity.
Qed.

(** C9: when the engine raises [x] -- at the PCIe configuration, at the
    Ethernet configuration, or at a per-size call of the sweep -- the run
    raises that same [x], returns nothing, and the failing call is the last
    one it made: it is not repeated and nothing is called after it. *)
Theorem model_errors_propagate_unchanged v l aw ec mp mr rc sp x issued st :
  Raises v l aw ec mp mr rc sp x issued ->
  tmp_available st = true \/ (length issued <= 2)%nat ->
  fst (run_pcie_model v l aw ec mp mr rc sp st) = Raise x
  /\ calls (snd (run_pcie_model v l aw ec mp mr rc sp st)) = calls st ++ issued.
Proof.
  intros [a e m r c x' Hints Hcfg
         |a e m r c cfg x' Hints Hcfg Heth
         |a e m r c cfg ethcfg before call after x' Hints Hcfg Heth Hsplit Hb]
    Htmp.
  - by rewrite (run_pcie_Cfg_raises _ _ _ _ _ _ _ _ _ _ _ _ _ Hints _ _ Hcfg).
  - by rewrite (run_eth_Cfg_raises _ _ _ _ _ _ _ _ _ _ _ _ _ Hints _ _ _ Hcfg Heth).
  - destruct Htmp as [Htmp|Hlen].
    2: { simpl in Hlen. rewrite length_app in Hlen. simpl in Hlen. lia. }
    apply tmp_available_Some in Htmp as [i Htmp].
    rewrite (run_sweeps _ _ _ _ _ _ _ _ _ _ _ _ _ Hints _ _ _ _ Hcfg Heth Htmp).
    rewrite Hsplit.
    destruct (first_error_split before call x' after Hb) as [-> ->].
    split; reflexivity.
Qed.

End EffectClaims.

(** ** The engine of the specification *)

Lemma first_error_flat_map {A} (f : A -> list (Call * option exn)) l :
  (forall x, In x l -> first_error (f x) = None) ->
  first_error (flat_map f l) = None.
Proof.
  induction l as [|x l IH]; intros Hall; simpl; [done|].
  rewrite first_error_app, Hall by (simpl; auto).
  apply IH. intros y Hy. apply Hall. simpl; auto.
Qed.

Ltac by_choice H :=
  simpl in H;
  repeat (destruct H as [<-|H]; [eexists; split; vm_compute; reflexivity|]);
  destruct H.

Lemma ui_version_valid v :
  In v pcie_version_choices ->
  exists g, SpecModel.parse_generation v = Some g /\ g = g.
Proof. intros H. by_choice H. Qed.

Lemma ui_lanes_valid l :
  In l lanes_choices ->
  exists n, SpecModel.parse_lanes l = Some n /\ SpecModel.valid_lanes n = true.
Proof. intros H. by_choice H. Qed.

Lemma ui_addr_valid s :
  In s addr_width_choices ->
  exists a, int_of_str s = Ok a /\ SpecModel.valid_addr a = true.
Proof. intros H. by_choice H. Qed.

Lemma ui_ecrc_valid s :
  In s ecrc_choices ->
  exists e, int_of_str s = Ok e /\ SpecModel.valid_ecrc e = true.
Proof. intros H. by_choice H. Qed.

Lemma ui_mps_valid s :
  In s mps_choices ->
  exists m, int_of_str s = Ok m /\ SpecModel.valid_payload_limit m = true.
Proof. intros H. by_choice H. Qed.

Lemma ui_mrrs_valid s :
  In s mrrs_choices ->
  exists m, int_of_str s = Ok m /\ SpecModel.valid_payload_limit m = true.
Proof. intros H. by_choice H. Qed.

Lemma ui_rcb_valid s :
  In s rcb_choices ->
  exists c, int_of_str s = Ok c /\ SpecModel.valid_rcb c = true.
Proof. intros H. by_choice H. Qed.

Lemma ui_speed_valid sp :
  In sp ethernet_speed_choices ->
  exists r, SpecModel.parse_line_rate sp = Some r
            /\ existsb (String.eqb (eth_column sp)) fixed_columns = false.
Proof. intros H. by_choice H. Qed.

Lemma ui_speed_column sp :
  In sp ethernet_speed_choices -> ~ In (eth_column sp) fixed_columns.
Proof.
  intros H Hin. destruct (ui_speed_valid sp H) as (r & _ & Hex).
  assert (existsb (String.eqb (eth_column sp)) fixed_columns = true);
    [|congruence].
  apply existsb_exists. exists (eth_column sp). split; [done|].
  apply String.eqb_refl.
Qed.

Section SpecEngine.

Variable K : SpecModel.Calibration.

Lemma spec_size_attempts_ok cfg bw r n :
  0 < n ->
  first_error
    (size_attempts (model := SpecModel.package K) cfg bw
       {| eth.bps_ex := SpecModel.eth_bps_ex r |} n) = None.
Proof.
  intros Hn. assert (Hle : (n <=? 0) = false) by lia.
  unfold size_attempts. cbn [pcie_Cfg eth_Cfg mem_bw_write mem_bw_read
    mem_bw_read_write simple_nic_bw niantic_bw SpecModel.package eth.bps_ex].
  unfold SpecModel.mem_bw_write, SpecModel.mem_bw_read,
    SpecModel.mem_bw_read_write, SpecModel.eth_bps_ex,
    SpecModel.simple_nic_bw, SpecModel.niantic_bw.
  cbn [SpecModel.parse_driver_mode String.eqb Ascii.eqb Bool.eqb].
  rewrite Hle. reflexivity.
Qed.

Lemma spec_pcie_Cfg_ok v l a e m r c g n :
  SpecModel.parse_generation v = Some g ->
  SpecModel.parse_lanes l = Some n -> SpecModel.valid_lanes n = true ->
  SpecModel.valid_addr a = true -> SpecModel.valid_ecrc e = true ->
  SpecModel.valid_payload_limit m = true ->
  SpecModel.valid_payload_limit r = true ->
  SpecModel.valid_rcb c = true ->
  exists cfg, SpecModel.pcie_Cfg K v l a e m r c = Ok cfg.
Proof.
  intros Hg Hl Hn Ha He Hm Hr Hc. unfold SpecModel.pcie_Cfg.
  rewrite Hg, Hl, Hn, Ha, He, Hm, Hr, Hc. cbn [negb]. eauto.
Qed.

(** C4: with the engine of the specification, under any calibration, a run
    on values the UI offers passes every validation: the five conversions,
    [pcie.Cfg], [eth.Cfg] and each of the 7 x 1437 per-size calls succeed,
    so the run raises neither [ConfigurationError] nor [InvalidSizeError],
    and it returns whenever [tempfile] finds a name. *)
Theorem ui_run_passes_all_validation v l aw ec mp mr rc sp st :
  In v pcie_version_choices -> In l lanes_choices ->
  In aw addr_width_choices -> In ec ecrc_choices ->
  In mp mps_choices -> In mr mrrs_choices -> In rc rcb_choices ->
  In sp ethernet_speed_choices ->
  let result :=
    fst (run_pcie_model (model := SpecModel.package K)
           v l aw ec mp mr rc sp st) in
  (exists a e m r c cfg ethcfg,
     int_params aw ec mp mr rc = Ok (a, e, m, r, c)
     /\ SpecModel.pcie_Cfg K v l a e m r c = Ok cfg
     /\ SpecModel.eth_Cfg sp = Ok ethcfg
     /\ Forall (fun attempt => snd attempt = None)
          (run_attempts (model := SpecModel.package K) cfg ethcfg))
  /\ (forall msg, result <> Raise (ConfigurationError msg))
  /\ (forall msg, result <> Raise (InvalidSizeError msg))
  /\ (tmp_available st = true -> is_Ok result = true).
Proof.
  intros Hv Hl Haw Hec Hmp Hmr Hrc Hsp result.
  destruct (ui_version_valid v Hv) as (g & Hg & _).
  destruct (ui_lanes_valid l Hl) as (n & Hn & Hnv).
  destruct (ui_addr_valid aw Haw) as (a & Ha & Hav).
  destruct (ui_ecrc_valid ec Hec) as (e & He & Hev).
  destruct (ui_mps_valid mp Hmp) as (m & Hm & Hmv).
  destruct (ui_mrrs_valid mr Hmr) as (r & Hr & Hrv).
  destruct (ui_rcb_valid rc Hrc) as (c & Hc & Hcv).
  destruct (ui_speed_valid sp Hsp) as (rate & Hrate & _).
  assert (Hints : int_params aw ec mp mr rc = Ok (a, e, m, r, c))
    by (by apply int_params_Ok).
  destruct (spec_pcie_Cfg_ok v l a e m r c g n) as [cfg Hcfg]; try done.
  set (ethcfg := {| eth.bps_ex := SpecModel.eth_bps_ex rate |}).
  assert (Heth : SpecModel.eth_Cfg sp = Ok ethcfg)
    by (unfold SpecModel.eth_Cfg; by rewrite Hrate).
  assert (Herr : first_error
            (run_attempts (model := SpecModel.package K) cfg ethcfg) = None).
  { apply first_error_flat_map. intros size Hsize.
    apply range_sweep_bounds in Hsize.
    apply spec_size_attempts_ok. lia. }
  split.
  { exists a, e, m, r, c, cfg, ethcfg.
    split; [exact Hints|]. split; [exact Hcfg|]. split; [exact Heth|].
    apply first_error_None, Herr. }
  assert (Hres : result = Raise (FileExistsError
                                   "No usable temporary file name found")
                 /\ tmp_available st = false
                 \/ is_Ok result = true).
  { subst result.
    destruct (tmp_available st) eqn:Htmp.
    - right. apply tmp_available_Some in Htmp as [i Htmp].
      rewrite (run_sweeps (model := SpecModel.package K)
                 _ _ _ _ _ _ _ _ _ _ _ _ _ Hints _ _ _ _ Hcfg Heth Htmp).
      cbn [fst]. rewrite Herr.
      rewrite (assemble_full (model := SpecModel.package K) sp cfg ethcfg
                 (ui_speed_column sp Hsp)).
      reflexivity.
    - left.
      rewrite (run_tmp_raises (model := SpecModel.package K)
                 _ _ _ _ _ _ _ _ _ _ _ _ _ Hints _ _ _ Hcfg Heth Htmp).
      split; reflexivity. }
  clearbody result. clear Herr Heth Hcfg.
  destruct Hres as [[-> Htmp]|Hres].
  - split; [intros msg; discriminate|].
    split; [intros msg; discriminate|].
    intros Havail. rewrite Havail in Htmp. discriminate Htmp.
  - destruct result as [value|x]; [|discriminate Hres].
    split; [intros msg; discriminate|].
    split; [intros msg; discriminate|].
    intros _. reflexivity.
Qed.

(** C6: in the engine of the specification, for every configuration, basis
    and positive size, [mem_bw.read_write] returns a result whose
    transmit-effective figure is set and is the figure of [mem_bw.write],
    and whose receive-effective figure is set and is the figure of
    [mem_bw.read], for the same configuration, basis and size.  The
    transmit figure does not depend on the read-side limits (MRRS, RCB), the
    receive figure does not depend on the write-side limit (MPS). *)
Theorem read_write_reports_write_and_read cfg bw size :
  0 < size ->
  (exists both wr rd tx rx,
     SpecModel.mem_bw_read_write K cfg bw size = Ok both
     /\ SpecModel.mem_bw_write K cfg bw size = Ok wr
     /\ SpecModel.mem_bw_read K cfg bw size = Ok rd
     /\ tx_eff both = Some tx /\ rx_eff both = Some rx
     /\ tx_eff both = tx_eff wr
     /\ rx_eff both = rx_eff rd)
  /\ (forall cfg',
        pcie.addr cfg' = pcie.addr cfg -> pcie.ecrc cfg' = pcie.ecrc cfg ->
        pcie.mps cfg' = pcie.mps cfg ->
        tx_of (SpecModel.mem_bw_read_write K cfg' bw size)
        = tx_of (SpecModel.mem_bw_read_write K cfg bw size))
  /\ (forall cfg',
        pcie.addr cfg' = pcie.addr cfg -> pcie.ecrc cfg' = pcie.ecrc cfg ->
        pcie.mrrs cfg' = pcie.mrrs cfg -> pcie.rcb cfg' = pcie.rcb cfg ->
        rx_of (SpecModel.mem_bw_read_write K cfg' bw size)
        = rx_of (SpecModel.mem_bw_read_write K cfg bw size)).
Proof.
  intros Hsize. assert (Hle : (size <=? 0) = false) by lia.
  unfold SpecModel.mem_bw_read_write, SpecModel.mem_bw_write,
    SpecModel.mem_bw_read, SpecModel.effective.
  rewrite Hle. cbv zeta. split; [|split].
  - do 5 eexists. repeat split; reflexivity.
  - intros cfg' Ha He Hm. unfold SpecModel.write_packets.
    cbn [tx_of tx_eff]. by rewrite Ha, He, Hm.
  - intros cfg' Ha He Hr Hc. unfold SpecModel.read_packets.
    cbn [rx_of rx_eff]. by rewrite Ha, He, Hr, Hc.
Qed.

End SpecEngine.

(** ** The run with the values the UI starts from *)

Lemma default_cfg_is_built :
  pcie_Cfg (ModelPackage := example_package) "gen3" "x8" 64 0 256 512 64
  = Ok default_cfg
  /\ eth_Cfg (ModelPackage := example_package) "40GigE" = Ok default_ethcfg.
Proof. split; vm_compute; reflexivity. Qed.

(** The run with the values the UI starts from, in a world without files,
    returns. *)
Lemma default_arguments_return :
  is_Ok (fst (run_pcie_model (model := example_package)
                "gen3" "x8" "64" "0" "256" "512" "64" "40GigE"
                initial_state)) = true.
Proof. vm_compute. reflexivity. Qed.

(** C1, counterexample: in the run with the values the UI starts from, the
    third call is [mem_bw.write] with payload 60, and the basis it receives
    has mode [BW_RAW] while the figure it carries (in both positions) is
    not the raw bandwidth of the configuration but the smaller TLP-layer
    one; it is not the basis the specification selects for mode RAW. *)
Lemma sweep_basis_is_not_RAW_bw :
  let cfg := default_cfg in
  let bw := make_bw_spec cfg in
  pcie_Cfg (ModelPackage := example_package) "gen3" "x8" 64 0 256 512 64
  = Ok cfg
  /\ nth_error (calls (snd default_run)) 2 = Some (Call_mem_bw_write cfg bw 60)
  /\ pcie.bw_type bw = pcie.BW_RAW
  /\ pcie.bw_1 bw <> pcie.RAW_bw cfg
  /\ pcie.bw_2 bw <> pcie.RAW_bw cfg
  /\ PrimFloat.ltb (pcie.bw_1 bw) (pcie.RAW_bw cfg) = true
  /\ bw <> SpecModel.BandwidthBasis cfg pcie.BW_RAW.
Proof.
  cbv zeta. split; [vm_compute; reflexivity|].
  split; [vm_compute; reflexivity|].
  split; [reflexivity|].
  split; [intros Heq; apply (f_equal (fun f => PrimFloat.ltb f 60)) in Heq;
          vm_compute in Heq; discriminate|].
  split; [intros Heq; apply (f_equal (fun f => PrimFloat.ltb f 60)) in Heq;
          vm_compute in Heq; discriminate|].
  split; [vm_compute; reflexivity|].
  intros Heq.
  apply (f_equal (fun bw => PrimFloat.ltb (pcie.bw_1 bw) 60)) in Heq.
  vm_compute in Heq. discriminate.
Qed.

(** C7, counterexample: the run with the values the UI starts from, begun
    in a world without files, ends in a world with the file
    [/tmp/tmp0.dat]. *)
Lemma default_run_changes_the_file_system :
  files (world initial_state) !! "/tmp/tmp0.dat"%string = None
  /\ files (world (snd default_run)) !! "/tmp/tmp0.dat"%string
     = Some EmptyString
  /\ files (world (snd default_run)) <> files (world initial_state).
Proof.
  split; [vm_compute; reflexivity|]. split; [vm_compute; reflexivity|].
  intros Heq.
  apply (f_equal (fun m : gmap string string => m !! "/tmp/tmp0.dat"%string)) in Heq.
  vm_compute in Heq. discriminate.
Qed.

(** C2, witness: the loop body at the gross size 64, under the
    configuration of the values the UI starts from, makes the seven calls
    with the payload 60 and returns. *)
Lemma default_first_iteration_calls :
  let cfg := default_cfg in
  let bw := make_bw_spec cfg in
  let after :=
    sweep_body (model := example_package) cfg bw default_ethcfg
      empty_series 64 initial_state in
  is_Ok (fst after) = true
  /\ calls (snd after)
     = [ Call_mem_bw_write cfg bw 60; Call_mem_bw_read cfg bw 60;
         Call_mem_bw_read_write cfg bw 60; Call_bps_ex default_ethcfg 60;
         Call_simple_nic_bw cfg bw pcie.DIR_BOTH 60;
         Call_niantic_bw cfg bw pcie.DIR_BOTH 60 None;
         Call_niantic_bw cfg bw pcie.DIR_BOTH 60 (Some "PMD"%string) ].
Proof.
  intros cfg bw after.
  assert (Hok : is_Ok (fst after) = true) by (vm_compute; reflexivity).
  split; [exact Hok|].
  destruct (sweep_calls_receive_size_minus_4 (model := example_package)
              cfg bw default_ethcfg) as [Hbody _].
  destruct (Hbody empty_series 64 initial_state)
    as (_ & _ & _ & _ & _ & Hcalls).
  exact (Hcalls Hok).
Defined.

(** C3, witness: the run with the values the UI starts from returns. *)
Lemma default_run_sweeps_every_size :
  is_Ok (fst default_run) = true
  /\ exists cfg ethcfg series df,
       let bw_spec := make_bw_spec cfg in
       pcie_Cfg (ModelPackage := example_package) "gen3" "x8" 64 0 256 512 64
       = Ok cfg
       /\ eth_Cfg (ModelPackage := example_package) "40GigE" = Ok ethcfg
       /\ calls (snd default_run)
          = Call_pcie_Cfg "gen3" "x8" 64 0 256 512 64
            :: Call_eth_Cfg "40GigE"
            :: flat_map (fun size => size_calls cfg bw_spec ethcfg (size - 4))
                        (range 64 (1500 + 1))
       /\ (forall st',
             fst (sweep (model := example_package) cfg bw_spec ethcfg st')
             = Ok series)
       /\ series_lengths series = repeat 1437%nat 8
       /\ pd.DataFrame (dict_of_items (table_items "40GigE" series)) = Ok df
       /\ pd.index df = range 0 1437
       /\ fst default_run
          = Ok (join newline (config_info cfg), make_figure "40GigE" series,
                pd.reset_index_drop (pd.iloc_step 64 df)).
Proof.
  assert (Hok : is_Ok (fst default_run) = true) by (vm_compute; reflexivity).
  split; [exact Hok|].
  destruct (run_builds_once_and_sweeps_every_size (model := example_package)
              "gen3" "x8" "64" "0" "256" "512" "64" "40GigE" initial_state Hok)
    as (a & e & m & r & c & cfg & ethcfg & series & df
        & Hints & Hcfg & Heth & Hcalls & Hsweep & _ & _ & Hlen & _
        & Hframe & Hindex & _ & _ & Hres & _).
  vm_compute in Hints. injection Hints as <- <- <- <- <-.
  exists cfg, ethcfg, series, df.
  split; [exact Hcfg|]. split; [exact Heth|]. split; [exact Hcalls|].
  split; [exact Hsweep|]. split; [exact Hlen|]. split; [exact Hframe|].
  split; [exact Hindex|exact Hres].
Defined.

(** C10, witness: the run with the values the UI starts from returns, and
    [40GigE (Gb/s)] is not one of the fixed column names. *)
Lemma default_run_table_is_sampled :
  let after := default_run in
  exists a e m r c cfg ethcfg text fig df,
    let bw_spec := make_bw_spec cfg in
    int_params "64" "0" "256" "512" "64" = Ok (a, e, m, r, c)
    /\ pcie_Cfg (ModelPackage := example_package) "gen3" "x8" a e m r c = Ok cfg
    /\ eth_Cfg (ModelPackage := example_package) "40GigE" = Ok ethcfg
    /\ fst after = Ok (text, fig, df)
    /\ pd.columns df
       = map (fun kc => (fst kc, slice_step 64 (snd kc)))
             (table_at (model := example_package) "40GigE" cfg bw_spec ethcfg
                (range 64 (1500 + 1)))
    /\ pd.columns df
       = table_at (model := example_package) "40GigE" cfg bw_spec ethcfg
           sampled_sizes
    /\ sampled_sizes
       = [64; 128; 192; 256; 320; 384; 448; 512; 576; 640; 704; 768; 832;
          896; 960; 1024; 1088; 1152; 1216; 1280; 1344; 1408; 1472]
    /\ pd.column_names df
       = [ "Transfer Size (Bytes)"; "PCIe Write BW (Gb/s)";
           "PCIe Read BW (Gb/s)"; "PCIe Read/Write BW (Gb/s)";
           "40GigE (Gb/s)"; "Simple NIC (Gb/s)";
           "Modern NIC (kernel driver) (Gb/s)";
           "Modern NIC (DPDK driver) (Gb/s)" ]%string
    /\ pd.index df = range 0 23
    /\ pd.n_rows df = 23%nat
    /\ (forall k, 0 <= k < 23 ->
          pd.row df (Z.to_nat k)
          = [ Some (pd.Int (64 + 64 * k));
              Some (pd.Float
                      (wr_bw_at (model := example_package) cfg bw_spec
                         (64 + 64 * k)));
              Some (pd.Float
                      (rd_bw_at (model := example_package) cfg bw_spec
                         (64 + 64 * k)));
              Some (pd.Float
                      (rdwr_bw_at (model := example_package) cfg bw_spec
                         (64 + 64 * k)));
              Some (pd.Float (eth_bw_at ethcfg (64 + 64 * k)));
              Some (pd.Float
                      (simple_nic_bi_at (model := example_package) cfg bw_spec
                         (64 + 64 * k)));
              Some (pd.Float
                      (kernel_nic_bi_at (model := example_package) cfg bw_spec
                         (64 + 64 * k)));
              Some (pd.Float
                      (pmd_nic_bi_at (model := example_package) cfg bw_spec
                         (64 + 64 * k))) ]).
Proof.
  apply (sampled_table_is_every_64th_row (model := example_package)).
  - vm_compute. reflexivity.
  - simpl. intros H. decompose [or] H; try discriminate; done.
Defined.

(** C8, counterexample: the run with the values the UI starts from
    returns in a world without files and raises [FileExistsError] in a
    world where [tempfile] finds no name, so the same arguments do not always
    give the same outcome; and the world the run returns in is not the
    world it started in. *)
Lemma same_arguments_differ_without_a_free_name :
  is_Ok (fst (run_pcie_model (model := example_package)
                "gen3" "x8" "64" "0" "256" "512" "64" "40GigE"
                initial_state)) = true
  /\ fst (run_pcie_model (model := example_package)
            "gen3" "x8" "64" "0" "256" "512" "64" "40GigE" crowded_state)
     = Raise (FileExistsError "No usable temporary file name found")
  /\ fst (run_pcie_model (model := example_package)
            "gen3" "x8" "64" "0" "256" "512" "64" "40GigE" initial_state)
     <> fst (run_pcie_model (model := example_package)
               "gen3" "x8" "64" "0" "256" "512" "64" "40GigE" crowded_state)
  /\ world (snd (run_pcie_model (model := example_package)
                   "gen3" "x8" "64" "0" "256" "512" "64" "40GigE"
                   initial_state))
     <> world initial_state.
Proof.
  pose proof default_arguments_return as Hok.
  assert (Hname :
            fst (run_pcie_model (model := example_package)
                   "gen3" "x8" "64" "0" "256" "512" "64" "40GigE"
                   crowded_state)
            = Raise (FileExistsError "No usable temporary file name found")).
  { destruct default_cfg_is_built as [Hcfg Heth].
    assert (Hints : int_params "64" "0" "256" "512" "64"
                    = Ok (64, 0, 256, 512, 64)) by (vm_compute; reflexivity).
    by rewrite (run_tmp_raises (model := example_package)
                  "gen3" "x8" "64" "0" "256" "512" "64" "40GigE"
                  64 0 256 512 64 Hints default_cfg default_ethcfg
                  crowded_state Hcfg Heth crowded_state_has_no_name). }
  split; [exact Hok|]. split; [exact Hname|]. split.
  - intros Heq. rewrite Hname in Heq. rewrite Heq in Hok. discriminate Hok.
  - destruct (returning_run_adds_a_file (model := example_package)
                "gen3" "x8" "64" "0" "256" "512" "64" "40GigE"
                initial_state Hok)
      as (_ & path & Hfree & Hfiles).
    intros Heq. rewrite Heq in Hfiles.
    apply (f_equal (fun m : gmap string string => m !! path)) in Hfiles.
    rewrite lookup_insert_eq, Hfree in Hfiles. discriminate Hfiles.
Qed.

(** C8, witness: a world without files and a world that has seen earlier
    runs; [tempfile] finds a name in both, and the run with the values the
    UI starts from has the same outcome in both. *)
Lemma default_run_is_the_same_in_a_busy_world :
  tmp_available initial_state = tmp_available busy_state
  /\ fst (run_pcie_model (model := example_package)
            "gen3" "x8" "64" "0" "256" "512" "64" "40GigE" initial_state)
     = fst (run_pcie_model (model := example_package)
              "gen3" "x8" "64" "0" "256" "512" "64" "40GigE" busy_state).
Proof.
  split; [vm_compute; reflexivity|].
  apply (run_depends_on_the_world_through_tempfile_only
           (model := example_package)
           "gen3" "x8" "64" "0" "256" "512" "64" "40GigE").
  vm_compute; reflexivity.
Defined.

Lemma nth_error_split2 {A} (l : list A) a b :
  nth_error l 0 = Some a -> nth_error l 1 = Some b ->
  l = [a] ++ b :: skipn 2 l.
Proof.
  destruct l as [|a' [|b' l]]; simpl; try discriminate.
  by intros [= ->] [= ->].
Qed.

(** C9, witness: when the read model rejects the payload 60, the run with
    the values the UI starts from raises that exception after four calls,
    the rejected one last. *)
Lemma rejected_read_stops_the_run :
  let run :=
    run_pcie_model (model := rejecting_package 60)
      "gen3" "x8" "64" "0" "256" "512" "64" "40GigE" initial_state in
  let cfg := default_cfg in
  let bw := make_bw_spec cfg in
  fst run = Raise (InvalidSizeError "rejected")
  /\ calls (snd run)
     = calls initial_state
       ++ [Call_pcie_Cfg "gen3" "x8" 64 0 256 512 64;
           Call_eth_Cfg "40GigE";
           Call_mem_bw_write cfg bw 60;
           Call_mem_bw_read cfg bw 60].
Proof.
  cbv zeta.
  apply (model_errors_propagate_unchanged (model := rejecting_package 60)
           "gen3" "x8" "64" "0" "256" "512" "64" "40GigE"
           (InvalidSizeError "rejected") _ initial_state
           (Raises_per_size (model := rejecting_package 60)
              "gen3" "x8" "64" "0" "256" "512" "64" "40GigE"
              64 0 256 512 64 default_cfg default_ethcfg
              [(Call_mem_bw_write default_cfg (make_bw_spec default_cfg) 60,
                None)]
              (Call_mem_bw_read default_cfg (make_bw_spec default_cfg) 60)
              (skipn 2 (run_attempts (model := rejecting_package 60)
                          default_cfg default_ethcfg))
              (InvalidSizeError "rejected")
              ltac:(vm_compute; reflexivity)
              ltac:(vm_compute; reflexivity)
              ltac:(vm_compute; reflexivity)
              ltac:(apply nth_error_split2; vm_compute; reflexivity)
              ltac:(repeat constructor))).
  left. vm_compute. reflexivity.
Defined.

(** C4, witness: the values the UI starts from are among its choices. *)
Lemma default_run_passes_all_validation :
  let result := fst default_run in
  (exists a e m r c cfg ethcfg,
     int_params "64" "0" "256" "512" "64" = Ok (a, e, m, r, c)
     /\ SpecModel.pcie_Cfg SpecModel.example_calibration
          "gen3" "x8" a e m r c = Ok cfg
     /\ SpecModel.eth_Cfg "40GigE" = Ok ethcfg
     /\ Forall (fun attempt => snd attempt = None)
          (run_attempts (model := example_package) cfg ethcfg))
  /\ (forall msg, result <> Raise (ConfigurationError msg))
  /\ (forall msg, result <> Raise (InvalidSizeError msg))
  /\ (tmp_available initial_state = true -> is_Ok result = true).
Proof.
  apply (ui_run_passes_all_validation SpecModel.example_calibration
           "gen3" "x8" "64" "0" "256" "512" "64" "40GigE" initial_state);
    simpl; auto 10.
Defined.

(** C6, witness: the configuration of the values the UI starts from, its
    basis, and the payload of the first size of the sweep. *)
Lemma default_read_write_reports_write_and_read :
  let K := SpecModel.example_calibration in
  let cfg := default_cfg in
  let bw := make_bw_spec cfg in
  (exists both wr rd tx rx,
     SpecModel.mem_bw_read_write K cfg bw 60 = Ok both
     /\ SpecModel.mem_bw_write K cfg bw 60 = Ok wr
     /\ SpecModel.mem_bw_read K cfg bw 60 = Ok rd
     /\ tx_eff both = Some tx /\ rx_eff both = Some rx
     /\ tx_eff both = tx_eff wr
     /\ rx_eff both = rx_eff rd)
  /\ (forall cfg',
        pcie.addr cfg' = pcie.addr cfg -> pcie.ecrc cfg' = pcie.ecrc cfg ->
        pcie.mps cfg' = pcie.mps cfg ->
        tx_of (SpecModel.mem_bw_read_write K cfg' bw 60)
        = tx_of (SpecModel.mem_bw_read_write K cfg bw 60))
  /\ (forall cfg',
        pcie.addr cfg' = pcie.addr cfg -> pcie.ecrc cfg' = pcie.ecrc cfg ->
        pcie.mrrs cfg' = pcie.mrrs cfg -> pcie.rcb cfg' = pcie.rcb cfg ->
        rx_of (SpecModel.mem_bw_read_write K cfg' bw 60)
        = rx_of (SpecModel.mem_bw_read_write K cfg bw 60)).
Proof.
  apply (read_write_reports_write_and_read SpecModel.example_calibration
           default_cfg (make_bw_spec default_cfg) 60).
  lia.
Defined.

(** * Further properties of the driver and of the interface *)

(** ** The numeric parameters *)


Section Numbers.

Context {model : ModelPackage}.



End Numbers.

(** ** Dict literals with a key written twice *)

Lemma existsb_key {V} k (d : list (string * V)) :
  existsb (fun kv => String.eqb k (fst kv)) d
  = existsb (String.eqb k) (map fst d).
Proof. induction d as [|kv d IH]; simpl; [done|]. by rewrite IH. Qed.

Lemma dict_set_keys {V} k (v : V) d :
  map fst (dict_set k v d) = add_key k (map fst d).
Proof.
  unfold dict_set, add_key. rewrite existsb_key.
  destruct (existsb _ (map fst d)).
  - rewrite map_map. apply map_ext. intros [k' v']. simpl.
    by destruct (String.eqb k k').
  - by rewrite map_app.
Qed.

Lemma dict_fold_keys {V} (items : list (string * V)) : forall d,
  map fst (fold_left (fun d kv => dict_set (fst kv) (snd kv) d) items d)
  = fold_left (fun acc k => add_key k acc) (map fst items) (map fst d).
Proof.
  induction items as [|[k v] items IH]; intros d; simpl; [done|].
  by rewrite IH, dict_set_keys.
Qed.

Lemma dict_of_items_keys {V} (items : list (string * V)) :
  map fst (dict_of_items items) = dict_keys (map fst items).
Proof. apply (dict_fold_keys items []). Qed.

Lemma add_key_NoDup k ks : NoDup ks -> NoDup (add_key k ks).
Proof.
  intros Hnd. unfold add_key. destruct (existsb _ ks) eqn:Hex; [done|].
  apply NoDup_app. split; [done|]. split; [|apply NoDup_singleton].
  intros k' Hin Hk'. apply list_elem_of_singleton in Hk' as ->.
  assert (existsb (String.eqb k) ks = true); [|congruence].
  apply existsb_exists. exists k. split; [by apply list_elem_of_In|].
  apply String.eqb_refl.
Qed.

Lemma dict_keys_NoDup ks : NoDup (dict_keys ks).
Proof.
  unfold dict_keys.
  assert (Hgen : forall acc, NoDup acc ->
            NoDup (fold_left (fun acc k => add_key k acc) ks acc)).
  { induction ks as [|k ks IH]; intros acc Hacc; simpl; [done|].
    by apply IH, add_key_NoDup. }
  apply Hgen, NoDup_nil_2.
Qed.

Lemma dict_set_map {V W} (f : V -> W) k v (d : list (string * V)) :
  map (fun kv => (fst kv, f (snd kv))) (dict_set k v d)
  = dict_set k (f v) (map (fun kv => (fst kv, f (snd kv))) d).
Proof.
  unfold dict_set.
  replace (existsb (fun kv => String.eqb k (fst kv))
             (map (fun kv => (fst kv, f (snd kv))) d))
    with (existsb (fun kv : string * V => String.eqb k (fst kv)) d).
  2: { induction d as [|kv d IH]; simpl; [done|]. by rewrite IH. }
  destruct (existsb _ d).
  - rewrite !map_map. apply map_ext. intros [k' v']. simpl.
    by destruct (String.eqb k k').
  - by rewrite map_app.
Qed.

Lemma dict_of_items_map {V W} (f : V -> W) (items : list (string * V)) :
  map (fun kv => (fst kv, f (snd kv))) (dict_of_items items)
  = dict_of_items (map (fun kv => (fst kv, f (snd kv))) items).
Proof.
  unfold dict_of_items.
  assert (Hgen : forall d,
    map (fun kv => (fst kv, f (snd kv)))
        (fold_left (fun d kv => dict_set (fst kv) (snd kv) d) items d)
    = fold_left (fun d kv => dict_set (fst kv) (snd kv) d)
        (map (fun kv => (fst kv, f (snd kv))) items)
        (map (fun kv => (fst kv, f (snd kv))) d)).
  { induction items as [|[k v] items IH]; intros d; simpl; [done|].
    by rewrite IH, dict_set_map. }
  apply (Hgen []).
Qed.

(** The names of the dict literal the table is built from, as written. *)
Lemma table_keys_written sp (s : Series) :
  map fst (table_items sp s)
  = [ "Transfer Size (Bytes)"; "PCIe Write BW (Gb/s)";
      "PCIe Read BW (Gb/s)"; "PCIe Read/Write BW (Gb/s)";
      eth_column sp; "Simple NIC (Gb/s)";
      "Modern NIC (kernel driver) (Gb/s)";
      "Modern NIC (DPDK driver) (Gb/s)" ]%string.
Proof. reflexivity. Qed.

Lemma table_keys_count sp (s : Series) :
  length (dict_keys (map fst (table_items sp s)))
  = if existsb (String.eqb (eth_column sp)) fixed_columns then 7%nat
    else 8%nat.
Proof.
  destruct (existsb _ fixed_columns) eqn:Hex.
  - apply existsb_exists in Hex as (k & Hin & Heq).
    apply String.eqb_eq in Heq. rewrite table_keys_written.
    rewrite Heq. clear Heq. unfold fixed_columns in Hin. simpl in Hin.
    repeat (destruct Hin as [<-|Hin]; [vm_compute; reflexivity|]).
    destruct Hin.
  - rewrite <- dict_of_items_keys, dict_of_items_distinct; [reflexivity|].
    apply table_keys_distinct. intros Hin.
    assert (existsb (String.eqb (eth_column sp)) fixed_columns = true);
      [|congruence].
    apply existsb_exists. exists (eth_column sp). split; [done|].
    apply String.eqb_refl.
Qed.

Lemma add_key_In k k' ks : In k' (add_key k ks) <-> In k' ks \/ k' = k.
Proof.
  unfold add_key. destruct (existsb _ ks) eqn:Hex.
  - split; [auto|]. intros [Hin| ->]; [done|].
    apply existsb_exists in Hex as (k0 & Hin & Heq).
    apply String.eqb_eq in Heq. by subst k0.
  - rewrite in_app_iff. simpl. intuition congruence.
Qed.

Lemma dict_keys_In k ks : In k (dict_keys ks) <-> In k ks.
Proof.
  unfold dict_keys.
  assert (Hgen : forall acc,
            In k (fold_left (fun acc k => add_key k acc) ks acc)
            <-> In k acc \/ In k ks).
  { induction ks as [|k0 ks IH]; intros acc; simpl; [tauto|].
    rewrite IH, add_key_In. intuition congruence. }
  rewrite Hgen. simpl. tauto.
Qed.

Section Table.

Context {model : ModelPackage}.

Lemma table_items_nonempty sp s : dict_of_items (table_items sp s) <> [].
Proof.
  intros Hnil. apply (f_equal (map fst)) in Hnil.
  apply (f_equal length) in Hnil.
  rewrite dict_of_items_keys, table_keys_count in Hnil.
  by destruct (existsb _ fixed_columns).
Qed.

(** The table of a complete sweep, whatever the column names are. *)
Lemma assemble_any sp cfg ethcfg :
  let bw := make_bw_spec cfg in
  assemble sp cfg (full_series cfg bw ethcfg)
  = Ok (join newline (config_info cfg),
        make_figure sp (full_series cfg bw ethcfg),
        {| pd.columns := dict_of_items (table_at sp cfg bw ethcfg sampled_sizes);
           pd.index := range 0 23 |}).
Proof.
  intros bw. unfold assemble.
  rewrite (DataFrame_equal_lengths (length (range 64 (1500 + 1)))).
  2: { apply (dict_of_items_Forall (fun c => length c = _)).
       rewrite table_items_full. apply table_items_lengths. }
  pose proof (table_items_nonempty sp (full_series cfg bw ethcfg)) as Hne.
  destruct (dict_of_items (table_items sp (full_series cfg bw ethcfg)))
    as [|kc d] eqn:Hd; [done|].
  rewrite <- Hd. clear Hd Hne kc d.
  unfold pd.reset_index_drop, pd.iloc_step. cbn [pd.columns pd.index].
  rewrite sampled_index_length.
  rewrite (dict_of_items_map (slice_step 64)), table_items_full.
  by rewrite table_at_slice, sampled_sizes_slice.
Qed.


(** X4: the table of a run that returns is well formed whatever the
    Ethernet speed is called.  It is the dict literal of the source taken on
    the 23 sampled sizes: 23 rows labelled 0..22, every column with 23
    cells, no column name twice, the names being the seven fixed ones and
    the Ethernet column's.  When the name of the Ethernet column is one of
    the seven fixed names, the key is written twice and the table has seven
    columns only; otherwise it has eight. *)
Theorem table_is_well_formed_for_any_speed_name v l aw ec mp mr rc sp st :
  let after := run_pcie_model v l aw ec mp mr rc sp st in
  is_Ok (fst after) = true ->
  exists a e m r c cfg ethcfg text fig df,
    int_params aw ec mp mr rc = Ok (a, e, m, r, c)
    /\ pcie_Cfg v l a e m r c = Ok cfg
    /\ eth_Cfg sp = Ok ethcfg
    /\ fst after = Ok (text, fig, df)
    /\ pd.columns df
       = dict_of_items (table_at sp cfg (make_bw_spec cfg) ethcfg sampled_sizes)
    /\ pd.index df = range 0 23
    /\ Forall (fun kc => length (snd kc) = 23%nat) (pd.columns df)
    /\ NoDup (pd.column_names df)
    /\ (forall name, In name (pd.column_names df)
                      <-> In name fixed_columns \/ name = eth_column sp)
    /\ length (pd.columns df)
       = (if existsb (String.eqb (eth_column sp)) fixed_columns then 7%nat
          else 8%nat).
Proof.
  intros after Hok. subst after.
  destruct (run_pcie_model_path v l aw ec mp mr rc sp st)
    as [msg Hints|a e m r c x Hints Hcfg
       |a e m r c cfg x Hints Hcfg Heth
       |a e m r c cfg ethcfg Hints Hcfg Heth Htmp
       |a e m r c cfg ethcfg i Hints Hcfg Heth Htmp];
    try discriminate Hok.
  cbn [fst snd] in *.
  destruct (first_error (run_attempts cfg ethcfg)) eqn:Herr;
    [discriminate Hok|].
  rewrite assemble_any.
  do 10 eexists.
  split; [exact Hints|]. split; [exact Hcfg|]. split; [exact Heth|].
  split; [reflexivity|].
  unfold pd.column_names. cbn [pd.columns pd.index].
  split; [reflexivity|]. split; [reflexivity|].
  pose (series := full_series cfg (make_bw_spec cfg) ethcfg).
  assert (Hkeys : map fst (dict_of_items
                    (table_at sp cfg (make_bw_spec cfg) ethcfg sampled_sizes))
                  = dict_keys (map fst (table_items sp series))).
  { by rewrite dict_of_items_keys. }
  split; [|split; [|split]].
  - apply (dict_of_items_Forall (fun c => length c = 23%nat)).
    apply (table_items_lengths sp cfg (make_bw_spec cfg) ethcfg sampled_sizes).
  - rewrite dict_of_items_keys. apply dict_keys_NoDup.
  - intros name. rewrite Hkeys, dict_keys_In, table_keys_written.
    unfold fixed_columns. simpl. intuition congruence.
  - rewrite <- (length_map fst), Hkeys. apply table_keys_count.
Qed.

End Table.

(** ** The plot against the table *)

Lemma make_figure_data sp s :
  go.data (make_figure sp s)
  = map (fun tr => {| go.x := go.x tr; go.y := go.y tr; go.mode := go.mode tr;
                      go.name := go.name tr; go.line := go.line tr;
                      go.hovertemplate := Some hover |})
      [ scatter (sizes s) (rdwr_bw_values s) "Effective PCIe BW" "black" None;
        scatter (sizes s) (eth_bw_values s) sp "blue" (Some "dash"%string);
        scatter (sizes s) (simple_nic_bi_values s) "Simple NIC" "green"
          (Some "dot"%string);
        scatter (sizes s) (kernel_nic_bi_values s)
          "Modern NIC (kernel driver)" "gray" (Some "dashdot"%string);
        scatter (sizes s) (pmd_nic_bi_values s) "Modern NIC (DPDK driver)"
          "red" None ].
Proof. reflexivity. Qed.

Lemma sampled_sizes_In size :
  In size sampled_sizes <-> 64 <= size <= 1500 /\ size mod 64 = 0.
Proof.
  unfold sampled_sizes, range. rewrite in_map_iff. split.
  - intros (k & <- & Hin). apply list_elem_of_In, elem_of_seqZ in Hin.
    split; [lia|]. replace (64 + 64 * k) with ((1 + k) * 64) by lia.
    apply Z_mod_mult.
  - intros (Hrange & Hmod). exists (size / 64 - 1).
    pose proof (Z_div_mod_eq_full size 64) as Hdiv.
    split; [lia|]. apply list_elem_of_In, elem_of_seqZ. lia.
Qed.

Lemma seqZ_sweep_lookup (k : nat) :
  (k < 23)%nat ->
  seqZ 64 1437 !! (64 * k)%nat = Some (64 + 64 * Z.of_nat k).
Proof. intros Hk. rewrite lookup_seqZ_lt by lia. f_equal. lia. Qed.

Section Plot.

Context {model : ModelPackage}.

(** X5: the table of a run that returns is a sample of its plot.  For
    every table row k and every one of the five traces, the point of the
    trace at position 64k has the row's size as its x and the row's value in
    the trace's column as its y (the trace j belongs to the column j + 3;
    the write and read columns are not plotted).  Every trace has the 1437
    sizes 64..1500 as its x values, which is exactly the range of the x axis,
    and carries the hover template.  Of the sizes plotted, the table holds
    the multiples of 64 and no others; the last size, 1500, is plotted but
    is not in the table. *)
Theorem table_rows_are_plotted_points v l aw ec mp mr rc sp st :
  let after := run_pcie_model v l aw ec mp mr rc sp st in
  is_Ok (fst after) = true ->
  ~ In (eth_column sp) fixed_columns ->
  exists text fig df size_cells,
    fst after = Ok (text, fig, df)
    /\ map go.name (go.data fig)
       = [ "Effective PCIe BW"; sp; "Simple NIC";
           "Modern NIC (kernel driver)"; "Modern NIC (DPDK driver)" ]%string
    /\ drop 3 (pd.column_names df)
       = [ "PCIe Read/Write BW (Gb/s)"; eth_column sp; "Simple NIC (Gb/s)";
           "Modern NIC (kernel driver) (Gb/s)";
           "Modern NIC (DPDK driver) (Gb/s)" ]%string
    /\ (forall (j k : nat) tr,
          go.data fig !! j = Some tr -> (k < 23)%nat ->
          exists size y,
            go.x tr !! (64 * k)%nat = Some size
            /\ go.y tr !! (64 * k)%nat = Some y
            /\ pd.row df k !! 0%nat = Some (Some (pd.Int size))
            /\ pd.row df k !! (j + 3)%nat = Some (Some (pd.Float y)))
    /\ (forall tr, In tr (go.data fig) ->
          go.x tr = seqZ 64 1437
          /\ length (go.y tr) = 1437%nat
          /\ go.hovertemplate tr = Some hover)
    /\ go.axis_range (go.xaxis (go.layout fig)) = Some (64, 1500)
    /\ pd.columns df !! 0%nat
       = Some ("Transfer Size (Bytes)"%string, size_cells)
    /\ (forall size, In size (seqZ 64 1437) ->
          In (pd.Int size) size_cells <-> size mod 64 = 0)
    /\ ~ In (pd.Int 1500) size_cells.
Proof.
  intros after Hok Hno. subst after.
  destruct (run_pcie_model_path v l aw ec mp mr rc sp st)
    as [msg Hints|a e m r c x Hints Hcfg
       |a e m r c cfg x Hints Hcfg Heth
       |a e m r c cfg ethcfg Hints Hcfg Heth Htmp
       |a e m r c cfg ethcfg i Hints Hcfg Heth Htmp];
    try discriminate Hok.
  cbn [fst snd] in *.
  destruct (first_error (run_attempts cfg ethcfg)) eqn:Herr;
    [discriminate Hok|].
  rewrite (assemble_full _ _ _ Hno).
  set (bw := make_bw_spec cfg).
  pose proof (full_series_sizes cfg bw ethcfg) as Hsizes.
  pose proof (full_series_per_size cfg bw ethcfg)
    as (_ & _ & Hrdwr & Heths & Hsimple & Hkernel & Hpmd).
  set (series := full_series cfg bw ethcfg) in *. clearbody series.
  assert (Hin_sizes : forall size,
            In (pd.Int size) (map pd.Int sampled_sizes)
            <-> In size sampled_sizes).
  { intros size. rewrite in_map_iff. split; [|eauto].
    by intros (size' & [= ->] & Hin). }
  eexists _, _, _, (map pd.Int sampled_sizes).
  split; [reflexivity|]. rewrite make_figure_data.
  split; [reflexivity|]. split; [reflexivity|]. split; [|split; [|split]].
  - intros j k tr Hj Hk.
    exists (64 + 64 * Z.of_nat k).
    assert (Hrow : sampled_sizes !! k = Some (64 + 64 * Z.of_nat k)).
    { rewrite <- (Nat2Z.id k) at 1. apply sampled_sizes_lookup. lia. }
    unfold pd.row, table_at. cbn [pd.columns map snd].
    do 5 (destruct j as [|j];
          [injection Hj as <-; cbn [go.x go.y scatter];
           rewrite ?Hrdwr, ?Heths, ?Hsimple, ?Hkernel, ?Hpmd, Hsizes;
           eexists; rewrite ?list_lookup_fmap, seqZ_sweep_lookup by done;
           cbn [fmap option_fmap option_map Nat.add lookup list_lookup];
           rewrite ?list_lookup_fmap, Hrow; repeat split; reflexivity|]).
    discriminate Hj.
  - intros tr Hin. simpl in Hin.
    decompose [or] Hin; try done; subst tr; cbn [go.x go.y go.hovertemplate scatter];
      rewrite ?Hrdwr, ?Heths, ?Hsimple, ?Hkernel, ?Hpmd, ?length_map, Hsizes,
        ?length_seqZ; repeat split; reflexivity.
  - reflexivity.
  - split; [reflexivity|]. split.
    + intros size Hin. rewrite Hin_sizes, sampled_sizes_In.
      apply list_elem_of_In, elem_of_seqZ in Hin. intuition lia.
    + rewrite Hin_sizes, sampled_sizes_In. intros [_ Hmod]. discriminate Hmod.
Qed.

End Plot.

(** ** What the driver does not read *)

Lemma flat_map_agree {A B} (f g : A -> list B) l :
  (forall x, In x l -> f x = g x) -> flat_map f l = flat_map g l.
Proof.
  induction l as [|x l IH]; intros Hfg; simpl; [done|].
  rewrite Hfg by (simpl; auto). f_equal. apply IH.
  intros y Hy. apply Hfg. simpl; auto.
Qed.

Section Alike.

Variables m1 m2 : ModelPackage.
Hypothesis Halike : ReadAlike m1 m2.

Lemma alike_size_attempts cfg bw ethcfg n :
  60 <= n <= 1496 ->
  size_attempts (model := m1) cfg bw ethcfg n
  = size_attempts (model := m2) cfg bw ethcfg n.
Proof.
  intros Hn. unfold size_attempts.
  destruct (alike_write _ _ Halike cfg bw n Hn) as [-> _].
  destruct (alike_read _ _ Halike cfg bw n Hn) as [-> _].
  destruct (alike_read_write _ _ Halike cfg bw n Hn) as [-> _].
  destruct (alike_simple_nic _ _ Halike cfg bw n Hn) as [-> _].
  destruct (alike_kernel_nic _ _ Halike cfg bw n Hn) as [-> _].
  destruct (alike_pmd_nic _ _ Halike cfg bw n Hn) as [-> _].
  reflexivity.
Qed.

Lemma alike_run_attempts cfg ethcfg :
  run_attempts (model := m1) cfg ethcfg
  = run_attempts (model := m2) cfg ethcfg.
Proof.
  unfold run_attempts, sweep_attempts. apply flat_map_agree.
  intros size Hin. apply range_sweep_bounds in Hin.
  apply alike_size_attempts. lia.
Qed.

Lemma alike_full_series cfg bw ethcfg :
  full_series (model := m1) cfg bw ethcfg
  = full_series (model := m2) cfg bw ethcfg.
Proof.
  unfold full_series, extend.
  f_equal; f_equal; apply map_ext_in; intros size Hin;
    apply range_sweep_bounds in Hin;
    assert (Hn : 60 <= size - 4 <= 1496) by lia.
  - apply (alike_write _ _ Halike cfg bw _ Hn).
  - apply (alike_read _ _ Halike cfg bw _ Hn).
  - apply (alike_read_write _ _ Halike cfg bw _ Hn).
  - apply (alike_simple_nic _ _ Halike cfg bw _ Hn).
  - apply (alike_kernel_nic _ _ Halike cfg bw _ Hn).
  - apply (alike_pmd_nic _ _ Halike cfg bw _ Hn).
Qed.

End Alike.

(** X6: a run does not depend on anything the driver never reads.  If
    two packages build the same configurations and, on the payloads 60 to
    1496 with direction BOTH and the two driver options the sweep uses,
    their calls raise alike and agree on the one figure the driver takes
    from each result (the transmit figure, for reads the receive figure),
    then a run does the same with either: the same value or exception, the
    same calls, the same file.  The receive figure of writes, combined
    transfers and NIC results, the transmit figure of reads, and the
    answers for other payloads, directions or options never matter. *)
Theorem unread_figures_do_not_matter
    (m1 m2 : ModelPackage) v l aw ec mp mr rc sp st :
  ReadAlike m1 m2 ->
  run_pcie_model (model := m1) v l aw ec mp mr rc sp st
  = run_pcie_model (model := m2) v l aw ec mp mr rc sp st.
Proof.
  intros Halike.
  destruct (int_params aw ec mp mr rc) as [[[[[a e] m] r] c]|x] eqn:Hints.
  2: { by rewrite !(run_ints_raise _ _ _ _ _ _ _ _ _ _ Hints). }
  pose proof (alike_pcie_Cfg _ _ Halike v l a e m r c) as Hsame_cfg.
  destruct (@pcie_Cfg m1 v l a e m r c) as [cfg|x] eqn:Hcfg.
  2: { symmetry in Hsame_cfg.
       by rewrite
         (run_pcie_Cfg_raises (model := m1) _ _ _ _ _ _ _ _ _ _ _ _ _
            Hints _ _ Hcfg),
         (run_pcie_Cfg_raises (model := m2) _ _ _ _ _ _ _ _ _ _ _ _ _
            Hints _ _ Hsame_cfg). }
  symmetry in Hsame_cfg.
  pose proof (alike_eth_Cfg _ _ Halike sp) as Hsame_eth.
  destruct (@eth_Cfg m1 sp) as [ethcfg|x] eqn:Heth; symmetry in Hsame_eth.
  2: { by rewrite
         (run_eth_Cfg_raises (model := m1) _ _ _ _ _ _ _ _ _ _ _ _ _
            Hints _ _ _ Hcfg Heth),
         (run_eth_Cfg_raises (model := m2) _ _ _ _ _ _ _ _ _ _ _ _ _
            Hints _ _ _ Hsame_cfg Hsame_eth). }
  destruct (find_unused (world st) ".dat" (drawn (world st)) TMP_MAX)
    as [i|] eqn:Htmp.
  - rewrite
      (run_sweeps (model := m1) _ _ _ _ _ _ _ _ _ _ _ _ _
         Hints _ _ _ _ Hcfg Heth Htmp),
      (run_sweeps (model := m2) _ _ _ _ _ _ _ _ _ _ _ _ _
         Hints _ _ _ _ Hsame_cfg Hsame_eth Htmp).
    by rewrite (alike_run_attempts _ _ Halike), (alike_full_series _ _ Halike).
  - assert (Hav : tmp_available st = false)
      by (unfold tmp_available; by rewrite Htmp).
    by rewrite
      (run_tmp_raises (model := m1) _ _ _ _ _ _ _ _ _ _ _ _ _
         Hints _ _ _ Hcfg Heth Hav),
      (run_tmp_raises (model := m2) _ _ _ _ _ _ _ _ _ _ _ _ _
         Hints _ _ _ Hsame_cfg Hsame_eth Hav).
Qed.

Lemma only_tx_alike r : alike tx_of r (only_tx r).
Proof. by destruct r. Qed.

Lemma only_rx_alike r : alike rx_of r (only_rx r).
Proof. by destruct r. Qed.

Lemma erase_unread_alike m : ReadAlike m (erase_unread m).
Proof.
  split; intros; cbn [erase_unread pcie_Cfg eth_Cfg mem_bw_write mem_bw_read
                        mem_bw_read_write simple_nic_bw niantic_bw];
    first [reflexivity | apply only_tx_alike | apply only_rx_alike].
Qed.

(** ** The calls a run may make *)



Section Budget.

Context {model : ModelPackage}.


End Budget.

(** ** Clicks *)

Section Clicks.

Context {model : ModelPackage}.

Lemma click_eight v l aw ec mp mr rc sp :
  click [v; l; aw; ec; mp; mr; rc; sp] = run_pcie_model v l aw ec mp mr rc sp.
Proof. reflexivity. Qed.

(** What one click does to the files: nothing, and then it has raised, or
    one new empty file. *)
Lemma click_files values st :
  (files (world (snd (click values st))) = files (world st)
   /\ is_Ok (fst (click values st)) = false)
  \/ exists path,
       files (world st) !! path = None
       /\ files (world (snd (click values st)))
          = <[path := EmptyString]> (files (world st)).
Proof.
  destruct values as [|v [|l [|aw [|ec [|mp [|mr [|rc [|sp [|extra rest]]]]]]]]];
    try (left; split; reflexivity).
  rewrite click_eight.
  destruct (run_pcie_model_path v l aw ec mp mr rc sp st)
    as [msg Hints|a e m r c x Hints Hcfg
       |a e m r c cfg x Hints Hcfg Heth
       |a e m r c cfg ethcfg Hints Hcfg Heth Htmp
       |a e m r c cfg ethcfg i Hints Hcfg Heth Htmp];
    cbn [fst snd logged tmp_exhausted with_tmp_file world files is_Ok];
    try (left; split; reflexivity).
  right. eexists. split; [|reflexivity]. by eapply find_unused_free.
Qed.

(** X8: clicking again and again piles temporary files up.  After n
    clicks on a selection, every file that existed before is still there
    with its content, every other file is empty, and the number of files
    has grown by at least the number of clicks that returned and at most
    n: every click that returns leaves one more file, and no click removes
    one. *)
Theorem clicks_pile_up_temporary_files values n st :
  length (fst (clicks n values st)) = n
  /\ files (world st) ⊆ files (world (snd (clicks n values st)))
  /\ (forall path content,
        files (world (snd (clicks n values st))) !! path = Some content ->
        files (world st) !! path = None -> content = EmptyString)
  /\ (size (files (world st)) + count_occ bool_dec (fst (clicks n values st)) true
      <= size (files (world (snd (clicks n values st)))))%nat
  /\ (size (files (world (snd (clicks n values st))))
      <= size (files (world st)) + n)%nat.
Proof.
  revert st. induction n as [|n IH]; intros st.
  - cbn [clicks fst snd length count_occ].
    split; [done|]. split; [done|]. split; [congruence|]. lia.
  - cbn [clicks fst snd length].
    destruct (IH (snd (click values st)))
      as (Hlen & Hsub & Hnew & Hlow & Hhigh).
    set (rest := clicks n values (snd (click values st))) in *.
    clearbody rest.
    destruct (click_files values st)
      as [[Hsame Hfail]|(path & Hfree & Hone)].
    + rewrite Hsame in *. rewrite Hfail.
      split; [by rewrite Hlen|]. split; [done|]. split; [done|].
      cbn [count_occ]. destruct (bool_dec false true); [done|]. lia.
    + rewrite Hone in *.
      split; [by rewrite Hlen|].
      split; [etrans; [by apply insert_subseteq|done]|].
      split.
      { intros p content Hp Hold.
        destruct (decide (p = path)) as [->|Hne].
        - assert (Hin : <[path := EmptyString]> (files (world st)) !! path
                        = Some EmptyString) by apply lookup_insert_eq.
          eapply lookup_weaken in Hin; [|exact Hsub]. congruence.
        - apply (Hnew p content Hp). by rewrite lookup_insert_ne. }
      rewrite map_size_insert_None in * by done.
      cbn [count_occ].
      destruct (bool_dec (is_Ok (fst (click values st))) true); simpl; lia.
Qed.

End Clicks.

(** ** What the UI can hand over *)

Ltac from_choices H :=
  simpl in H;
  repeat (destruct H as [<-|H];
          [eexists; split; [vm_compute; reflexivity|simpl; tauto]|]);
  destruct H.

Lemma addr_width_from_ui s :
  In s addr_width_choices -> exists a, int_of_str s = Ok a /\ In a [32; 64].
Proof. intros H. from_choices H. Qed.

Lemma ecrc_from_ui s :
  In s ecrc_choices -> exists e, int_of_str s = Ok e /\ In e [0; 1].
Proof. intros H. from_choices H. Qed.

Lemma mps_from_ui s :
  In s mps_choices ->
  exists m, int_of_str s = Ok m /\ In m [128; 256; 512; 1024; 2048; 4096].
Proof. intros H. from_choices H. Qed.

Lemma mrrs_from_ui s :
  In s mrrs_choices ->
  exists r, int_of_str s = Ok r /\ In r [128; 256; 512; 1024; 2048; 4096].
Proof. intros H. from_choices H. Qed.

Lemma rcb_from_ui s :
  In s rcb_choices -> exists c, int_of_str s = Ok c /\ In c [64; 128].
Proof. intros H. from_choices H. Qed.

Section Interface.

Context {model : ModelPackage}.

(** X9: whatever the user selects in the eight dropdowns, and whatever
    the engine is, a click calls [run_pcie_model] with the eight selected
    values in the order of its parameters; the five conversions to integers
    succeed, so the click does not end in a [ValueError] of [int] and the
    first thing it does is the call of [pcie.Cfg], with one of the offered
    generations and lane counts, an address width of 32 or 64, an ECRC flag
    of 0 or 1, MPS and MRRS among the powers of two 128..4096 and an RCB of
    64 or 128.  The name of the Ethernet column is none of the fixed column
    names, so the table of a click that returns has eight columns. *)
Theorem ui_selection_reaches_the_engine values st :
  selectable values ->
  exists v l aw ec mp mr rc sp a e m r c rest,
    values = [v; l; aw; ec; mp; mr; rc; sp]
    /\ click values st = run_pcie_model v l aw ec mp mr rc sp st
    /\ int_params aw ec mp mr rc = Ok (a, e, m, r, c)
    /\ In v pcie_version_choices
    /\ In l lanes_choices
    /\ In a [32; 64]
    /\ In e [0; 1]
    /\ In m [128; 256; 512; 1024; 2048; 4096]
    /\ In r [128; 256; 512; 1024; 2048; 4096]
    /\ In c [64; 128]
    /\ In sp ethernet_speed_choices
    /\ calls (snd (click values st))
       = calls st ++ Call_pcie_Cfg v l a e m r c :: rest
    /\ ~ In (eth_column sp) fixed_columns.
Proof.
  unfold selectable, demo.inputs. intros Hsel.
  repeat match goal with
         | H : Forall2 _ (_ :: _) _ |- _ =>
             apply Forall2_cons_inv_l in H as (? & ? & ? & H & ->)
         | H : Forall2 _ [] _ |- _ => apply Forall2_nil_inv_l in H as ->
         end.
  cbn [gr.choices demo.pcie_version demo.lanes demo.addr_width demo.ecrc
       demo.mps demo.mrrs demo.rcb demo.ethernet_speed] in *.
  match goal with
  | |- context [click [?v; ?l; ?aw; ?ec; ?mp; ?mr; ?rc; ?sp]] =>
      rename v into v0; rename l into l0; rename aw into aw0;
      rename ec into ec0; rename mp into mp0; rename mr into mr0;
      rename rc into rc0; rename sp into sp0
  end.
  destruct (addr_width_from_ui aw0) as (a & Ha & Ha'); [done|].
  destruct (ecrc_from_ui ec0) as (e & He & He'); [done|].
  destruct (mps_from_ui mp0) as (m & Hm & Hm'); [done|].
  destruct (mrrs_from_ui mr0) as (r & Hr & Hr'); [done|].
  destruct (rcb_from_ui rc0) as (c & Hc & Hc'); [done|].
  assert (Hints : int_params aw0 ec0 mp0 mr0 rc0 = Ok (a, e, m, r, c))
    by (by apply int_params_Ok).
  assert (Hlog : exists rest,
            calls (snd (run_pcie_model v0 l0 aw0 ec0 mp0 mr0 rc0 sp0 st))
            = calls st ++ Call_pcie_Cfg v0 l0 a e m r c :: rest).
  { destruct (run_pcie_model_path v0 l0 aw0 ec0 mp0 mr0 rc0 sp0 st)
      as [msg Hints'|a' e' m' r' c' x Hints' Hcfg
         |a' e' m' r' c' cfg x Hints' Hcfg Heth
         |a' e' m' r' c' cfg ethcfg Hints' Hcfg Heth Htmp
         |a' e' m' r' c' cfg ethcfg i Hints' Hcfg Heth Htmp];
      rewrite Hints in Hints'; try discriminate Hints';
      injection Hints' as <- <- <- <- <-;
      cbn [snd logged tmp_exhausted with_tmp_file calls]; eauto. }
  destruct Hlog as [rest Hlog].
  exists v0, l0, aw0, ec0, mp0, mr0, rc0, sp0, a, e, m, r, c, rest.
  rewrite click_eight.
  repeat (split; [done|]). by apply ui_speed_column.
Qed.

End Interface.

(** ** The further properties on runs of the illustrative engine *)



(** X4, witness: with an engine that accepts the speed name
    [Simple NIC], the Ethernet column is named like the Simple NIC column
    and the table has seven columns. *)
Lemma speed_named_like_a_column_gives_seven_columns :
  exists text fig df,
    fst (run_pcie_model (model := any_speed_package)
           "gen3" "x8" "64" "0" "256" "512" "64" "Simple NIC" initial_state)
    = Ok (text, fig, df)
    /\ length (pd.columns df) = 7%nat
    /\ pd.index df = range 0 23.
Proof.
  assert (Hok : is_Ok (fst (run_pcie_model (model := any_speed_package)
                  "gen3" "x8" "64" "0" "256" "512" "64" "Simple NIC"
                  initial_state)) = true)
    by (vm_compute; reflexivity).
  destruct (table_is_well_formed_for_any_speed_name
              (model := any_speed_package)
              "gen3" "x8" "64" "0" "256" "512" "64" "Simple NIC"
              initial_state Hok)
    as (a & e & m & r & c & cfg & ethcfg & text & fig & df
        & _ & _ & _ & Hres & _ & Hindex & _ & _ & _ & Hcount).
  exists text, fig, df. split; [exact Hres|]. split; [exact Hcount|exact Hindex].
Defined.

(** X5, witness: the run with the values the UI starts from. *)
Lemma default_table_rows_are_plotted_points :
  exists text fig df,
    fst (run_pcie_model (model := example_package)
           "gen3" "x8" "64" "0" "256" "512" "64" "40GigE" initial_state)
    = Ok (text, fig, df)
    /\ go.axis_range (go.xaxis (go.layout fig)) = Some (64, 1500)
    /\ forall tr, In tr (go.data fig) ->
         go.x tr = seqZ 64 1437 /\ length (go.y tr) = 1437%nat
         /\ go.hovertemplate tr = Some hover.
Proof.
  assert (Hno : ~ In (eth_column "40GigE") fixed_columns).
  { intros Hin. vm_compute in Hin. decompose [or] Hin; try discriminate; done. }
  pose proof (table_rows_are_plotted_points (model := example_package)
              "gen3" "x8" "64" "0" "256" "512" "64" "40GigE"
              initial_state default_arguments_return Hno) as H.
  destruct H
    as (text & fig & df & cells & Hres & _ & _ & _ & Htraces & Hrange & _).
  exists text, fig, df.
  split; [exact Hres|]. split; [exact Hrange|exact Htraces].
Defined.

(** X6, witness: the illustrative engine and the same engine with the
    figures erased that the driver does not read; they differ, for one in
    the receive figure of a combined transfer of 60 bytes. *)
Lemma erased_engine_runs_like_the_full_one :
  rx_of (mem_bw_read_write (ModelPackage := example_package)
           default_cfg (make_bw_spec default_cfg) 60)
  <> rx_of (mem_bw_read_write (ModelPackage := erase_unread example_package)
              default_cfg (make_bw_spec default_cfg) 60)
  /\ run_pcie_model (model := example_package)
       "gen3" "x8" "64" "0" "256" "512" "64" "40GigE" initial_state
     = run_pcie_model (model := erase_unread example_package)
         "gen3" "x8" "64" "0" "256" "512" "64" "40GigE" initial_state.
Proof.
  split.
  - vm_compute. discriminate.
  - apply unread_figures_do_not_matter. split; intros;
      first [reflexivity | apply only_tx_alike | apply only_rx_alike].
Defined.

(** X9, witness: the selection the UI starts from. *)
Lemma default_selection_reaches_the_engine :
  selectable (map gr.value demo.inputs)
  /\ exists rest,
       calls (snd (click (model := example_package)
                     (map gr.value demo.inputs) initial_state))
       = Call_pcie_Cfg "gen3" "x8" 64 0 256 512 64 :: rest.
Proof.
  assert (Hsel : selectable (map gr.value demo.inputs)).
  { unfold selectable, demo.inputs.
    cbn [map]. repeat (constructor; [vm_compute; auto 10|]). constructor. }
  split; [exact Hsel|].
  destruct (ui_selection_reaches_the_engine (model := example_package)
              (map gr.value demo.inputs) initial_state Hsel)
    as (v & l & aw & ec & mp & mr & rc & sp & a & e & m & r & c & rest
        & Hvalues & _ & Hints & _ & _ & _ & _ & _ & _ & _ & _ & Hlog & _).
  vm_compute in Hvalues.
  injection Hvalues as <- <- <- <- <- <- <- <-.
  vm_compute in Hints.
  injection Hints as <- <- <- <- <-.
  exists rest. exact Hlog.
Defined.
